(** * Campaign aggregate and content-generation orchestration

    A shallow embedding of the marketing backend's campaign model
    (models/Campaign.js), persona model (models/Persona.js), the AI content
    service (services/aiService.js), the campaign, content and persona
    controllers and the update route of campaigns with its validation
    middleware, followed by the properties of the specification that concern
    them.

    Conventions of the embedding.
    - An ObjectId is the string its [toString()] yields, so the source's
      [a.toString() === b.toString()] is string equality.
    - A JavaScript value that may be [undefined] is an [option].
    - A call that may throw yields a [Js.completion]; a handler's
      [try { ... } catch] turns a throw into the 500 response.
    - The identifiers of stored documents are ObjectIds: a [findById] on a
      string that is no ObjectId finds nothing and rejects with a CastError.
    - The database is a pair of finite maps; a document fetched by [findById]
      is a separate in-memory value, so that a [push] survives a failed
      [save] exactly as it does on the JavaScript object.
    - A JavaScript Number holding a metric is a rational; the pre-save hook
      itself is stated over an arbitrary number type, so what is proved of it
      does not depend on how division rounds.
    - String lengths are [String.length]; they agree with JavaScript's
      [length] on ASCII text. *)

From Stdlib Require Import Ascii String List ZArith QArith Bool Lia.
From stdpp Require Import base option list strings gmap.

Local Open Scope string_scope.
Local Open Scope list_scope.

(** ** JavaScript values and completions *)

Module Js.

(** What a thrown error is, as far as the handlers can tell them apart. *)
Inductive error : Type :=
  | TypeError                       (* property access on undefined *)
  | Error (message : string)        (* throw new Error(message) *)
  | ValidationError                 (* mongoose schema validation on save/update *)
  | CastError.                      (* mongoose: a value does not cast to its schema type *)

Inductive completion (A : Type) : Type :=
  | Normal (a : A)
  | Throw (e : error).
Arguments Normal {A} a.
Arguments Throw {A} e.

(** Whether a completion is normal: a promise that fulfils. *)
Definition isNormal {A : Type} (c : completion A) : bool :=
  match c with
  | Normal _ => true
  | Throw _ => false
  end.

(** Truthiness of a string that may be undefined: [!!s]. *)
Definition truthyString (s : option string) : bool :=
  match s with
  | Some v => negb (String.eqb v "")
  | None => false
  end.

(** Truthiness of [undefined | boolean]. *)
Definition truthyBool (b : option bool) : bool :=
  match b with
  | Some v => v
  | None => false
  end.

(** [xs.includes(x)] on an array of strings. *)
Definition includes (xs : list string) (x : string) : bool :=
  existsb (String.eqb x) xs.

(** [xs.includes(x)] when [x] may be undefined (never a member). *)
Definition includesOpt (xs : list string) (x : option string) : bool :=
  match x with
  | Some v => includes xs v
  | None => false
  end.

(** A hexadecimal digit, of either case. *)
Definition isHexDigit (c : ascii) : bool :=
  (Nat.leb 48 (nat_of_ascii c) && Nat.leb (nat_of_ascii c) 57)
  || (Nat.leb 65 (nat_of_ascii c) && Nat.leb (nat_of_ascii c) 70)
  || (Nat.leb 97 (nat_of_ascii c) && Nat.leb (nat_of_ascii c) 102).

(** Whether a string is the hexadecimal form of an ObjectId, 24 hexadecimal
    digits: what express-validator's [isMongoId()] accepts, and the strings
    that mongoose casts to an ObjectId in a query or an update. Any other
    string makes [findById] reject with a CastError. (The strings of 12
    characters that older drivers cast as well are left out: the routes let
    only the hexadecimal form through.) *)
Definition isObjectId (s : string) : bool :=
  Nat.eqb (String.length s) 24 && forallb isHexDigit (list_ascii_of_string s).

End Js.

(** ** models/Persona.js *)

Module Persona.

Record t : Type := {
  userId : option string;     (* owner reference; absent on predefined personas *)
  name : string;
  description : string;
  isPredefined : bool
}.

(** [return this.userId && this.userId.toString() === userId.toString();]
    The result is used only for its truthiness. *)
Definition isOwnedBy (p : t) (uid : string) : bool :=
  match userId p with
  | Some owner => String.eqb owner uid
  | None => false
  end.

(** [if (this.isPredefined) return false; return this.isOwnedBy(userId);] *)
Definition canBeEditedBy (p : t) (uid : string) : bool :=
  if isPredefined p then false else isOwnedBy p uid.

(** The guard of campaignController (createCampaign, updateCampaign):
    [!persona.isPredefined && persona.userId &&
     persona.userId.toString() !== userId.toString()]. *)
Definition accessDeniedCampaign (p : t) (uid : string) : bool :=
  negb (isPredefined p) &&
  match userId p with
  | Some owner => negb (String.eqb owner uid)
  | None => false
  end.

(** The guard of contentController (all five generation handlers):
    [!persona.isPredefined && persona.userId && !persona.isOwnedBy(userId)]. *)
Definition accessDeniedContent (p : t) (uid : string) : bool :=
  negb (isPredefined p) &&
  match userId p with
  | Some _ => negb (isOwnedBy p uid)
  | None => false
  end.

End Persona.

(** ** Campaign metrics and the pre-save hook *)

Module Metrics.

Section Numbers.

(** The number type and the operations the hook uses on it. *)
Variable num : Type.
Variables (zero hundred : num).
Variables (div mul : num -> num -> num).
Variable gt : num -> num -> bool.

Record t : Type := {
  totalReach : num;
  totalImpressions : num;
  totalClicks : num;
  totalConversions : num;
  totalSpent : num;
  ctr : num;
  cpc : num;
  cpa : num;
  roi : num
}.

Definition set_ctr (v : num) (m : t) : t :=
  {| totalReach := totalReach m; totalImpressions := totalImpressions m;
     totalClicks := totalClicks m; totalConversions := totalConversions m;
     totalSpent := totalSpent m; ctr := v; cpc := cpc m; cpa := cpa m;
     roi := roi m |}.

Definition set_cpc (v : num) (m : t) : t :=
  {| totalReach := totalReach m; totalImpressions := totalImpressions m;
     totalClicks := totalClicks m; totalConversions := totalConversions m;
     totalSpent := totalSpent m; ctr := ctr m; cpc := v; cpa := cpa m;
     roi := roi m |}.

Definition set_cpa (v : num) (m : t) : t :=
  {| totalReach := totalReach m; totalImpressions := totalImpressions m;
     totalClicks := totalClicks m; totalConversions := totalConversions m;
     totalSpent := totalSpent m; ctr := ctr m; cpc := cpc m; cpa := v;
     roi := roi m |}.

(** Schema defaults: every field [default: 0]. *)
Definition defaults : t :=
  {| totalReach := zero; totalImpressions := zero; totalClicks := zero;
     totalConversions := zero; totalSpent := zero; ctr := zero;
     cpc := zero; cpa := zero; roi := zero |}.

(** [campaignSchema.pre("save", ...)]: three guarded assignments, in
    this order, none with an [else]. *)
Definition preSave (m : t) : t :=
  let m1 :=
    if gt (totalImpressions m) zero
    then set_ctr (mul (div (totalClicks m) (totalImpressions m)) hundred) m
    else m in
  let m2 :=
    if gt (totalClicks m1) zero
    then set_cpc (div (totalSpent m1) (totalClicks m1)) m1
    else m1 in
  if gt (totalConversions m2) zero
  then set_cpa (div (totalSpent m2) (totalConversions m2)) m2
  else m2.

(** The argument of [updateMetrics]: any subset of the fields. *)
Record patch : Type := {
  p_totalReach : option num;
  p_totalImpressions : option num;
  p_totalClicks : option num;
  p_totalConversions : option num;
  p_totalSpent : option num;
  p_ctr : option num;
  p_cpc : option num;
  p_cpa : option num;
  p_roi : option num
}.

(** [Object.assign(this.metrics, metricsData)]. *)
Definition assign (m : t) (d : patch) : t :=
  {| totalReach := default (totalReach m) (p_totalReach d);
     totalImpressions := default (totalImpressions m) (p_totalImpressions d);
     totalClicks := default (totalClicks m) (p_totalClicks d);
     totalConversions := default (totalConversions m) (p_totalConversions d);
     totalSpent := default (totalSpent m) (p_totalSpent d);
     ctr := default (ctr m) (p_ctr d);
     cpc := default (cpc m) (p_cpc d);
     cpa := default (cpa m) (p_cpa d);
     roi := default (roi m) (p_roi d) |}.

End Numbers.

Arguments totalReach {num} _.
Arguments totalImpressions {num} _.
Arguments totalClicks {num} _.
Arguments totalConversions {num} _.
Arguments totalSpent {num} _.
Arguments ctr {num} _.
Arguments cpc {num} _.
Arguments cpa {num} _.
Arguments roi {num} _.
Arguments preSave {num} zero hundred div mul gt m.
Arguments assign {num} m d.
Arguments defaults {num} zero.

End Metrics.

(** ** models/Campaign.js *)

Module Campaign.

(** A metric is a JavaScript Number. *)
Definition Number : Type := Q.

(** [a > b] on metrics. *)
Definition gtNumber (a b : Number) : bool := negb (Qle_bool a b).

Definition hundred : Number := 100 # 1.

Definition zeroNumber : Number := 0 # 1.

(** An element of the embedded [content] array. [generationPrompt] and the
    timestamps carry no validator beyond [trim] and are left out. *)
Record Content : Type := {
  contentType : string;
  platform : option string;
  subjectLine : option string;
  contentBody : string;
  hashtags : list string;
  qualityScore : Z
}.

Record Collaborator : Type := {
  c_userId : option string;     (* ObjectId, not required by the schema *)
  c_role : string               (* default "viewer" *)
}.

Record GenerationSettings : Type := {
  contentTypes : list string;
  platforms : list string;
  creativityLevel : Number;     (* default 5 *)
  customInstructions : option string
}.

(** An element of the embedded [abTests] array. The two variants are of type
    Mixed and required: what is kept of them is whether they are there. The
    metrics of the variants and [endDate] carry no validator and are left
    out. *)
Record ABTest : Type := {
  testName : string;
  testType : string;
  testStatus : string;          (* default "draft" *)
  hasVariantA : bool;
  hasVariantB : bool;
  winner : string;              (* default "inconclusive" *)
  confidence : Number           (* default 0 *)
}.

(** A campaign document. A required string that is missing is the empty
    string, which is what the [required] validator of a string refuses; the
    two dates are time values. [targetAudience.demographics],
    [targetAudience.interests], [tags], the timestamps and the members of
    [generationJob] other than [status] and [progress] carry no validator
    and are left out. *)
Record t : Type := {
  userId : string;
  personaId : string;
  name : string;
  description : option string;
  objective : string;
  status : string;
  budget : Number;              (* default 0 *)
  currency : string;            (* default "USD" *)
  startDate : option Z;
  endDate : option Z;
  tone : string;                (* default "professional" *)
  keywords : option string;
  audienceSize : option Number; (* targetAudience.size *)
  content : list Content;
  abTests : list ABTest;
  metrics : Metrics.t Number;
  generationSettings : GenerationSettings;
  jobStatus : string;           (* generationJob.status, default "pending" *)
  jobProgress : Number;         (* generationJob.progress, default 0 *)
  collaborators : list Collaborator;
  isArchived : bool
}.

Definition set_content (v : list Content) (c : t) : t :=
  {| userId := userId c; personaId := personaId c; name := name c;
     description := description c; objective := objective c; status := status c;
     budget := budget c; currency := currency c; startDate := startDate c;
     endDate := endDate c; tone := tone c; keywords := keywords c;
     audienceSize := audienceSize c; content := v; abTests := abTests c;
     metrics := metrics c; generationSettings := generationSettings c;
     jobStatus := jobStatus c; jobProgress := jobProgress c;
     collaborators := collaborators c; isArchived := isArchived c |}.

Definition set_metrics (v : Metrics.t Number) (c : t) : t :=
  {| userId := userId c; personaId := personaId c; name := name c;
     description := description c; objective := objective c; status := status c;
     budget := budget c; currency := currency c; startDate := startDate c;
     endDate := endDate c; tone := tone c; keywords := keywords c;
     audienceSize := audienceSize c; content := content c; abTests := abTests c;
     metrics := v; generationSettings := generationSettings c; jobStatus := jobStatus c;
     jobProgress := jobProgress c; collaborators := collaborators c;
     isArchived := isArchived c |}.

Definition set_generationSettings (v : GenerationSettings) (c : t) : t :=
  {| userId := userId c; personaId := personaId c; name := name c;
     description := description c; objective := objective c; status := status c;
     budget := budget c; currency := currency c; startDate := startDate c;
     endDate := endDate c; tone := tone c; keywords := keywords c;
     audienceSize := audienceSize c; content := content c; abTests := abTests c;
     metrics := metrics c; generationSettings := v; jobStatus := jobStatus c;
     jobProgress := jobProgress c; collaborators := collaborators c;
     isArchived := isArchived c |}.

Definition set_status (v : string) (c : t) : t :=
  {| userId := userId c; personaId := personaId c; name := name c;
     description := description c; objective := objective c; status := v;
     budget := budget c; currency := currency c; startDate := startDate c;
     endDate := endDate c; tone := tone c; keywords := keywords c;
     audienceSize := audienceSize c; content := content c; abTests := abTests c;
     metrics := metrics c; generationSettings := generationSettings c;
     jobStatus := jobStatus c; jobProgress := jobProgress c;
     collaborators := collaborators c; isArchived := isArchived c |}.

Definition set_isArchived (v : bool) (c : t) : t :=
  {| userId := userId c; personaId := personaId c; name := name c;
     description := description c; objective := objective c; status := status c;
     budget := budget c; currency := currency c; startDate := startDate c;
     endDate := endDate c; tone := tone c; keywords := keywords c;
     audienceSize := audienceSize c; content := content c; abTests := abTests c;
     metrics := metrics c; generationSettings := generationSettings c;
     jobStatus := jobStatus c; jobProgress := jobProgress c;
     collaborators := collaborators c; isArchived := v |}.

Definition set_name (v : string) (c : t) : t :=
  {| userId := userId c; personaId := personaId c; name := v; description := description c;
     objective := objective c; status := status c; budget := budget c;
     currency := currency c; startDate := startDate c; endDate := endDate c;
     tone := tone c; keywords := keywords c; audienceSize := audienceSize c;
     content := content c; abTests := abTests c; metrics := metrics c;
     generationSettings := generationSettings c; jobStatus := jobStatus c;
     jobProgress := jobProgress c; collaborators := collaborators c;
     isArchived := isArchived c |}.

Definition set_personaId (v : string) (c : t) : t :=
  {| userId := userId c; personaId := v; name := name c; description := description c;
     objective := objective c; status := status c; budget := budget c;
     currency := currency c; startDate := startDate c; endDate := endDate c;
     tone := tone c; keywords := keywords c; audienceSize := audienceSize c;
     content := content c; abTests := abTests c; metrics := metrics c;
     generationSettings := generationSettings c; jobStatus := jobStatus c;
     jobProgress := jobProgress c; collaborators := collaborators c;
     isArchived := isArchived c |}.

Definition set_objective (v : string) (c : t) : t :=
  {| userId := userId c; personaId := personaId c; name := name c;
     description := description c; objective := v; status := status c; budget := budget c;
     currency := currency c; startDate := startDate c; endDate := endDate c;
     tone := tone c; keywords := keywords c; audienceSize := audienceSize c;
     content := content c; abTests := abTests c; metrics := metrics c;
     generationSettings := generationSettings c; jobStatus := jobStatus c;
     jobProgress := jobProgress c; collaborators := collaborators c;
     isArchived := isArchived c |}.

Definition set_startDate (v : option Z) (c : t) : t :=
  {| userId := userId c; personaId := personaId c; name := name c;
     description := description c; objective := objective c; status := status c;
     budget := budget c; currency := currency c; startDate := v; endDate := endDate c;
     tone := tone c; keywords := keywords c; audienceSize := audienceSize c;
     content := content c; abTests := abTests c; metrics := metrics c;
     generationSettings := generationSettings c; jobStatus := jobStatus c;
     jobProgress := jobProgress c; collaborators := collaborators c;
     isArchived := isArchived c |}.

Definition set_endDate (v : option Z) (c : t) : t :=
  {| userId := userId c; personaId := personaId c; name := name c;
     description := description c; objective := objective c; status := status c;
     budget := budget c; currency := currency c; startDate := startDate c; endDate := v;
     tone := tone c; keywords := keywords c; audienceSize := audienceSize c;
     content := content c; abTests := abTests c; metrics := metrics c;
     generationSettings := generationSettings c; jobStatus := jobStatus c;
     jobProgress := jobProgress c; collaborators := collaborators c;
     isArchived := isArchived c |}.

(** *** Schema enumerations *)

Definition contentTypeEnum : list string :=
  ["email"; "social_post"; "ad_copy"; "blog_post"].

Definition platformEnum : list string :=
  ["email"; "linkedin"; "facebook"; "twitter"; "instagram"; "youtube"; "tiktok"].

Definition statusEnum : list string :=
  ["draft"; "generating"; "active"; "paused"; "completed"; "archived"].

Definition roleEnum : list string := ["viewer"; "editor"; "admin"].

Definition objectiveEnum : list string :=
  ["awareness"; "engagement"; "conversion"; "retention"; "lead_generation"].

Definition currencyEnum : list string := ["USD"; "EUR"; "GBP"; "INR"; "CAD"; "AUD"].

Definition toneEnum : list string :=
  ["professional"; "casual"; "friendly"; "urgent"; "humorous"; "inspiring";
   "authoritative"].

Definition testTypeEnum : list string :=
  ["subject_line"; "content_body"; "visual"; "cta"; "send_time"].

Definition testStatusEnum : list string := ["draft"; "running"; "completed"; "cancelled"].

Definition winnerEnum : list string := ["variant_a"; "variant_b"; "inconclusive"].

Definition jobStatusEnum : list string := ["pending"; "processing"; "completed"; "failed"].

(** [min] and [max] of a Number path. *)
Definition between (lo hi x : Number) : bool := Qle_bool lo x && Qle_bool x hi.

(** [maxlength] of a string path that may be undefined. *)
Definition atMost (n : nat) (s : option string) : bool :=
  match s with
  | Some v => Nat.leb (String.length v) n
  | None => true
  end.

(** *** Schema setters and validators *)

Section Schema.

(** [String.prototype.trim], which the schema's [trim: true] applies when a
    value is set. *)
Variable trim : string -> string.

(** Casting of an object pushed onto [content]: the [trim] setters. *)
Definition castContent (c : Content) : Content :=
  {| contentType := contentType c;
     platform := platform c;
     subjectLine := trim <$> subjectLine c;
     contentBody := trim (contentBody c);
     hashtags := trim <$> hashtags c;
     qualityScore := qualityScore c |}.

(** [contentSchema]: required, enum, maxlength, the hashtag validator
    [v.startsWith("#")] and the bounds of [qualityScore]. *)
Definition validContent (c : Content) : bool :=
  Js.includes contentTypeEnum (contentType c)
  && Js.includesOpt platformEnum (platform c)
  && match subjectLine c with
     | Some s => Nat.leb (String.length s) 200
     | None => true
     end
  && negb (String.eqb (contentBody c) "")
  && Nat.leb (String.length (contentBody c)) 5000
  && forallb (String.prefix "#") (hashtags c)
  && Z.leb 0 (qualityScore c)
  && Z.leb (qualityScore c) 100.

(** [generationSettings]: the enums of [contentTypes] and [platforms], the
    bounds of [creativityLevel] and the length bound of
    [customInstructions]. *)
Definition validGenerationSettings (g : GenerationSettings) : bool :=
  forallb (Js.includes platformEnum) (platforms g)
  && match customInstructions g with
     | Some s => Nat.leb (String.length s) 1000
     | None => true
     end
  && forallb (Js.includes contentTypeEnum) (contentTypes g)
  && between (0 # 1) (10 # 1) (creativityLevel g).

(** [abTestSchema]: required, enum, maxlength and the bounds of
    [confidence]. *)
Definition validABTest (a : ABTest) : bool :=
  negb (String.eqb (testName a) "")
  && Nat.leb (String.length (testName a)) 100
  && Js.includes testTypeEnum (testType a)
  && Js.includes testStatusEnum (testStatus a)
  && hasVariantA a
  && hasVariantB a
  && Js.includes winnerEnum (winner a)
  && between (0 # 1) (100 # 1) (confidence a).

(** The validators of the paths of a campaign other than [status],
    [content] and [generationSettings]: [name], [description], [objective],
    [budget], [currency], the two dates with the validator of [endDate]
    ([v > this.startDate], where [this] is the document), [tone],
    [keywords], [targetAudience.size], [abTests], [generationJob] and the
    roles of [collaborators]. *)
Definition validPaths (c : t) : bool :=
  negb (String.eqb (name c) "")
  && Nat.leb (String.length (name c)) 200
  && atMost 1000 (description c)
  && Js.includes objectiveEnum (objective c)
  && Qle_bool (0 # 1) (budget c)
  && Js.includes currencyEnum (currency c)
  && match startDate c, endDate c with
     | Some s, Some e => Z.ltb s e
     | _, _ => false
     end
  && Js.includes toneEnum (tone c)
  && atMost 500 (keywords c)
  && match audienceSize c with
     | Some n => Qle_bool (0 # 1) n
     | None => true
     end
  && forallb validABTest (abTests c)
  && Js.includes jobStatusEnum (jobStatus c)
  && between (0 # 1) (100 # 1) (jobProgress c)
  && forallb (fun x => Js.includes roleEnum (c_role x)) (collaborators c).

(** Validation run by [save()] on a document loaded from the database: the
    validators of all its paths. *)
Definition validate (c : t) : bool :=
  Js.includes statusEnum (status c)
  && forallb validContent (content c)
  && validGenerationSettings (generationSettings c)
  && validPaths c.

(** [campaign.generationSettings.customInstructions = v] (setter [trim]). *)
Definition setCustomInstructions (v : string) (c : t) : t :=
  set_generationSettings
    {| contentTypes := contentTypes (generationSettings c);
       platforms := platforms (generationSettings c);
       creativityLevel := creativityLevel (generationSettings c);
       customInstructions := Some (trim v) |} c.

(** [campaign.generationSettings.platforms = v]. *)
Definition setPlatforms (v : list string) (c : t) : t :=
  set_generationSettings
    {| contentTypes := contentTypes (generationSettings c);
       platforms := v;
       creativityLevel := creativityLevel (generationSettings c);
       customInstructions := customInstructions (generationSettings c) |} c.

(** [this.content.push(contentData)]. *)
Definition pushContent (item : Content) (c : t) : t :=
  set_content (content c ++ [castContent item]) c.

End Schema.

(** *** The pre-save hook on a campaign *)

Definition preSave (c : t) : t :=
  set_metrics
    (Metrics.preSave zeroNumber hundred Qdiv Qmult gtNumber (metrics c)) c.

(** *** Instance methods that do not touch the database *)

(** [return this.userId.toString() === userId.toString();] *)
Definition isOwnedBy (c : t) (uid : string) : bool :=
  String.eqb (userId c) uid.

(** [this.collaborators.find((c) => c.userId.toString() === userId.toString())]:
    the first entry whose user is [uid], [undefined] when there is none; the
    callback throws a TypeError on an entry without [userId]. *)
Fixpoint findCollaborator (cs : list Collaborator) (uid : string)
  : Js.completion (option Collaborator) :=
  match cs with
  | [] => Js.Normal None
  | c :: rest =>
      match c_userId c with
      | None => Js.Throw Js.TypeError
      | Some u =>
          if String.eqb u uid then Js.Normal (Some c)
          else findCollaborator rest uid
      end
  end.

(** [if (this.isOwnedBy(userId)) return true;
     const collaborator = this.collaborators.find(...);
     return collaborator && ["editor", "admin"].includes(collaborator.role);]
    The value is [true], [false] or [undefined] (here [None]). *)
Definition canBeEditedBy (c : t) (uid : string) : Js.completion (option bool) :=
  if isOwnedBy c uid then Js.Normal (Some true)
  else
    match findCollaborator (collaborators c) uid with
    | Js.Throw e => Js.Throw e
    | Js.Normal None => Js.Normal None
    | Js.Normal (Some collaborator) =>
        Js.Normal (Some (Js.includes ["editor"; "admin"] (c_role collaborator)))
    end.

(** [campaignSchema.virtual("contentStats")]:
    [const stats = {}; this.content.forEach((item) => {
       stats[item.contentType] = (stats[item.contentType] || 0) + 1; });
     return stats;]
    The keys are the content types of stored items, strings of the schema's
    enumeration. *)
Definition contentStats (c : t) : gmap string nat :=
  foldl
    (fun stats item =>
       <[contentType item := default 0 (stats !! contentType item) + 1]> stats)
    ∅ (content c).

End Campaign.

(** ** The world a request runs in *)

Module World.

(** A query issued against the database. *)
Inductive Lookup : Type :=
  | CampaignFindById (id : string)
  | PersonaFindById (id : string)
  | PersonaPopulate (id : string)       (* populate('personaId') *)
  | UserPopulate (id : string).         (* populate('userId') *)

(** A call of one of the three generating methods of the AI service: the
    content type and the platform argument it was given. *)
Record GenCall : Type := {
  g_contentType : string;
  g_platform : option string
}.

Record t : Type := {
  campaigns : gmap string Campaign.t;     (* the campaigns collection *)
  personas : gmap string Persona.t;       (* the personas collection *)
  lookups : list Lookup;                  (* queries issued so far *)
  generations : list GenCall              (* service calls issued so far *)
}.

Definition set_campaigns (v : gmap string Campaign.t) (w : t) : t :=
  {| campaigns := v; personas := personas w; lookups := lookups w;
     generations := generations w |}.

Definition logLookups (ls : list Lookup) (w : t) : t :=
  {| campaigns := campaigns w; personas := personas w;
     lookups := lookups w ++ ls; generations := generations w |}.

Definition logGeneration (g : GenCall) (w : t) : t :=
  {| campaigns := campaigns w; personas := personas w;
     lookups := lookups w; generations := generations w ++ [g] |}.

End World.

(** ** Campaign documents: the methods that save *)

Module Document.

(** What a handler holds after [Campaign.findById(id)]: the database and the
    fetched document, which it mutates in place. *)
Record Session : Type := {
  world : World.t;
  doc : Campaign.t
}.

Definition set_doc (d : Campaign.t) (s : Session) : Session :=
  {| world := world s; doc := d |}.

Definition set_world (w : World.t) (s : Session) : Session :=
  {| world := w; doc := doc s |}.

(** [this.save()]: validation first; when it passes, the pre-save hook runs
    and the document is written. When it fails the document keeps whatever
    was assigned or pushed before the call. *)
Definition save (id : string) (s : Session) : Session * Js.completion unit :=
  if Campaign.validate (doc s) then
    let d := Campaign.preSave (doc s) in
    ({| world := World.set_campaigns (<[id := d]> (World.campaigns (world s))) (world s);
        doc := d |},
     Js.Normal tt)
  else (s, Js.Throw Js.ValidationError).

Section Methods.

Variable trim : string -> string.

(** [this.content.push(contentData); return this.save();] *)
Definition addContent (id : string) (contentData : Campaign.Content) (s : Session)
  : Session * Js.completion unit :=
  save id (set_doc (Campaign.pushContent trim contentData (doc s)) s).

(** [Object.assign(this.metrics, metricsData); return this.save();] *)
Definition updateMetrics (id : string) (metricsData : Metrics.patch Campaign.Number)
    (s : Session) : Session * Js.completion unit :=
  save id
    (set_doc
       (Campaign.set_metrics (Metrics.assign (Campaign.metrics (doc s)) metricsData)
          (doc s)) s).

(** [this.isArchived = true; this.status = "archived"; return this.save();] *)
Definition archive (id : string) (s : Session) : Session * Js.completion unit :=
  save id
    (set_doc (Campaign.set_status "archived" (Campaign.set_isArchived true (doc s))) s).

End Methods.

End Document.

(** ** services/aiService.js *)

Module AIContentGenerator.

(** What the language model answers to the completion requests of one
    generating method: the subject line (requested by the email method
    only), the body, and the score. [None] is a request that rejects, or an
    answer without [choices[0].message.content]. *)
Record Reply : Type := {
  subjectReply : option string;
  bodyReply : option string;
  scoreReply : option string
}.

Section Service.

Variable trim : string -> string.

(** [parseInt]; [None] is NaN. *)
Variable parseInt : string -> option Z.

(** [content.match(/#[\w]+/g) || []]. *)
Variable matchHashtags : string -> list string.

(** [content.replace(/\n\n#[\w\s#]+$/, "")]. *)
Variable stripTrailingHashtags : string -> string.

(** [process.env.OPENAI_API_KEY]. *)
Variable OPENAI_API_KEY : option string.

(** [return !!process.env.OPENAI_API_KEY;] *)
Definition isAvailable : bool := Js.truthyString OPENAI_API_KEY.

(** [scoreContentQuality]: [parseInt(scoreText) || 0] clamped to 0..100, and
    75 when the scoring request fails. *)
Definition scoreContentQuality (r : Reply) : Z :=
  match scoreReply r with
  | Some text =>
      let score := default 0%Z (parseInt (trim text)) in
      Z.max 0 (Z.min 100 score)
  | None => 75%Z
  end.

Definition generateEmailContent (r : Reply) : Js.completion Campaign.Content :=
  match subjectReply r, bodyReply r with
  | Some subject, Some body =>
      Js.Normal
        {| Campaign.contentType := "email";
           Campaign.platform := Some "email";
           Campaign.subjectLine := Some (trim subject);
           Campaign.contentBody := trim body;
           Campaign.hashtags := [];
           Campaign.qualityScore := scoreContentQuality r |}
  | _, _ => Js.Throw (Js.Error "Failed to generate email content")
  end.

Definition generateSocialContent (platform : option string) (r : Reply)
  : Js.completion Campaign.Content :=
  match bodyReply r with
  | Some text =>
      let content := trim text in
      Js.Normal
        {| Campaign.contentType := "social_post";
           Campaign.platform := platform;
           Campaign.subjectLine := None;
           Campaign.contentBody := trim (stripTrailingHashtags content);
           Campaign.hashtags := matchHashtags content;
           Campaign.qualityScore := scoreContentQuality r |}
  | None => Js.Throw (Js.Error "Failed to generate social media content")
  end.

(** [async generateAdCopy(persona, campaign, platform = "google-ads")]. *)
Definition generateAdCopy (platform : option string) (r : Reply)
  : Js.completion Campaign.Content :=
  match bodyReply r with
  | Some text =>
      Js.Normal
        {| Campaign.contentType := "ad_copy";
           Campaign.platform := Some (default "google-ads" platform);
           Campaign.subjectLine := None;
           Campaign.contentBody := trim text;
           Campaign.hashtags := [];
           Campaign.qualityScore := scoreContentQuality r |}
  | None => Js.Throw (Js.Error "Failed to generate ad copy")
  end.

(** The call made by one turn of the loop of [generateContentVariations],
    with the log entry it leaves; no call for another content type. The
    platform of a social post is [platforms[0]] of
    [campaign.generationSettings?.platforms || ["linkedin"]]: the array of a
    campaign document is always there and an array is truthy even when
    empty, so the alternative is never taken and [platforms[0]] may be
    undefined. *)
Definition variationCall (campaign : Campaign.t) (contentType : string)
  : option (World.GenCall * (Reply -> Js.completion Campaign.Content)) :=
  if String.eqb contentType "email" then
    Some ({| World.g_contentType := "email"; World.g_platform := None |},
          generateEmailContent)
  else if String.eqb contentType "social_post" then
    let platforms := Campaign.platforms (Campaign.generationSettings campaign) in
    Some ({| World.g_contentType := "social_post"; World.g_platform := head platforms |},
          generateSocialContent (head platforms))
  else if String.eqb contentType "ad_copy" then
    Some ({| World.g_contentType := "ad_copy"; World.g_platform := None |},
          generateAdCopy None)
  else None.

(** [Promise.all]: the results in order, or the first rejection. *)
Fixpoint promiseAll {A : Type} (ps : list (Js.completion A)) : Js.completion (list A) :=
  match ps with
  | [] => Js.Normal []
  | Js.Throw e :: _ => Js.Throw e
  | Js.Normal a :: rest =>
      match promiseAll rest with
      | Js.Normal l => Js.Normal (a :: l)
      | Js.Throw e => Js.Throw e
      end
  end.

(** The language model: the reply to the n-th call of a generating method. *)
Variable ai : nat -> Reply.

(** The loop [for (let i = 0; i < variations; i++) promises.push(...)]: every
    call is started, whatever the others do. *)
Fixpoint startVariations (campaign : Campaign.t) (contentType : string)
    (count : nat) (w : World.t)
  : World.t * list (Js.completion Campaign.Content) :=
  match count with
  | O => (w, [])
  | S n =>
      match variationCall campaign contentType with
      | Some (g, method) =>
          let p := method (ai (length (World.generations w))) in
          let '(w', ps) := startVariations campaign contentType n (World.logGeneration g w) in
          (w', p :: ps)
      | None => startVariations campaign contentType n w
      end
  end.

(** [generateContentVariations(persona, campaign, contentType, variations)]. *)
Definition generateContentVariations (campaign : Campaign.t) (contentType : string)
    (variations : Z) (w : World.t)
  : World.t * Js.completion (list Campaign.Content) :=
  let '(w', promises) := startVariations campaign contentType (Z.to_nat variations) w in
  match promiseAll promises with
  | Js.Normal results => (w', Js.Normal results)
  | Js.Throw _ => (w', Js.Throw (Js.Error "Failed to generate content variations"))
  end.

End Service.

End AIContentGenerator.

(** ** HTTP responses *)

Module Http.

(** The [data] member of a response body. A batch error, rendered by the
    source as [`Failed to generate ${contentType}: ${error.message}`], is
    kept as the pair of the content type and the error. *)
Inductive Data : Type :=
  | NoData
  | UpdatedCampaignData (campaign : option Campaign.t) (persona : option Persona.t)
  | ContentData (content : Campaign.Content)
  | VariationsData (variations : list Campaign.Content)
  | BatchData (generatedContent : list Campaign.Content)
              (errors : option (list (string * Js.error))).

Record Response : Type := {
  statusCode : nat;
  success : bool;
  data : Data
}.

Definition ok (d : Data) : Response :=
  {| statusCode := 200; success := true; data := d |}.

Definition failure (code : nat) : Response :=
  {| statusCode := code; success := false; data := NoData |}.

(** The answer of a handler whose [findById(id)] found no document: when
    [id] is an ObjectId the query resolved to [null] and the handler answers
    404; when it is not, the query rejected with a CastError and the
    handler's [catch] answers 500. The identifiers of stored documents are
    ObjectIds. *)
Definition missing (id : string) : Response :=
  failure (if Js.isObjectId id then 404 else 500).

End Http.

(** ** controllers/campaignController.js *)

Module CampaignController.

(** The members of [req.body] of an update that the model follows: those the
    route makes mandatory, [status], [isArchived] and [metrics]. A date
    member is given by what mongoose casts it to: [Some t] for the date of
    time value [t], [None] for a value that is no date. *)
Record Body : Type := {
  b_name : option string;
  b_objective : option string;
  b_status : option string;
  b_personaId : option string;
  b_startDate : option (option Z);
  b_endDate : option (option Z);
  b_isArchived : option bool;
  b_metrics : option (Metrics.t Campaign.Number)
}.

Section Handlers.

Variable trim : string -> string.

(** The part of [createCampaign] before the campaign is built: the persona
    is fetched and the access guard applied. [None] lets the request go on. *)
Definition createCampaignPersonaGate (personaId userId : string) (w : World.t)
  : World.t * option Http.Response :=
  let w1 := World.logLookups [World.PersonaFindById personaId] w in
  match World.personas w !! personaId with
  | None => (w1, Some (Http.missing personaId))
  | Some persona =>
      if Persona.accessDeniedCampaign persona userId
      then (w1, Some (Http.failure 403))
      else (w1, None)
  end.

(** Casting of the update to the schema types: [personaId] to an ObjectId,
    the dates to dates. *)
Definition castsUpdate (body : Body) : bool :=
  match b_personaId body with
  | Some p => Js.isObjectId p
  | None => true
  end
  && match b_startDate body with
     | Some None => false
     | _ => true
     end
  && match b_endDate body with
     | Some None => false
     | _ => true
     end.

(** The update validators ([runValidators: true]) on the paths present in
    the update: [required] and [maxlength] of [name] on the trimmed value,
    the enums of [objective] and [status], and the validator of [endDate],
    [function (v) { return v > this.startDate; }]. In an update validator
    [this] is not the document: [this.startDate] is undefined, the comparison
    is false, and an update that carries [endDate] fails validation. *)
Definition updateValidators (body : Body) : bool :=
  match b_name body with
  | Some n => negb (String.eqb (trim n) "") && Nat.leb (String.length (trim n)) 200
  | None => true
  end
  && match b_objective body with
     | Some o => Js.includes Campaign.objectiveEnum o
     | None => true
     end
  && match b_status body with
     | Some s => Js.includes Campaign.statusEnum s
     | None => true
     end
  && match b_endDate body with
     | Some _ => false
     | None => true
     end.

(** Whether [findByIdAndUpdate(..., { runValidators: true })] accepts the
    update. *)
Definition validUpdate (body : Body) : bool :=
  castsUpdate body && updateValidators body.

(** The [$set] of the members of the body on the stored document. *)
Definition applyUpdate (body : Body) (c : Campaign.t) : Campaign.t :=
  let c1 := match b_name body with Some n => Campaign.set_name (trim n) c | None => c end in
  let c2 :=
    match b_objective body with Some o => Campaign.set_objective o c1 | None => c1 end in
  let c3 := match b_status body with Some s => Campaign.set_status s c2 | None => c2 end in
  let c4 := match b_personaId body with Some p => Campaign.set_personaId p c3 | None => c3 end in
  let c5 :=
    match b_startDate body with Some d => Campaign.set_startDate d c4 | None => c4 end in
  let c6 := match b_endDate body with Some d => Campaign.set_endDate d c5 | None => c5 end in
  let c7 :=
    match b_isArchived body with Some a => Campaign.set_isArchived a c6 | None => c6 end in
  match b_metrics body with Some m => Campaign.set_metrics m c7 | None => c7 end.

(** [Campaign.findByIdAndUpdate(id, { ...req.body, updatedAt }, { new: true,
    runValidators: true })]. No [save] takes place, so the pre-save hook does
    not run. *)
Definition findByIdAndUpdate (id : string) (body : Body) (w : World.t)
  : World.t * Js.completion (option Campaign.t) :=
  if validUpdate body then
    match World.campaigns w !! id with
    | Some c =>
        let c' := applyUpdate body c in
        (World.set_campaigns (<[id := c']> (World.campaigns w)) w, Js.Normal (Some c'))
    | None => (w, Js.Normal None)
    end
  else (w, Js.Throw (if castsUpdate body then Js.ValidationError else Js.CastError)).

(** [.populate('personaId', ...).populate('userId', ...)] on the updated
    document: the persona it names is fetched, [null] when there is none, and
    so is its user. The response shows the selected members of the persona
    (name, description, demographics); the model keeps the persona whole.
    The users are not part of the model, and the response is kept without
    the populated user. *)
Definition populate (updatedCampaign : option Campaign.t) (w : World.t)
  : World.t * Http.Data :=
  match updatedCampaign with
  | Some c =>
      (World.logLookups
         [World.PersonaPopulate (Campaign.personaId c);
          World.UserPopulate (Campaign.userId c)] w,
       Http.UpdatedCampaignData (Some c) (World.personas w !! Campaign.personaId c))
  | None => (w, Http.UpdatedCampaignData None None)
  end.

Definition updateCampaign (id userId : string) (body : Body) (w : World.t)
  : World.t * Http.Response :=
  let w1 := World.logLookups [World.CampaignFindById id] w in
  match World.campaigns w !! id with
  | None => (w1, Http.missing id)
  | Some campaign =>
      match Campaign.canBeEditedBy campaign userId with
      | Js.Throw _ => (w1, Http.failure 500)
      | Js.Normal editable =>
          if negb (Js.truthyBool editable) then (w1, Http.failure 403)
          else
            (* if (req.body.personaId &&
                   req.body.personaId !== campaign.personaId.toString()) *)
            let '(w2, rejected) :=
              match b_personaId body with
              | Some p =>
                  if Js.truthyString (Some p)
                     && negb (String.eqb p (Campaign.personaId campaign))
                  then
                    let w2 := World.logLookups [World.PersonaFindById p] w1 in
                    match World.personas w !! p with
                    | None => (w2, Some (Http.missing p))
                    | Some persona =>
                        if Persona.accessDeniedCampaign persona userId
                        then (w2, Some (Http.failure 403))
                        else (w2, None)
                    end
                  else (w1, None)
              | None => (w1, None)
              end in
            match rejected with
            | Some r => (w2, r)
            | None =>
                match findByIdAndUpdate id body w2 with
                | (w3, Js.Throw _) => (w3, Http.failure 500)
                | (w3, Js.Normal updatedCampaign) =>
                    let '(w4, data) := populate updatedCampaign w3 in
                    (w4, Http.ok data)
                end
            end
      end
  end.

Definition deleteCampaign (id userId : string) (w : World.t)
  : World.t * Http.Response :=
  let w1 := World.logLookups [World.CampaignFindById id] w in
  match World.campaigns w !! id with
  | None => (w1, Http.missing id)
  | Some campaign =>
      if negb (Campaign.isOwnedBy campaign userId) then (w1, Http.failure 403)
      else
        (* await Campaign.findByIdAndDelete(id); *)
        (World.set_campaigns (delete id (World.campaigns w1)) w1, Http.ok Http.NoData)
  end.

Definition archiveCampaign (id userId : string) (w : World.t)
  : World.t * Http.Response :=
  let w1 := World.logLookups [World.CampaignFindById id] w in
  match World.campaigns w !! id with
  | None => (w1, Http.missing id)
  | Some campaign =>
      match Campaign.canBeEditedBy campaign userId with
      | Js.Throw _ => (w1, Http.failure 500)
      | Js.Normal editable =>
          if negb (Js.truthyBool editable) then (w1, Http.failure 403)
          else
            match Document.archive id {| Document.world := w1; Document.doc := campaign |} with
            | (s, Js.Throw _) => (Document.world s, Http.failure 500)
            | (s, Js.Normal _) => (Document.world s, Http.ok Http.NoData)
            end
      end
  end.

(** [addContentToCampaign]: [req.body] is the content object as the schema
    casts it (an absent [hashtags] is the empty array, an absent
    [qualityScore] the default 0); the response carries
    [campaign.content[campaign.content.length - 1]]. *)
Definition addContentToCampaign (id userId : string) (body : Campaign.Content)
    (w : World.t) : World.t * Http.Response :=
  let w1 := World.logLookups [World.CampaignFindById id] w in
  match World.campaigns w !! id with
  | None => (w1, Http.missing id)
  | Some campaign =>
      match Campaign.canBeEditedBy campaign userId with
      | Js.Throw _ => (w1, Http.failure 500)
      | Js.Normal editable =>
          if negb (Js.truthyBool editable) then (w1, Http.failure 403)
          else
            match Document.addContent trim id body
                    {| Document.world := w1; Document.doc := campaign |} with
            | (s, Js.Throw _) => (Document.world s, Http.failure 500)
            | (s, Js.Normal _) =>
                (Document.world s,
                 {| Http.statusCode := 201; Http.success := true;
                    Http.data :=
                      match last (Campaign.content (Document.doc s)) with
                      | Some c => Http.ContentData c
                      | None => Http.NoData
                      end |})
            end
      end
  end.

End Handlers.

End CampaignController.

(** ** routes/campaigns.js and middleware/validation.js: the update route

    [router.put('/:id', validateObjectId, validateCampaign, updateCampaign)],
    behind [authenticateToken]: the request is that of an authenticated
    user. *)

Module CampaignRoutes.

(** [req.body] as it arrives: the members of [CampaignController.Body], the
    dates as the strings they are. The members that [validateCampaign] marks
    optional (description, budget, tone, keywords and the generation
    settings) are absent. *)
Record Request : Type := {
  r_name : option string;
  r_objective : option string;
  r_status : option string;
  r_personaId : option string;
  r_startDate : option string;
  r_endDate : option string;
  r_isArchived : option bool;
  r_metrics : option (Metrics.t Campaign.Number)
}.

Section Routes.

(** [String.prototype.trim], also what the sanitizer [trim()] applies. *)
Variable trim : string -> string.

(** validator.js's [isISO8601]. *)
Variable isISO8601 : string -> bool.

(** [new Date(text).getTime()], [None] for NaN (an invalid date). *)
Variable parseDate : string -> option Z.

(** [new Date().getTime()] when the request is validated. *)
Variable now : Z.

(** The cast of a string to the schema type [Date] by mongoose: the time
    value of the date, [None] when the cast fails. *)
Variable castDate : string -> option Z.

(** [param('id').isMongoId()]. *)
Definition validateObjectId (id : string) : bool := Js.isObjectId id.

(** [a < b] on two dates, false when either is invalid. *)
Definition dateLt (a b : option Z) : bool :=
  match a, b with
  | Some x, Some y => Z.ltb x y
  | _, _ => false
  end.

(** [a <= b] on two dates, false when either is invalid. *)
Definition dateLe (a b : option Z) : bool :=
  match a, b with
  | Some x, Some y => Z.leb x y
  | _, _ => false
  end.

(** The chains of [validateCampaign] on the members of the request; a
    missing member is validated as the empty string and fails [notEmpty],
    [isMongoId] and [isISO8601].
    - name: [trim().notEmpty().isLength({ max: 200 })];
    - objective: [notEmpty().isIn([...])];
    - personaId: [isMongoId()];
    - startDate: [isISO8601()] and not [new Date(value) < new Date()];
    - endDate: [isISO8601()] and not
      [new Date(value) <= new Date(req.body.startDate)]. *)
Definition validateCampaign (req : Request) : bool :=
  match r_name req with
  | Some n => negb (String.eqb (trim n) "") && Nat.leb (String.length (trim n)) 200
  | None => false
  end
  && match r_objective req with
     | Some o => negb (String.eqb o "") && Js.includes Campaign.objectiveEnum o
     | None => false
     end
  && match r_personaId req with
     | Some p => Js.isObjectId p
     | None => false
     end
  && match r_startDate req with
     | Some v => isISO8601 v && negb (dateLt (parseDate v) (Some now))
     | None => false
     end
  && match r_endDate req with
     | Some v =>
         isISO8601 v
         && negb (dateLe (parseDate v)
                    match r_startDate req with
                    | Some s => parseDate s
                    | None => None
                    end)
     | None => false
     end.

(** [req.body] as the handler receives it: the name trimmed by the
    sanitizer, the dates as mongoose casts these strings. *)
Definition body (req : Request) : CampaignController.Body :=
  {| CampaignController.b_name := trim <$> r_name req;
     CampaignController.b_objective := r_objective req;
     CampaignController.b_status := r_status req;
     CampaignController.b_personaId := r_personaId req;
     CampaignController.b_startDate := castDate <$> r_startDate req;
     CampaignController.b_endDate := castDate <$> r_endDate req;
     CampaignController.b_isArchived := r_isArchived req;
     CampaignController.b_metrics := r_metrics req |}.

(** [PUT /api/campaigns/:id]: each of the two validations answers 400 when
    it fails. *)
Definition putCampaign (id userId : string) (req : Request) (w : World.t)
  : World.t * Http.Response :=
  if negb (validateObjectId id) then (w, Http.failure 400)
  else if negb (validateCampaign req) then (w, Http.failure 400)
  else CampaignController.updateCampaign trim id userId (body req) w.

End Routes.

End CampaignRoutes.

(** ** controllers/contentController.js *)

Module ContentController.

(** [req.body] of the generation routes. *)
Record Body : Type := {
  campaignId : string;
  personaId : string;
  customInstructions : option string;
  platform : option string;
  contentType : option string;
  variations : option Z;
  contentTypes : option (list string);
  platforms : option (list string)
}.

(** The state of the loop of [batchGenerateContent]. *)
Record Batch : Type := {
  session : Document.Session;
  generatedContent : list Campaign.Content;
  errors : list (string * Js.error)
}.

(** What the handlers take from outside the repository: the string
    built-ins, the process environment and the language model. *)
Record Runtime : Type := {
  trim : string -> string;
  parseInt : string -> option Z;
  matchHashtags : string -> list string;
  stripTrailingHashtags : string -> string;
  OPENAI_API_KEY : option string;
  ai : nat -> AIContentGenerator.Reply
}.

Section Handlers.

Variable rt : Runtime.

(** [const aiService = new AIContentGenerator();] and its methods. *)
Definition isAvailable : bool := AIContentGenerator.isAvailable (OPENAI_API_KEY rt).

Definition serviceEmail : AIContentGenerator.Reply -> Js.completion Campaign.Content :=
  AIContentGenerator.generateEmailContent (trim rt) (parseInt rt).

Definition serviceSocial (platform : option string)
  : AIContentGenerator.Reply -> Js.completion Campaign.Content :=
  AIContentGenerator.generateSocialContent (trim rt) (parseInt rt) (matchHashtags rt)
    (stripTrailingHashtags rt) platform.

Definition serviceAdCopy (platform : option string)
  : AIContentGenerator.Reply -> Js.completion Campaign.Content :=
  AIContentGenerator.generateAdCopy (trim rt) (parseInt rt) platform.

Definition serviceVariations (campaign : Campaign.t) (contentType : string)
    (variations : Z) (w : World.t) : World.t * Js.completion (list Campaign.Content) :=
  AIContentGenerator.generateContentVariations (trim rt) (parseInt rt) (matchHashtags rt)
    (stripTrailingHashtags rt) (ai rt) campaign contentType variations w.

(** Whether [findById(id)] rejects with a CastError: [id] names no stored
    document and is not an ObjectId. The identifiers of stored documents
    are ObjectIds. *)
Definition castError {A : Type} (id : string) (found : option A) : bool :=
  match found with
  | Some _ => false
  | None => negb (Js.isObjectId id)
  end.

(** The block every generation handler repeats after the availability test:
    both documents are fetched ([Promise.all] of the two [findById]), which
    rejects with a CastError, answered 500 by the [catch], when one of the
    identifiers is not an ObjectId; then 404 for a missing campaign, 404 for
    a missing persona, 403 when the campaign cannot be edited, 403 when the
    persona guard denies. *)
Definition resolveAndAuthorize (body : Body) (userId : string) (w : World.t)
  : World.t * (Http.Response + Campaign.t) :=
  let w1 :=
    World.logLookups
      [World.CampaignFindById (campaignId body); World.PersonaFindById (personaId body)] w in
  (* whether Promise.all rejects, one of the two queries doing so *)
  let rejected :=
    castError (campaignId body) (World.campaigns w !! campaignId body)
    || castError (personaId body) (World.personas w !! personaId body) in
  match World.campaigns w !! campaignId body with
  | None => (w1, inl (Http.failure (if rejected then 500 else 404)))
  | Some campaign =>
      match World.personas w !! personaId body with
      | None => (w1, inl (Http.failure (if rejected then 500 else 404)))
      | Some persona =>
          match Campaign.canBeEditedBy campaign userId with
          | Js.Throw _ => (w1, inl (Http.failure 500))
          | Js.Normal editable =>
              if negb (Js.truthyBool editable) then (w1, inl (Http.failure 403))
              else if Persona.accessDeniedContent persona userId
                   then (w1, inl (Http.failure 403))
                   else (w1, inr campaign)
          end
      end
  end.

(** [if (customInstructions) { campaign.generationSettings.customInstructions
    = customInstructions; }] *)
Definition withCustomInstructions (body : Body) (campaign : Campaign.t) : Campaign.t :=
  match customInstructions body with
  | Some v =>
      if Js.truthyString (Some v) then Campaign.setCustomInstructions (trim rt) v campaign
      else campaign
  | None => campaign
  end.

(** One [await aiService.generateX(...)]: the call is logged and answered by
    the language model. *)
Definition callService (g : World.GenCall)
    (method : AIContentGenerator.Reply -> Js.completion Campaign.Content)
    (s : Document.Session) : Document.Session * Js.completion Campaign.Content :=
  let w := Document.world s in
  (Document.set_world (World.logGeneration g w) s,
   method (ai rt (length (World.generations w)))).

(** [const c = await aiService.generateX(...); await campaign.addContent(c);]
    the pair of statements of the three single-item handlers. *)
Definition generateAndAdd (id : string) (g : World.GenCall)
    (method : AIContentGenerator.Reply -> Js.completion Campaign.Content)
    (s : Document.Session) : Document.Session * Js.completion Campaign.Content :=
  match callService g method s with
  | (s1, Js.Throw e) => (s1, Js.Throw e)
  | (s1, Js.Normal c) =>
      match Document.addContent (trim rt) id c s1 with
      | (s2, Js.Throw e) => (s2, Js.Throw e)
      | (s2, Js.Normal _) => (s2, Js.Normal c)
      end
  end.

(** The end of a single-item handler: 200 with the content, 500 from the
    [catch]. *)
Definition respondContent (r : Document.Session * Js.completion Campaign.Content)
  : World.t * Http.Response :=
  match r with
  | (s, Js.Throw _) => (Document.world s, Http.failure 500)
  | (s, Js.Normal c) => (Document.world s, Http.ok (Http.ContentData c))
  end.

Definition emailCall : World.GenCall :=
  {| World.g_contentType := "email"; World.g_platform := None |}.

Definition socialCall (platform : option string) : World.GenCall :=
  {| World.g_contentType := "social_post"; World.g_platform := platform |}.

Definition adCopyCall (platform : option string) : World.GenCall :=
  {| World.g_contentType := "ad_copy"; World.g_platform := platform |}.

Definition generateEmailContent (body : Body) (userId : string) (w : World.t)
  : World.t * Http.Response :=
  if negb isAvailable then (w, Http.failure 503)
  else
    match resolveAndAuthorize body userId w with
    | (w1, inl r) => (w1, r)
    | (w1, inr campaign) =>
        let campaign := withCustomInstructions body campaign in
        respondContent
          (generateAndAdd (campaignId body) emailCall serviceEmail
             {| Document.world := w1; Document.doc := campaign |})
    end.

Definition validPlatforms : list string :=
  ["linkedin"; "facebook"; "twitter"; "instagram"; "youtube"; "tiktok"].

Definition generateSocialContent (body : Body) (userId : string) (w : World.t)
  : World.t * Http.Response :=
  if negb isAvailable then (w, Http.failure 503)
  else if negb (Js.includesOpt validPlatforms (platform body)) then (w, Http.failure 400)
  else
    match resolveAndAuthorize body userId w with
    | (w1, inl r) => (w1, r)
    | (w1, inr campaign) =>
        let campaign := withCustomInstructions body campaign in
        respondContent
          (generateAndAdd (campaignId body) (socialCall (platform body))
             (serviceSocial (platform body))
             {| Document.world := w1; Document.doc := campaign |})
    end.

(** [const { campaignId, personaId, platform = 'google-ads',
    customInstructions } = req.body;] *)
Definition generateAdCopy (body : Body) (userId : string) (w : World.t)
  : World.t * Http.Response :=
  let platform := Some (default "google-ads" (platform body)) in
  if negb isAvailable then (w, Http.failure 503)
  else
    match resolveAndAuthorize body userId w with
    | (w1, inl r) => (w1, r)
    | (w1, inr campaign) =>
        let campaign := withCustomInstructions body campaign in
        respondContent
          (generateAndAdd (campaignId body) (adCopyCall platform)
             (serviceAdCopy platform)
             {| Document.world := w1; Document.doc := campaign |})
    end.

Definition validContentTypes : list string := ["email"; "social_post"; "ad_copy"].

(** [for (const content of contentVariations) { await
    campaign.addContent(content); }]: the first failing [save] ends the loop. *)
Fixpoint addAll (id : string) (items : list Campaign.Content) (s : Document.Session)
  : Document.Session * Js.completion unit :=
  match items with
  | [] => (s, Js.Normal tt)
  | content :: rest =>
      match Document.addContent (trim rt) id content s with
      | (s1, Js.Throw e) => (s1, Js.Throw e)
      | (s1, Js.Normal _) => addAll id rest s1
      end
  end.

(** [if (contentType === 'social_post') { campaign.generationSettings.platforms
    = platform ? [platform] : ['linkedin']; }] *)
Definition withVariationPlatform (body : Body) (campaign : Campaign.t) : Campaign.t :=
  if String.eqb (default "" (contentType body)) "social_post" then
    Campaign.setPlatforms
      match platform body with
      | Some p => if Js.truthyString (Some p) then [p] else ["linkedin"]
      | None => ["linkedin"]
      end
      campaign
  else campaign.

(** [const { campaignId, personaId, contentType, variations = 2, platform }
    = req.body;] *)
Definition generateContentVariations (body : Body) (userId : string) (w : World.t)
  : World.t * Http.Response :=
  let variations := default 2%Z (variations body) in
  if negb isAvailable then (w, Http.failure 503)
  else if negb (Js.includesOpt validContentTypes (contentType body)) then (w, Http.failure 400)
  else if (variations <? 2)%Z || (variations >? 5)%Z then (w, Http.failure 400)
  else
    match resolveAndAuthorize body userId w with
    | (w1, inl r) => (w1, r)
    | (w1, inr campaign) =>
        let contentType := default "" (contentType body) in
        let campaign := withVariationPlatform body campaign in
        match serviceVariations campaign contentType variations w1 with
        | (w2, Js.Throw _) => (w2, Http.failure 500)
        | (w2, Js.Normal contentVariations) =>
            match addAll (campaignId body) contentVariations
                    {| Document.world := w2; Document.doc := campaign |} with
            | (s, Js.Throw _) => (Document.world s, Http.failure 500)
            | (s, Js.Normal _) =>
                (Document.world s, Http.ok (Http.VariationsData contentVariations))
            end
        end
    end.

(** The three statements of a branch of the batch loop: generate, add to the
    campaign, push onto [generatedContent]. *)
Definition batchItem (id : string) (g : World.GenCall)
    (method : AIContentGenerator.Reply -> Js.completion Campaign.Content)
    (b : Batch) : Batch * Js.completion unit :=
  match generateAndAdd id g method (session b) with
  | (s, Js.Throw e) =>
      ({| session := s; generatedContent := generatedContent b; errors := errors b |},
       Js.Throw e)
  | (s, Js.Normal c) =>
      ({| session := s; generatedContent := generatedContent b ++ [c];
          errors := errors b |},
       Js.Normal tt)
  end.

(** [for (const platform of socialPlatforms) { ... }], inside the [try]. *)
Fixpoint batchSocial (id : string) (socialPlatforms : list string) (b : Batch)
  : Batch * Js.completion unit :=
  match socialPlatforms with
  | [] => (b, Js.Normal tt)
  | platform :: rest =>
      match batchItem id (socialCall (Some platform)) (serviceSocial (Some platform)) b with
      | (b1, Js.Throw e) => (b1, Js.Throw e)
      | (b1, Js.Normal _) => batchSocial id rest b1
      end
  end.

(** The body of the [try] for one content type. *)
Definition batchTry (id : string) (platforms : list string) (contentType : string)
    (b : Batch) : Batch * Js.completion unit :=
  if String.eqb contentType "email" then batchItem id emailCall serviceEmail b
  else if String.eqb contentType "social_post" then
    let socialPlatforms := List.filter (fun p => negb (String.eqb p "email")) platforms in
    batchSocial id socialPlatforms b
  else if String.eqb contentType "ad_copy" then
    batchItem id (adCopyCall None) (serviceAdCopy None) b
  else (b, Js.Normal tt).

(** One turn of [for (const contentType of contentTypes) { try { ... } catch
    (error) { errors.push(...) } }]. *)
Definition batchTurn (id : string) (platforms : list string) (b : Batch)
    (contentType : string) : Batch :=
  match batchTry id platforms contentType b with
  | (b1, Js.Throw e) =>
      {| session := session b1; generatedContent := generatedContent b1;
         errors := errors b1 ++ [(contentType, e)] |}
  | (b1, Js.Normal _) => b1
  end.

Definition batchLoop (id : string) (platforms contentTypes : list string) (b : Batch)
  : Batch :=
  fold_left (batchTurn id platforms) contentTypes b.

(** [const { campaignId, personaId, contentTypes = ['email', 'social_post'],
    platforms = ['email', 'linkedin'], customInstructions } = req.body;] *)
Definition batchGenerateContent (body : Body) (userId : string) (w : World.t)
  : World.t * Http.Response :=
  let contentTypes := default ["email"; "social_post"] (contentTypes body) in
  let platforms := default ["email"; "linkedin"] (platforms body) in
  if negb isAvailable then (w, Http.failure 503)
  else
    match resolveAndAuthorize body userId w with
    | (w1, inl r) => (w1, r)
    | (w1, inr campaign) =>
        let campaign := withCustomInstructions body campaign in
        let b :=
          batchLoop (campaignId body) platforms contentTypes
            {| session := {| Document.world := w1; Document.doc := campaign |};
               generatedContent := []; errors := [] |} in
        (Document.world (session b),
         Http.ok
           (Http.BatchData (generatedContent b)
              (match errors b with [] => None | _ => Some (errors b) end)))
    end.

End Handlers.

End ContentController.

(** ** controllers/personaController.js *)

Module PersonaController.

(** The members of [req.body] of an update that the modelled part of the
    persona schema knows; [userId] is a string that casts to an ObjectId. A
    member [isPredefined] is overwritten by the handler and left out. *)
Record Body : Type := {
  b_name : option string;
  b_description : option string;
  b_userId : option string
}.

(** [req.query] of the listing. *)
Record Query : Type := {
  search : option string;
  isPredefined : option string
}.

(** The three queries the listing builds. *)
Inductive Filter : Type :=
  | OwnOrPredefined (userId : string)   (* { $or: [{ userId }, { isPredefined: true }] } *)
  | PredefinedOnly                      (* { isPredefined: true } *)
  | OwnCustom (userId : string).        (* { userId, isPredefined: false } *)

(** Whether a stored persona matches a query. *)
Definition matches (f : Filter) (p : Persona.t) : bool :=
  match f with
  | OwnOrPredefined u =>
      match Persona.userId p with Some o => String.eqb o u | None => false end
      || Persona.isPredefined p
  | PredefinedOnly => Persona.isPredefined p
  | OwnCustom u =>
      match Persona.userId p with Some o => String.eqb o u | None => false end
      && negb (Persona.isPredefined p)
  end.

Inductive Data : Type :=
  | NoData
  | PersonaData (persona : option Persona.t)
  | PersonaList (count : nat) (personas : gmap string Persona.t).

Record Response : Type := {
  statusCode : nat;
  success : bool;
  data : Data
}.

Definition failure (code : nat) : Response :=
  {| statusCode := code; success := false; data := NoData |}.

(** The answer to a [findById(id)] that found no persona: 404 for an
    ObjectId, and 500, from the [catch] of the CastError, for any other
    string. *)
Definition missing (id : string) : Response :=
  failure (if Js.isObjectId id then 404 else 500).

Section Handlers.

Variable trim : string -> string.

(** [{ $text: { $search: search } }] on the text index of name and
    description. *)
Variable textMatch : string -> Persona.t -> bool.

(** The query of [getPersonas]. *)
Definition listingFilter (userId : string) (q : Query) : Filter :=
  match isPredefined q with
  | None => OwnOrPredefined userId
  | Some v => if String.eqb v "true" then PredefinedOnly else OwnCustom userId
  end.

(** [getPersonas]: the matching personas, by identifier; the order of the
    array ([sort]) is not modelled, [count] is its length. *)
Definition getPersonas (userId : string) (q : Query) (w : World.t) : Response :=
  let query := listingFilter userId q in
  let personas :=
    match search q with
    | Some s =>
        if Js.truthyString (Some s)
        then filter (fun kp => matches query (snd kp) && textMatch s (snd kp) = true)
               (World.personas w)
        else filter (fun kp => matches query (snd kp) = true) (World.personas w)
    | None => filter (fun kp => matches query (snd kp) = true) (World.personas w)
    end in
  {| statusCode := 200; success := true;
     data := PersonaList (size personas) personas |}.

(** The update validators on the paths present in the update: [required]
    and [maxlength] of [name] and of [description], on the trimmed value. *)
Definition validUpdate (body : Body) : bool :=
  match b_name body with
  | Some n => negb (String.eqb (trim n) "") && Nat.leb (String.length (trim n)) 100
  | None => true
  end
  && match b_description body with
     | Some d => negb (String.eqb (trim d) "") && Nat.leb (String.length (trim d)) 500
     | None => true
     end.

(** The [$set] of [{ ...req.body, isPredefined: false }]. *)
Definition applyUpdate (body : Body) (p : Persona.t) : Persona.t :=
  {| Persona.userId :=
       match b_userId body with Some u => Some u | None => Persona.userId p end;
     Persona.name := match b_name body with Some n => trim n | None => Persona.name p end;
     Persona.description :=
       match b_description body with Some d => trim d | None => Persona.description p end;
     Persona.isPredefined := false |}.

Definition set_personas (v : gmap string Persona.t) (w : World.t) : World.t :=
  {| World.campaigns := World.campaigns w; World.personas := v;
     World.lookups := World.lookups w; World.generations := World.generations w |}.

Definition updatePersona (id userId : string) (body : Body) (w : World.t)
  : World.t * Response :=
  let w1 := World.logLookups [World.PersonaFindById id] w in
  match World.personas w !! id with
  | None => (w1, missing id)
  | Some persona =>
      if negb (Persona.canBeEditedBy persona userId) then (w1, failure 403)
      else if validUpdate body then
        let updatedPersona := applyUpdate body persona in
        (set_personas (<[id := updatedPersona]> (World.personas w1)) w1,
         {| statusCode := 200; success := true;
            data := PersonaData (Some updatedPersona) |})
      else (w1, failure 500)
  end.

Definition deletePersona (id userId : string) (w : World.t) : World.t * Response :=
  let w1 := World.logLookups [World.PersonaFindById id] w in
  match World.personas w !! id with
  | None => (w1, missing id)
  | Some persona =>
      if negb (Persona.canBeEditedBy persona userId) then (w1, failure 403)
      else
        (* await Persona.findByIdAndDelete(id); *)
        (set_personas (delete id (World.personas w1)) w1,
         {| statusCode := 200; success := true; data := NoData |})
  end.

End Handlers.

End PersonaController.

(** ** services/socketService.js: the connection registry *)

Module SocketService.

(** The two maps of the service, the sockets socket.io holds open, and what
    was emitted to a socket: the socket identifier and the event name. The
    rooms of socket.io are not modelled. *)
Record t : Type := {
  io : bool;                            (* this.io is set by initialize *)
  sockets : gset string;                (* io.sockets.sockets *)
  userSockets : gmap string string;     (* user id -> socket id *)
  socketUsers : gmap string string;     (* socket id -> user id *)
  emitted : list (string * string)
}.

(** [constructor()]. *)
Definition create : t :=
  {| io := false; sockets := ∅; userSockets := ∅; socketUsers := ∅; emitted := [] |}.

(** [initialize(server)]. *)
Definition initialize (s : t) : t :=
  {| io := true; sockets := sockets s; userSockets := userSockets s;
     socketUsers := socketUsers s; emitted := emitted s |}.

(** [handleConnection(socket)] for an authenticated socket: both maps are
    set and the welcome event is sent. *)
Definition handleConnection (userId socketId : string) (s : t) : t :=
  {| io := io s;
     sockets := {[socketId]} ∪ sockets s;
     userSockets := <[userId := socketId]> (userSockets s);
     socketUsers := <[socketId := userId]> (socketUsers s);
     emitted := emitted s ++ [(socketId, "connected")] |}.

(** The listener [socket.on('disconnect', ...)] that [handleConnection]
    registers for the socket [socketId] of [userId]:
    [this.userSockets.delete(userId); this.socketUsers.delete(socket.id);] *)
Definition disconnect (userId socketId : string) (s : t) : t :=
  {| io := io s;
     sockets := sockets s ∖ {[socketId]};
     userSockets := delete userId (userSockets s);
     socketUsers := delete socketId (socketUsers s);
     emitted := emitted s |}.

(** [isUserConnected(userId)]. *)
Definition isUserConnected (userId : string) (s : t) : bool :=
  bool_decide (is_Some (userSockets s !! userId)).

(** [emitToUser(userId, event, data)]: false without [io] or without a
    socket for the user. *)
Definition emitToUser (userId event : string) (s : t) : t * bool :=
  if negb (io s) then (s, false)
  else
    match userSockets s !! userId with
    | Some socketId =>
        ({| io := io s; sockets := sockets s; userSockets := userSockets s;
            socketUsers := socketUsers s;
            emitted := emitted s ++ [(socketId, event)] |},
         true)
    | None => (s, false)
    end.

(** [getStats().connectedUsers], 0 without [io]. *)
Definition connectedUsers (s : t) : nat :=
  if io s then size (userSockets s) else 0.

(** What happens to the service, one event after the other. *)
Inductive event : Type :=
  | Connect (userId socketId : string)
  | Disconnect (userId socketId : string).

Definition step (s : t) (e : event) : t :=
  match e with
  | Connect u k => handleConnection u k s
  | Disconnect u k => disconnect u k s
  end.

(** The events socket.io can deliver: a connecting socket has a fresh
    identifier, a disconnecting socket is open and belongs to the user its
    listener was registered for. *)
Definition possible (s : t) (e : event) : Prop :=
  match e with
  | Connect u k => k ∉ sockets s
  | Disconnect u k => k ∈ sockets s /\ socketUsers s !! k = Some u
  end.

Inductive reachable : t -> Prop :=
  | reachable_start : reachable (initialize create)
  | reachable_step (s : t) (e : event) :
      reachable s -> possible s e -> reachable (step s e).

End SocketService.

(** ** The requests that write *)

Module Api.

(** A request of an authenticated user that can write a stored campaign or
    a stored persona. The update of a campaign is taken with the validation
    of its route. The validation in front of the other handlers only refuses
    requests, with 400 and before anything is done, so the handler alone
    shows every world such a request can lead to. The creation of a
    campaign, which stores a new campaign in status draft and changes no
    stored one, is not among them. *)
Inductive Operation : Type :=
  | PutCampaign (id userId : string) (req : CampaignRoutes.Request)
  | DeleteCampaign (id userId : string)
  | ArchiveCampaign (id userId : string)
  | PostContent (id userId : string) (content : Campaign.Content)
  | GenerateEmail (userId : string) (body : ContentController.Body)
  | GenerateSocial (userId : string) (body : ContentController.Body)
  | GenerateAdCopy (userId : string) (body : ContentController.Body)
  | GenerateVariations (userId : string) (body : ContentController.Body)
  | GenerateBatch (userId : string) (body : ContentController.Body)
  | PutPersona (id userId : string) (body : PersonaController.Body)
  | DeletePersona (id userId : string).

Section Run.

Variable rt : ContentController.Runtime.
Variable isISO8601 : string -> bool.
Variable parseDate : string -> option Z.
Variable now : Z.
Variable castDate : string -> option Z.

(** The world after a request. *)
Definition run (op : Operation) (w : World.t) : World.t :=
  match op with
  | PutCampaign id userId req =>
      fst (CampaignRoutes.putCampaign (ContentController.trim rt) isISO8601 parseDate now
             castDate id userId req w)
  | DeleteCampaign id userId => fst (CampaignController.deleteCampaign id userId w)
  | ArchiveCampaign id userId => fst (CampaignController.archiveCampaign id userId w)
  | PostContent id userId content =>
      fst (CampaignController.addContentToCampaign (ContentController.trim rt) id userId
             content w)
  | GenerateEmail userId body => fst (ContentController.generateEmailContent rt body userId w)
  | GenerateSocial userId body =>
      fst (ContentController.generateSocialContent rt body userId w)
  | GenerateAdCopy userId body => fst (ContentController.generateAdCopy rt body userId w)
  | GenerateVariations userId body =>
      fst (ContentController.generateContentVariations rt body userId w)
  | GenerateBatch userId body =>
      fst (ContentController.batchGenerateContent rt body userId w)
  | PutPersona id userId body =>
      fst (PersonaController.updatePersona (ContentController.trim rt) id userId body w)
  | DeletePersona id userId => fst (PersonaController.deletePersona id userId w)
  end.

End Run.

End Api.

(** ** The string built-ins on ASCII text

    The handlers above take [trim], [parseInt] and the two regular
    expressions of the social method as arguments. These are their readings
    on ASCII text, used to run the handlers on concrete requests. *)

Module JsString.

Definition isSpace (c : ascii) : bool :=
  match nat_of_ascii c with
  | 9 | 10 | 11 | 12 | 13 | 32 => true
  | _ => false
  end.

Definition isDigit (c : ascii) : bool :=
  let n := nat_of_ascii c in Nat.leb 48 n && Nat.leb n 57.

(** [\w]: letters, digits and the underscore. *)
Definition isWord (c : ascii) : bool :=
  let n := nat_of_ascii c in
  isDigit c || (Nat.leb 65 n && Nat.leb n 90) || (Nat.leb 97 n && Nat.leb n 122)
  || Nat.eqb n 95.

Definition isHash (c : ascii) : bool := Nat.eqb (nat_of_ascii c) 35.

Definition isNewline (c : ascii) : bool := Nat.eqb (nat_of_ascii c) 10.

Fixpoint trimStart (s : string) : string :=
  match s with
  | EmptyString => EmptyString
  | String c r => if isSpace c then trimStart r else s
  end.

Fixpoint trimEnd (s : string) : string :=
  match s with
  | EmptyString => EmptyString
  | String c r =>
      let r' := trimEnd r in
      if isSpace c && String.eqb r' "" then EmptyString else String c r'
  end.

Definition trim (s : string) : string := trimEnd (trimStart s).

(** The decimal digits at the head of [s], most significant first, read
    onto the accumulator [acc]; [seen] tells whether a digit was read. *)
Fixpoint readDigits (s : string) (acc : Z) (seen : bool) : option Z :=
  match s with
  | String c r =>
      if isDigit c
      then readDigits r (10 * acc + Z.of_nat (nat_of_ascii c - 48))%Z true
      else if seen then Some acc else None
  | EmptyString => if seen then Some acc else None
  end.

(** [parseInt(s)] in radix 10: leading white space, an optional sign, the
    longest run of digits; NaN ([None]) when there is no digit. A [0x]
    prefix is not read as hexadecimal here. *)
Definition parseInt (s : string) : option Z :=
  match trimStart s with
  | String c r =>
      if Nat.eqb (nat_of_ascii c) 45 then Z.opp <$> readDigits r 0%Z false
      else if Nat.eqb (nat_of_ascii c) 43 then readDigits r 0%Z false
      else readDigits (String c r) 0%Z false
  | EmptyString => None
  end.

(** A finished match of [#[\w]+]: the hash sign alone is no match. *)
Definition finishTag (cur : option string) : list string :=
  match cur with
  | Some tag => if String.eqb tag "#" then [] else [tag]
  | None => []
  end.

(** [content.match(/#[\w]+/g) || []], scanning left to right; [cur] is the
    match under way. *)
Fixpoint scanHashtags (cur : option string) (s : string) : list string :=
  match s with
  | EmptyString => finishTag cur
  | String c r =>
      if isWord c then
        match cur with
        | Some tag => scanHashtags (Some (String.append tag (String c EmptyString))) r
        | None => scanHashtags None r
        end
      else
        finishTag cur
        ++ (if isHash c then scanHashtags (Some "#") r else scanHashtags None r)
  end.

Definition matchHashtags (s : string) : list string := scanHashtags None s.

Fixpoint allChars (p : ascii -> bool) (s : string) : bool :=
  match s with
  | EmptyString => true
  | String c r => p c && allChars p r
  end.

(** Whether [/\n\n#[\w\s#]+$/] matches the whole of [s]. *)
Definition isHashtagBlock (s : string) : bool :=
  match s with
  | String a (String b (String c rest)) =>
      isNewline a && isNewline b && isHash c
      && negb (String.eqb rest "")
      && allChars (fun x => isWord x || isSpace x || isHash x) rest
  | _ => false
  end.

(** [content.replace(/\n\n#[\w\s#]+$/, "")]: the leftmost match is cut. *)
Fixpoint stripTrailingHashtags (s : string) : string :=
  match s with
  | EmptyString => EmptyString
  | String c r =>
      if isHashtagBlock s then EmptyString else String c (stripTrailingHashtags r)
  end.

End JsString.

(** ** Vocabulary of the specification

    Not part of the code: the edge set that section 4.2 of the specification
    gives for [status], written down to compare the code with it, and the
    count of the generations that the service was asked for. *)

Module Spec.

Definition lifecycleEdge (from to : string) : bool :=
  (String.eqb from "draft" && String.eqb to "generating")
  || (String.eqb from "generating" && String.eqb to "active")
  || (String.eqb from "active" && String.eqb to "paused")
  || (String.eqb from "paused" && String.eqb to "completed")
  || (String.eqb from "completed" && String.eqb to "archived")
  || (String.eqb from "paused" && String.eqb to "active")
  || String.eqb to "archived".


End Spec.

(** ** Concrete requests and worlds *)

Module Fixture.

(** The identifiers of the stored documents: a campaign and two personas. *)
Definition c1 : string := "c10000000000000000000001".

Definition p1 : string := "a10000000000000000000001".


Definition persona (owner : option string) (predefined : bool) : Persona.t :=
  {| Persona.userId := owner; Persona.name := "Busy founders";
     Persona.description := "Founders of small companies";
     Persona.isPredefined := predefined |}.

(** A campaign of user "u1" for persona [p1], with the schema defaults; it
    runs from time 1000 to time 2000. *)
Definition campaign (status : string) (collaborators : list Campaign.Collaborator)
  : Campaign.t :=
  {| Campaign.userId := "u1"; Campaign.personaId := p1;
     Campaign.name := "Q4 Launch"; Campaign.description := None;
     Campaign.objective := "awareness"; Campaign.status := status;
     Campaign.budget := 0 # 1; Campaign.currency := "USD";
     Campaign.startDate := Some 1000%Z; Campaign.endDate := Some 2000%Z;
     Campaign.tone := "professional"; Campaign.keywords := None;
     Campaign.audienceSize := None;
     Campaign.content := [];
     Campaign.abTests := [];
     Campaign.metrics := Metrics.defaults Campaign.zeroNumber;
     Campaign.generationSettings :=
       {| Campaign.contentTypes := []; Campaign.platforms := [];
          Campaign.creativityLevel := 5 # 1; Campaign.customInstructions := None |};
     Campaign.jobStatus := "pending"; Campaign.jobProgress := 0 # 1;
     Campaign.collaborators := collaborators;
     Campaign.isArchived := false |}.

(** Campaign "c1" in the given status; persona "p1" of user "u1". *)
Definition world (status : string) : World.t :=
  {| World.campaigns := {[ c1 := campaign status [] ]};
     World.personas := {[ p1 := persona (Some "u1") false ]};
     World.lookups := [];
     World.generations := [] |}.

(** The body of a generation request for campaign "c1" and persona "p1". *)
Definition request (platform contentType : option string) (variations : option Z)
    (contentTypes platforms : option (list string)) : ContentController.Body :=
  {| ContentController.campaignId := c1; ContentController.personaId := p1;
     ContentController.customInstructions := None;
     ContentController.platform := platform;
     ContentController.contentType := contentType;
     ContentController.variations := variations;
     ContentController.contentTypes := contentTypes;
     ContentController.platforms := platforms |}.

(** A reply whose completions all arrive. *)
Definition reply (subject body : string) : AIContentGenerator.Reply :=
  {| AIContentGenerator.subjectReply := Some subject;
     AIContentGenerator.bodyReply := Some body;
     AIContentGenerator.scoreReply := Some "88" |}.

(** A reply whose completion requests are rejected. *)
Definition noReply : AIContentGenerator.Reply :=
  {| AIContentGenerator.subjectReply := None;
     AIContentGenerator.bodyReply := None;
     AIContentGenerator.scoreReply := None |}.

(** The world of [world "draft"] with persona "p1" replaced by one that is
    not predefined and has no owner reference. *)
Definition orphanWorld : World.t :=
  {| World.campaigns := {[ c1 := campaign "draft" [] ]};
     World.personas := {[ p1 := persona None false ]};
     World.lookups := [];
     World.generations := [] |}.

(** Two collaborator entries for user "u2": a viewer entry, then an editor
    entry. *)
Definition viewerThenEditor : list Campaign.Collaborator :=
  [ {| Campaign.c_userId := Some "u2"; Campaign.c_role := "viewer" |};
    {| Campaign.c_userId := Some "u2"; Campaign.c_role := "editor" |} ].

(** An update that sets only the status, and one that sets only the name. *)
Definition statusBody (s : string) : CampaignController.Body :=
  {| CampaignController.b_name := None; CampaignController.b_objective := None;
     CampaignController.b_status := Some s;
     CampaignController.b_personaId := None;
     CampaignController.b_startDate := None; CampaignController.b_endDate := None;
     CampaignController.b_isArchived := None;
     CampaignController.b_metrics := None |}.

Definition nameBody (n : string) : CampaignController.Body :=
  {| CampaignController.b_name := Some n; CampaignController.b_objective := None;
     CampaignController.b_status := None;
     CampaignController.b_personaId := None;
     CampaignController.b_startDate := None; CampaignController.b_endDate := None;
     CampaignController.b_isArchived := None;
     CampaignController.b_metrics := None |}.

(** The built-ins of the update route on the two date strings of the
    requests below, at a time of validation before both. *)
Definition isISO8601 (text : string) : bool :=
  String.eqb text "2030-01-01" || String.eqb text "2030-02-01".

Definition parseDate (text : string) : option Z :=
  if String.eqb text "2030-01-01" then Some 1893456000000%Z
  else if String.eqb text "2030-02-01" then Some 1896134400000%Z
  else None.

(** The two dates above are cast by mongoose to the same time values. *)
Definition castDate (text : string) : option Z := parseDate text.

Definition now : Z := 1793577600000%Z.


(** The argument of [updateMetrics] that sets impressions and clicks. *)
Definition countersPatch (impressions clicks : option Campaign.Number)
  : Metrics.patch Campaign.Number :=
  {| Metrics.p_totalReach := None; Metrics.p_totalImpressions := impressions;
     Metrics.p_totalClicks := clicks; Metrics.p_totalConversions := None;
     Metrics.p_totalSpent := None; Metrics.p_ctr := None; Metrics.p_cpc := None;
     Metrics.p_cpa := None; Metrics.p_roi := None |}.

(** Campaign "c1" fetched from [world "draft"]. *)
Definition session : Document.Session :=
  {| Document.world := world "draft"; Document.doc := campaign "draft" [] |}.

(** [updateMetrics({ totalImpressions: 100, totalClicks: 5 })] on the fetched
    campaign, then [updateMetrics({ totalImpressions: 0 })]. *)
Definition afterCounting : Document.Session :=
  fst (Document.updateMetrics c1 (countersPatch (Some (100 # 1)) (Some (5 # 1))) session).

Definition afterReset : Document.Session :=
  fst (Document.updateMetrics c1 (countersPatch (Some (0 # 1)) None) afterCounting).

(** A string of [n] letters. *)
Fixpoint letters (n : nat) : string :=
  match n with
  | O => EmptyString
  | S k => String "a" (letters k)
  end.

(** A language model whose first answer is short and whose later answers
    carry a subject line of 201 characters. *)
Definition longSubjectAfterFirst (n : nat) : AIContentGenerator.Reply :=
  match n with
  | O => reply "Hi" "Hello there"
  | S _ => reply (letters 201) "Hello there"
  end.

(** A language model that answers every call but the one numbered [k]. *)
Definition failingAt (k n : nat) : AIContentGenerator.Reply :=
  if Nat.eqb n k then noReply else reply "Hi" "Hello there".

(** The stored campaign "c1" of a world. *)
Definition stored (w : World.t) : option Campaign.t := World.campaigns w !! c1.

(** The runtime of the concrete runs: the ASCII built-ins, a configured key
    and the given language model. *)
Definition runtime (key : option string) (ai : nat -> AIContentGenerator.Reply)
  : ContentController.Runtime :=
  {| ContentController.trim := JsString.trim;
     ContentController.parseInt := JsString.parseInt;
     ContentController.matchHashtags := JsString.matchHashtags;
     ContentController.stripTrailingHashtags := JsString.stripTrailingHashtags;
     ContentController.OPENAI_API_KEY := key;
     ContentController.ai := ai |}.

(** A language model that answers every call. *)
Definition steady (n : nat) : AIContentGenerator.Reply := reply "Hi" "Hello there".

(** The items the service builds from the answers of [steady]. *)
Definition steadyEmail : Campaign.Content :=
  {| Campaign.contentType := "email"; Campaign.platform := Some "email";
     Campaign.subjectLine := Some "Hi"; Campaign.contentBody := "Hello there";
     Campaign.hashtags := []; Campaign.qualityScore := 88%Z |}.

Definition steadySocial (platform : string) : Campaign.Content :=
  {| Campaign.contentType := "social_post"; Campaign.platform := Some platform;
     Campaign.subjectLine := None; Campaign.contentBody := "Hello there";
     Campaign.hashtags := []; Campaign.qualityScore := 88%Z |}.

(** The request of [request] with custom instructions. *)
Definition instructedRequest (instructions : string) : ContentController.Body :=
  {| ContentController.campaignId := c1; ContentController.personaId := p1;
     ContentController.customInstructions := Some instructions;
     ContentController.platform := None;
     ContentController.contentType := None;
     ContentController.variations := None;
     ContentController.contentTypes := None;
     ContentController.platforms := None |}.

(** A linkedin post as a client sends it to [addContentToCampaign]. *)
Definition post (body : string) : Campaign.Content :=
  {| Campaign.contentType := "social_post"; Campaign.platform := Some "linkedin";
     Campaign.subjectLine := None; Campaign.contentBody := body;
     Campaign.hashtags := ["#launch"]; Campaign.qualityScore := 0%Z |}.

(** The draft campaign with the given content. *)
Definition withContent (items : list Campaign.Content) : Campaign.t :=
  Campaign.set_content items (campaign "draft" []).

(** The world of [world "draft"] with the given campaign as "c1". *)
Definition worldWith (c : Campaign.t) : World.t :=
  {| World.campaigns := {[ c1 := c ]};
     World.personas := {[ p1 := persona (Some "u1") false ]};
     World.lookups := [];
     World.generations := [] |}.

(** A collaborator entry without a user, then an editor entry for "u2". *)
Definition anonymousThenEditor : list Campaign.Collaborator :=
  [ {| Campaign.c_userId := None; Campaign.c_role := "viewer" |};
    {| Campaign.c_userId := Some "u2"; Campaign.c_role := "editor" |} ].


(** A persona update that names an owner and nothing else, and one that
    names a name and nothing else. *)
Definition ownerBody (u : string) : PersonaController.Body :=
  {| PersonaController.b_name := None; PersonaController.b_description := None;
     PersonaController.b_userId := Some u |}.

Definition renameBody (n : string) : PersonaController.Body :=
  {| PersonaController.b_name := Some n; PersonaController.b_description := None;
     PersonaController.b_userId := None |}.

(** The registry after user "u1" connected with socket "s1" and then with
    socket "s2". *)
Definition twoSockets : SocketService.t :=
  SocketService.step
    (SocketService.step (SocketService.initialize SocketService.create)
       (SocketService.Connect "u1" "s1"))
    (SocketService.Connect "u1" "s2").

End Fixture.

(** * Proof automation *)

(** Membership in the set of open sockets. *)
Local Ltac sockets_solve :=
  rewrite ?elem_of_union, ?elem_of_difference, ?elem_of_singleton, ?elem_of_empty;
  intuition congruence.

(** * Properties *)

(** ** The string built-ins on examples *)

Example trim_strips_both_ends : JsString.trim "  hi there  " = "hi there".
Proof. reflexivity. Qed.

Example parseInt_reads_leading_digits : JsString.parseInt " 88 points" = Some 88%Z.
Proof. reflexivity. Qed.

Example parseInt_without_digits_is_NaN : JsString.parseInt "n/a" = None.
Proof. reflexivity. Qed.

Example matchHashtags_collects_tags :
  JsString.matchHashtags "Go #now and #win_1! # ##x" = ["#now"; "#win_1"; "#x"].
Proof. reflexivity. Qed.

Example stripTrailingHashtags_cuts_final_block :
  JsString.stripTrailingHashtags
    (String.append "Buy it" (String "010" (String "010" "#a #b")))
  = "Buy it".
Proof. reflexivity. Qed.

Example stripTrailingHashtags_keeps_inner_tags :
  JsString.stripTrailingHashtags "Buy #it now" = "Buy #it now".
Proof. reflexivity. Qed.

(** The score of a reply: the parsed number clamped to 0..100, 0 for a text
    without a number, 75 when the scoring request fails. *)
Example scoreContentQuality_examples :
  AIContentGenerator.scoreContentQuality JsString.trim JsString.parseInt
    (Fixture.reply "Hi" "Hello") = 88%Z
  /\ AIContentGenerator.scoreContentQuality JsString.trim JsString.parseInt
       {| AIContentGenerator.subjectReply := None; AIContentGenerator.bodyReply := None;
          AIContentGenerator.scoreReply := Some "250" |} = 100%Z
  /\ AIContentGenerator.scoreContentQuality JsString.trim JsString.parseInt
       {| AIContentGenerator.subjectReply := None; AIContentGenerator.bodyReply := None;
          AIContentGenerator.scoreReply := Some "good" |} = 0%Z
  /\ AIContentGenerator.scoreContentQuality JsString.trim JsString.parseInt
       Fixture.noReply = 75%Z.
Proof. repeat split; reflexivity. Qed.

(** ** Access control *)

(** C4, as stated, fails: a persona that is not predefined and has no owner
    reference is not denied. With such a persona stored as "p1", user "u1"
    passes both guards, campaign creation goes on and the email handler
    answers 200. *)
Lemma persona_without_owner_is_not_denied :
  Persona.isPredefined (Fixture.persona None false) = false
  /\ Persona.userId (Fixture.persona None false) = None
  /\ Persona.accessDeniedContent (Fixture.persona None false) "u1" = false
  /\ Persona.accessDeniedCampaign (Fixture.persona None false) "u1" = false
  /\ snd (CampaignController.createCampaignPersonaGate Fixture.p1 "u1" Fixture.orphanWorld)
     = None
  /\ Http.statusCode
       (snd (ContentController.generateEmailContent
               (Fixture.runtime (Some "sk-test") (fun _ => Fixture.reply "Hi" "Hello"))
               (Fixture.request None None None None None) "u1" Fixture.orphanWorld))
     = 200.
Proof. vm_compute. repeat split; reflexivity. Qed.

(** C4 (amended): for a persona that is not predefined and has no owner
    reference, the readability guard of campaign creation and the one of the
    generation handlers deny no actor: creation goes on past the guard and a
    generation request by an actor who may edit the campaign is authorized.
    Only the edit check [canBeEditedBy] refuses every actor. *)
Theorem persona_without_owner_readable_by_all (p : Persona.t) (uid : string) :
  Persona.isPredefined p = false ->
  Persona.userId p = None ->
  Persona.accessDeniedContent p uid = false
  /\ Persona.accessDeniedCampaign p uid = false
  /\ Persona.canBeEditedBy p uid = false
  /\ (forall (w : World.t) (pid : string),
        World.personas w !! pid = Some p ->
        snd (CampaignController.createCampaignPersonaGate pid uid w) = None)
  /\ (forall (body : ContentController.Body) (w : World.t) (c : Campaign.t)
             (editable : option bool),
        World.campaigns w !! ContentController.campaignId body = Some c ->
        World.personas w !! ContentController.personaId body = Some p ->
        Campaign.canBeEditedBy c uid = Js.Normal editable ->
        Js.truthyBool editable = true ->
        snd (ContentController.resolveAndAuthorize body uid w) = inr c).
Proof.
  intros Hpre Hown.
  assert (Hc : Persona.accessDeniedContent p uid = false).
  { unfold Persona.accessDeniedContent. rewrite Hown. apply andb_false_r. }
  assert (Hk : Persona.accessDeniedCampaign p uid = false).
  { unfold Persona.accessDeniedCampaign. rewrite Hown. apply andb_false_r. }
  repeat split; trivial.
  - unfold Persona.canBeEditedBy, Persona.isOwnedBy. rewrite Hpre, Hown. reflexivity.
  - intros w pid Hp. unfold CampaignController.createCampaignPersonaGate.
    rewrite Hp, Hk. reflexivity.
  - intros body w c editable Hcam Hper Hedit Htrue.
    unfold ContentController.resolveAndAuthorize.
    rewrite Hcam, Hper, Hedit, Htrue, Hc. reflexivity.
Qed.

Lemma persona_without_owner_readable_by_all_witness :
  Persona.isPredefined (Fixture.persona None false) = false
  /\ Persona.userId (Fixture.persona None false) = None
  /\ Persona.accessDeniedContent (Fixture.persona None false) "u2" = false
  /\ Persona.accessDeniedCampaign (Fixture.persona None false) "u2" = false
  /\ Persona.canBeEditedBy (Fixture.persona None false) "u2" = false.
Proof.
  split; [reflexivity|]. split; [reflexivity|].
  destruct (persona_without_owner_readable_by_all (Fixture.persona None false) "u2")
    as (H1 & H2 & H3 & _); [reflexivity | reflexivity |].
  repeat split; assumption.
Defined.

(** The first collaborator entry of a user, as [Array.prototype.find] meets
    it: every entry before it names another user. *)
Lemma findCollaborator_found (cs : list Campaign.Collaborator) (uid : string)
    (e : Campaign.Collaborator) :
  Campaign.findCollaborator cs uid = Js.Normal (Some e) <->
  exists pre post,
    cs = pre ++ e :: post
    /\ Forall (fun x => exists u, Campaign.c_userId x = Some u /\ u <> uid) pre
    /\ Campaign.c_userId e = Some uid.
Proof.
  induction cs as [|c cs IH]; simpl.
  - split; [discriminate|]. intros (pre & post & Heq & _). destruct pre; discriminate.
  - destruct (Campaign.c_userId c) as [u|] eqn:Hu.
    + destruct (String.eqb u uid) eqn:Heqb.
      * apply String.eqb_eq in Heqb. subst u. split.
        -- intros H. injection H as <-. exists [], cs. repeat split; auto.
        -- intros (pre & post & Heq & Hpre & He). destruct pre as [|x pre].
           ++ simpl in Heq. injection Heq as <- _. reflexivity.
           ++ simpl in Heq. injection Heq as <- _.
              apply Forall_cons_1 in Hpre as [(u' & Hu' & Hne) _]. congruence.
      * apply String.eqb_neq in Heqb. rewrite IH. split.
        -- intros (pre & post & -> & Hpre & He). exists (c :: pre), post.
           repeat split; auto. constructor; eauto.
        -- intros (pre & post & Heq & Hpre & He). destruct pre as [|x pre].
           ++ simpl in Heq. injection Heq as <- _. congruence.
           ++ simpl in Heq. injection Heq as <- ->.
              apply Forall_cons_1 in Hpre as [_ Hpre]. eauto.
    + split; [discriminate|]. intros (pre & post & Heq & Hpre & He).
      destruct pre as [|x pre]; simpl in Heq; injection Heq as <- _.
      * congruence.
      * apply Forall_cons_1 in Hpre as [(u' & Hu' & _) _]. congruence.
Qed.

Lemma includes_editor_admin (role : string) :
  Js.includes ["editor"; "admin"] role = true <-> role = "editor" \/ role = "admin".
Proof.
  unfold Js.includes. simpl. rewrite !orb_true_iff, !String.eqb_eq. intuition discriminate.
Qed.

(** C5, as stated, fails: [find] stops at the first entry of the user. User
    "u2" is not the owner and has a "viewer" entry followed by an "editor"
    entry; an editor entry exists for "u2", and the predicate returns false. *)
Lemma canBeEditedBy_ignores_later_entries :
  Campaign.isOwnedBy (Fixture.campaign "draft" Fixture.viewerThenEditor) "u2" = false
  /\ In {| Campaign.c_userId := Some "u2"; Campaign.c_role := "editor" |}
       (Campaign.collaborators (Fixture.campaign "draft" Fixture.viewerThenEditor))
  /\ Campaign.canBeEditedBy (Fixture.campaign "draft" Fixture.viewerThenEditor) "u2"
     = Js.Normal (Some false).
Proof. vm_compute. repeat split; auto. Qed.

(** C5 (amended): [canBeEditedBy] returns true exactly when the user is the
    owner, or the first collaborator entry for that user, in the order of the
    array, has role "editor" or "admin" and every entry before it carries a
    user reference. A first entry with role "viewer" does not grant edit
    permission, whatever follows it. *)
Theorem canBeEditedBy_first_entry (c : Campaign.t) (uid : string) :
  Campaign.canBeEditedBy c uid = Js.Normal (Some true) <->
  Campaign.isOwnedBy c uid = true
  \/ exists pre e post,
       Campaign.collaborators c = pre ++ e :: post
       /\ Forall (fun x => exists u, Campaign.c_userId x = Some u /\ u <> uid) pre
       /\ Campaign.c_userId e = Some uid
       /\ (Campaign.c_role e = "editor" \/ Campaign.c_role e = "admin").
Proof.
  unfold Campaign.canBeEditedBy.
  destruct (Campaign.isOwnedBy c uid) eqn:Hown; [split; auto|].
  destruct (Campaign.findCollaborator (Campaign.collaborators c) uid)
    as [[e|]|err] eqn:Hfind.
  - apply findCollaborator_found in Hfind as (pre & post & Heq & Hpre & He).
    split.
    + intros H. injection H as H. apply includes_editor_admin in H.
      right. exists pre, e, post. auto.
    + intros [H|(pre' & e' & post' & Heq' & Hpre' & He' & Hrole)]; [discriminate|].
      assert (Hf : Campaign.findCollaborator (Campaign.collaborators c) uid
                   = Js.Normal (Some e')).
      { apply findCollaborator_found. eauto. }
      assert (Hf' : Campaign.findCollaborator (Campaign.collaborators c) uid
                    = Js.Normal (Some e)).
      { apply findCollaborator_found. eauto. }
      rewrite Hf in Hf'. injection Hf' as ->.
      apply includes_editor_admin in Hrole. rewrite Hrole. reflexivity.
  - split; [discriminate|].
    intros [H|(pre' & e' & post' & Heq' & Hpre' & He' & _)]; [discriminate|].
    assert (Hf : Campaign.findCollaborator (Campaign.collaborators c) uid
                 = Js.Normal (Some e')).
    { apply findCollaborator_found. eauto. }
    congruence.
  - split; [discriminate|].
    intros [H|(pre' & e' & post' & Heq' & Hpre' & He' & _)]; [discriminate|].
    assert (Hf : Campaign.findCollaborator (Campaign.collaborators c) uid
                 = Js.Normal (Some e')).
    { apply findCollaborator_found. eauto. }
    congruence.
Qed.

(** ** Saving a document *)

Lemma validate_preSave (d : Campaign.t) :
  Campaign.validate (Campaign.preSave d) = Campaign.validate d.
Proof. reflexivity. Qed.

(** [save] on a document that passes validation, and on one that does not. *)
Lemma save_valid (id : string) (s : Document.Session) :
  Campaign.validate (Document.doc s) = true ->
  Document.save id s
  = ({| Document.world :=
          World.set_campaigns
            (<[id := Campaign.preSave (Document.doc s)]>
               (World.campaigns (Document.world s)))
            (Document.world s);
        Document.doc := Campaign.preSave (Document.doc s) |},
     Js.Normal tt).
Proof. intros H. unfold Document.save. rewrite H. reflexivity. Qed.

Lemma save_invalid (id : string) (s : Document.Session) :
  Campaign.validate (Document.doc s) = false ->
  Document.save id s = (s, Js.Throw Js.ValidationError).
Proof. intros H. unfold Document.save. rewrite H. reflexivity. Qed.

(** ** Campaign lifecycle *)

(** What [deleteCampaign] does with a stored campaign: the owner deletes it,
    anybody else is refused; the status is not consulted. *)
Lemma deleteCampaign_stored (id uid : string) (w : World.t) (c : Campaign.t) :
  World.campaigns w !! id = Some c ->
  CampaignController.deleteCampaign id uid w
  = if Campaign.isOwnedBy c uid
    then (World.set_campaigns (delete id (World.campaigns w))
            (World.logLookups [World.CampaignFindById id] w),
          Http.ok Http.NoData)
    else (World.logLookups [World.CampaignFindById id] w, Http.failure 403).
Proof.
  intros H. unfold CampaignController.deleteCampaign. rewrite H.
  destruct (Campaign.isOwnedBy c uid); reflexivity.
Qed.

(** C1: the code at the failing input. Campaign "c1" is active and owned by
    "u1"; the delete request of "u1" is answered 200 and the campaign is
    gone. *)
Lemma deleteCampaign_deletes_active_campaign :
  Campaign.status <$> Fixture.stored (Fixture.world "active") = Some "active"
  /\ snd (CampaignController.deleteCampaign Fixture.c1 "u1" (Fixture.world "active"))
     = Http.ok Http.NoData
  /\ Fixture.stored
       (fst (CampaignController.deleteCampaign Fixture.c1 "u1" (Fixture.world "active")))
     = None.
Proof. vm_compute. repeat split; reflexivity. Qed.

(** Archiving sets the status to archived from any status, for an actor who
    may edit a campaign that passes validation. *)
Lemma archiveCampaign_sets_archived (id uid : string) (w : World.t) (c : Campaign.t)
    (editable : option bool) :
  World.campaigns w !! id = Some c ->
  Campaign.canBeEditedBy c uid = Js.Normal editable ->
  Js.truthyBool editable = true ->
  Campaign.validate c = true ->
  snd (CampaignController.archiveCampaign id uid w) = Http.ok Http.NoData
  /\ Campaign.status <$> World.campaigns (fst (CampaignController.archiveCampaign id uid w)) !! id
     = Some "archived"
  /\ Campaign.isArchived <$>
       World.campaigns (fst (CampaignController.archiveCampaign id uid w)) !! id
     = Some true.
Proof.
  intros Hc Hedit Htrue Hv.
  unfold CampaignController.archiveCampaign. rewrite Hc, Hedit, Htrue. cbn [negb].
  unfold Document.archive. rewrite save_valid.
  - cbn [fst snd Document.world World.campaigns World.set_campaigns].
    rewrite lookup_insert_eq. repeat split; reflexivity.
  - cbn [Document.doc Document.set_doc]. revert Hv. unfold Campaign.validate.
    change (Campaign.validPaths
              (Campaign.set_status "archived" (Campaign.set_isArchived true c)))
      with (Campaign.validPaths c).
    cbn [Campaign.status Campaign.content Campaign.generationSettings
         Campaign.set_status Campaign.set_isArchived].
    replace (Js.includes Campaign.statusEnum "archived") with true by reflexivity.
    destruct (Js.includes Campaign.statusEnum (Campaign.status c)); [|discriminate].
    destruct (forallb Campaign.validContent (Campaign.content c)); [|discriminate].
    cbn [andb]. auto.
Qed.

(** ** The update route *)

Section UpdateRoute.

Variable trim : string -> string.
Variable isISO8601 : string -> bool.
Variable parseDate : string -> option Z.
Variable now : Z.
Variable castDate : string -> option Z.

(** A request that passes [validateCampaign] carries an end date, and the
    update made of it fails the update validators. *)
Lemma validateCampaign_invalid_update (req : CampaignRoutes.Request) :
  CampaignRoutes.validateCampaign trim isISO8601 parseDate now req = true ->
  CampaignController.validUpdate trim (CampaignRoutes.body trim castDate req) = false.
Proof.
  unfold CampaignRoutes.validateCampaign. intros H.
  destruct (CampaignRoutes.r_endDate req) as [v|] eqn:He.
  - unfold CampaignController.validUpdate, CampaignController.updateValidators.
    cbn [CampaignRoutes.body CampaignController.b_endDate]. rewrite He.
    cbn [fmap option_fmap option_map]. rewrite !andb_false_r. reflexivity.
  - rewrite andb_false_r in H. discriminate.
Qed.

(** An update that fails the cast or the update validators is answered
    404, 403 or 500 and writes nothing. *)
Lemma updateCampaign_invalid (id uid : string) (body : CampaignController.Body)
    (w : World.t) :
  CampaignController.validUpdate trim body = false ->
  Http.success (snd (CampaignController.updateCampaign trim id uid body w)) = false
  /\ In (Http.statusCode (snd (CampaignController.updateCampaign trim id uid body w)))
       [403; 404; 500]
  /\ World.campaigns (fst (CampaignController.updateCampaign trim id uid body w))
     = World.campaigns w
  /\ World.personas (fst (CampaignController.updateCampaign trim id uid body w))
     = World.personas w.
Proof.
  intros Hv. unfold CampaignController.updateCampaign, Http.missing.
  destruct (World.campaigns w !! id) as [c|];
    [|destruct (Js.isObjectId id); cbn; auto 8].
  destruct (Campaign.canBeEditedBy c uid) as [e|]; [|cbn; auto 8].
  destruct (negb (Js.truthyBool e)); [cbn; auto 8|].
  assert (Hgo : forall w2,
            World.campaigns w2 = World.campaigns w ->
            World.personas w2 = World.personas w ->
            let r := match CampaignController.findByIdAndUpdate trim id body w2 with
                     | (w3, Js.Throw _) => (w3, Http.failure 500)
                     | (w3, Js.Normal updatedCampaign) =>
                         let '(w4, data) := CampaignController.populate updatedCampaign w3 in
                         (w4, Http.ok data)
                     end in
            Http.success (snd r) = false
            /\ In (Http.statusCode (snd r)) [403; 404; 500]
            /\ World.campaigns (fst r) = World.campaigns w
            /\ World.personas (fst r) = World.personas w).
  { intros w2 Hcs Hps. unfold CampaignController.findByIdAndUpdate. rewrite Hv.
    cbn. auto 8. }
  destruct (CampaignController.b_personaId body) as [p|]; [|apply Hgo; reflexivity].
  destruct (Js.truthyString (Some p) && negb (String.eqb p (Campaign.personaId c)));
    [|apply Hgo; reflexivity].
  destruct (World.personas w !! p) as [persona|];
    [|destruct (Js.isObjectId p); cbn; auto 8].
  destruct (Persona.accessDeniedCampaign persona uid); [cbn; auto 8|].
  apply Hgo; reflexivity.
Qed.

(** What the update route does with any request: it refuses it and writes
    nothing. *)
Lemma putCampaign_refuses (id uid : string) (req : CampaignRoutes.Request) (w : World.t) :
  Http.success
    (snd (CampaignRoutes.putCampaign trim isISO8601 parseDate now castDate id uid req w)) = false
  /\ In (Http.statusCode
           (snd (CampaignRoutes.putCampaign trim isISO8601 parseDate now castDate id uid req w)))
       [400; 403; 404; 500]
  /\ World.campaigns
       (fst (CampaignRoutes.putCampaign trim isISO8601 parseDate now castDate id uid req w))
     = World.campaigns w
  /\ World.personas
       (fst (CampaignRoutes.putCampaign trim isISO8601 parseDate now castDate id uid req w))
     = World.personas w.
Proof.
  unfold CampaignRoutes.putCampaign.
  destruct (negb (CampaignRoutes.validateObjectId id)); [cbn; auto 8|].
  destruct (CampaignRoutes.validateCampaign trim isISO8601 parseDate now req) eqn:Hreq;
    cbn [negb]; [|cbn; auto 8].
  destruct (updateCampaign_invalid id uid (CampaignRoutes.body trim castDate req) w
              (validateCampaign_invalid_update req Hreq)) as (H1 & H2 & H3 & H4).
  repeat split; try assumption.
  cbn in H2 |- *. tauto.
Qed.


End UpdateRoute.


(** ** Derived metrics *)

Section Hook.

Variable num : Type.
Variables (zero hundred : num).
Variables (div mul : num -> num -> num).
Variable gt : num -> num -> bool.

(** The hook over any number type: each ratio is recomputed when its
    denominator is greater than zero and kept otherwise; the counters and
    [roi] are not touched. *)
Lemma preSave_fields (m : Metrics.t num) :
  Metrics.ctr (Metrics.preSave zero hundred div mul gt m)
  = (if gt (Metrics.totalImpressions m) zero
     then mul (div (Metrics.totalClicks m) (Metrics.totalImpressions m)) hundred
     else Metrics.ctr m)
  /\ Metrics.cpc (Metrics.preSave zero hundred div mul gt m)
     = (if gt (Metrics.totalClicks m) zero
        then div (Metrics.totalSpent m) (Metrics.totalClicks m)
        else Metrics.cpc m)
  /\ Metrics.cpa (Metrics.preSave zero hundred div mul gt m)
     = (if gt (Metrics.totalConversions m) zero
        then div (Metrics.totalSpent m) (Metrics.totalConversions m)
        else Metrics.cpa m)
  /\ Metrics.totalImpressions (Metrics.preSave zero hundred div mul gt m)
     = Metrics.totalImpressions m
  /\ Metrics.totalClicks (Metrics.preSave zero hundred div mul gt m)
     = Metrics.totalClicks m
  /\ Metrics.totalConversions (Metrics.preSave zero hundred div mul gt m)
     = Metrics.totalConversions m
  /\ Metrics.totalSpent (Metrics.preSave zero hundred div mul gt m)
     = Metrics.totalSpent m.
Proof.
  destruct m as [reach imp clicks conv spent ctr cpc cpa roi].
  unfold Metrics.preSave. cbn.
  destruct (gt imp zero); cbn; destruct (gt clicks zero); cbn;
    destruct (gt conv zero); cbn; repeat split; reflexivity.
Qed.

(** Running the hook a second time changes nothing. *)
Lemma preSave_idempotent (m : Metrics.t num) :
  Metrics.preSave zero hundred div mul gt (Metrics.preSave zero hundred div mul gt m)
  = Metrics.preSave zero hundred div mul gt m.
Proof.
  destruct m as [reach imp clicks conv spent ctr cpc cpa roi].
  unfold Metrics.preSave. cbn.
  destruct (gt imp zero) eqn:H1; cbn; destruct (gt clicks zero) eqn:H2; cbn;
    destruct (gt conv zero) eqn:H3; cbn;
    rewrite ?H1; cbn; rewrite ?H2; cbn; rewrite ?H3; reflexivity.
Qed.

End Hook.

(** C9, as stated, fails: after [updateMetrics] has counted 100 impressions
    and 5 clicks and a second [updateMetrics] has set the impressions back
    to 0, both persisted by [save], the stored campaign has no impressions
    and a click-through rate of 5, not 0. *)
Lemma ctr_is_stale_when_impressions_return_to_zero :
  Fixture.stored (Document.world Fixture.afterReset)
  = Some (Document.doc Fixture.afterReset)
  /\ Qeq_bool
       (Metrics.totalImpressions (Campaign.metrics (Document.doc Fixture.afterReset)))
       (0 # 1) = true
  /\ Qeq_bool (Metrics.ctr (Campaign.metrics (Document.doc Fixture.afterReset))) (5 # 1)
     = true
  /\ Qeq_bool (Metrics.ctr (Campaign.metrics (Document.doc Fixture.afterReset))) (0 # 1)
     = false.
Proof. vm_compute. repeat split; reflexivity. Qed.

(** C9 (amended): every [save] of a campaign document that passes validation
    writes the document with its ratios recomputed by the pre-save hook:
    ctr = totalClicks / totalImpressions * 100 when totalImpressions > 0,
    cpc = totalSpent / totalClicks when totalClicks > 0 and
    cpa = totalSpent / totalConversions when totalConversions > 0; a ratio
    whose denominator is not greater than 0 keeps the value it had. Saving
    again with no counter change yields the same metrics. An update through
    [findByIdAndUpdate] stores the metrics it is given and recomputes
    nothing. *)
Theorem save_recomputes_guarded_ratios (id : string) (s : Document.Session) :
  Campaign.validate (Document.doc s) = true ->
  World.campaigns (Document.world (fst (Document.save id s))) !! id
  = Some (Document.doc (fst (Document.save id s)))
  /\ Metrics.ctr (Campaign.metrics (Document.doc (fst (Document.save id s))))
     = (if Campaign.gtNumber
             (Metrics.totalImpressions (Campaign.metrics (Document.doc s)))
             Campaign.zeroNumber
        then Qmult
               (Qdiv (Metrics.totalClicks (Campaign.metrics (Document.doc s)))
                     (Metrics.totalImpressions (Campaign.metrics (Document.doc s))))
               Campaign.hundred
        else Metrics.ctr (Campaign.metrics (Document.doc s)))
  /\ Metrics.cpc (Campaign.metrics (Document.doc (fst (Document.save id s))))
     = (if Campaign.gtNumber
             (Metrics.totalClicks (Campaign.metrics (Document.doc s)))
             Campaign.zeroNumber
        then Qdiv (Metrics.totalSpent (Campaign.metrics (Document.doc s)))
                  (Metrics.totalClicks (Campaign.metrics (Document.doc s)))
        else Metrics.cpc (Campaign.metrics (Document.doc s)))
  /\ Metrics.cpa (Campaign.metrics (Document.doc (fst (Document.save id s))))
     = (if Campaign.gtNumber
             (Metrics.totalConversions (Campaign.metrics (Document.doc s)))
             Campaign.zeroNumber
        then Qdiv (Metrics.totalSpent (Campaign.metrics (Document.doc s)))
                  (Metrics.totalConversions (Campaign.metrics (Document.doc s)))
        else Metrics.cpa (Campaign.metrics (Document.doc s)))
  /\ Campaign.metrics
       (Document.doc (fst (Document.save id (fst (Document.save id s)))))
     = Campaign.metrics (Document.doc (fst (Document.save id s)))
  /\ (forall (trim : string -> string) (body : CampaignController.Body)
             (w : World.t) (c : Campaign.t) (m : Metrics.t Campaign.Number),
        World.campaigns w !! id = Some c ->
        CampaignController.validUpdate trim body = true ->
        CampaignController.b_metrics body = Some m ->
        Campaign.metrics <$>
          World.campaigns (fst (CampaignController.findByIdAndUpdate trim id body w)) !! id
        = Some m).
Proof.
  intros Hv.
  rewrite (save_valid id s Hv). cbn [fst Document.doc Document.world].
  rewrite save_valid by (cbn [Document.doc]; rewrite validate_preSave; exact Hv).
  cbn [fst Document.doc Document.world World.campaigns World.set_campaigns].
  destruct (preSave_fields Campaign.Number Campaign.zeroNumber Campaign.hundred
              Qdiv Qmult Campaign.gtNumber (Campaign.metrics (Document.doc s)))
    as (Hctr & Hcpc & Hcpa & _).
  split; [apply lookup_insert_eq|].
  split; [exact Hctr|]. split; [exact Hcpc|]. split; [exact Hcpa|].
  split.
  - unfold Campaign.preSave. cbn [Campaign.metrics Campaign.set_metrics].
    apply preSave_idempotent.
  - intros trim body w c m Hc Hvalid Hm.
    unfold CampaignController.findByIdAndUpdate. rewrite Hvalid, Hc.
    cbn [fst World.campaigns World.set_campaigns]. rewrite lookup_insert_eq.
    cbn [fmap option_fmap option_map]. unfold CampaignController.applyUpdate.
    rewrite Hm. reflexivity.
Qed.

Lemma save_recomputes_guarded_ratios_witness :
  Campaign.validate (Document.doc Fixture.afterCounting) = true
  /\ Metrics.ctr
       (Campaign.metrics (Document.doc (fst (Document.save Fixture.c1 Fixture.afterCounting))))
     = Qmult (Qdiv (5 # 1) (100 # 1)) Campaign.hundred.
Proof.
  split; [reflexivity|].
  destruct (save_recomputes_guarded_ratios Fixture.c1 Fixture.afterCounting) as (_ & H & _);
    [reflexivity|].
  exact H.
Defined.

(** ** Content generation *)

(** C6: when the generation capability is not configured, each of the five
    generation handlers answers 503 and returns the world it was given: no
    campaign or persona was looked up, no generation was requested and no
    campaign was touched. *)
Theorem generation_unavailable_fails_fast (rt : ContentController.Runtime)
    (body : ContentController.Body) (uid : string) (w : World.t) :
  ContentController.isAvailable rt = false ->
  ContentController.generateEmailContent rt body uid w = (w, Http.failure 503)
  /\ ContentController.generateSocialContent rt body uid w = (w, Http.failure 503)
  /\ ContentController.generateAdCopy rt body uid w = (w, Http.failure 503)
  /\ ContentController.generateContentVariations rt body uid w = (w, Http.failure 503)
  /\ ContentController.batchGenerateContent rt body uid w = (w, Http.failure 503).
Proof.
  intros H.
  unfold ContentController.generateEmailContent, ContentController.generateSocialContent,
    ContentController.generateAdCopy, ContentController.generateContentVariations,
    ContentController.batchGenerateContent.
  rewrite H. repeat split; reflexivity.
Qed.

Lemma generation_unavailable_fails_fast_witness :
  ContentController.isAvailable (Fixture.runtime None (fun _ => Fixture.reply "Hi" "Hello"))
  = false
  /\ ContentController.generateSocialContent
       (Fixture.runtime None (fun _ => Fixture.reply "Hi" "Hello"))
       (Fixture.request (Some "linkedin") None None None None) "u1" (Fixture.world "draft")
     = (Fixture.world "draft", Http.failure 503).
Proof.
  split; [reflexivity|].
  apply (generation_unavailable_fails_fast
           (Fixture.runtime None (fun _ => Fixture.reply "Hi" "Hello"))
           (Fixture.request (Some "linkedin") None None None None) "u1"
           (Fixture.world "draft")).
  reflexivity.
Defined.

(** *** Appending content *)

Lemma validate_pushContent (trim : string -> string) (item : Campaign.Content)
    (d : Campaign.t) :
  Campaign.validate (Campaign.pushContent trim item d)
  = Campaign.validate d && Campaign.validContent (Campaign.castContent trim item).
Proof.
  unfold Campaign.validate, Campaign.pushContent.
  change (Campaign.validPaths
            (Campaign.set_content
               (Campaign.content d ++ [Campaign.castContent trim item]) d))
    with (Campaign.validPaths d).
  cbn [Campaign.status Campaign.content Campaign.generationSettings Campaign.set_content].
  rewrite forallb_app. cbn [forallb]. rewrite andb_true_r.
  destruct (Js.includes Campaign.statusEnum (Campaign.status d)),
    (forallb Campaign.validContent (Campaign.content d)),
    (Campaign.validContent (Campaign.castContent trim item)),
    (Campaign.validGenerationSettings (Campaign.generationSettings d)),
    (Campaign.validPaths d); reflexivity.
Qed.

(** [addContent] of an item that fails the content schema: nothing is
    written, and the item stays on the fetched document. *)
Lemma addContent_invalid (trim : string -> string) (id : string)
    (item : Campaign.Content) (s : Document.Session) :
  Campaign.validContent (Campaign.castContent trim item) = false ->
  Document.addContent trim id item s
  = (Document.set_doc (Campaign.pushContent trim item (Document.doc s)) s,
     Js.Throw Js.ValidationError).
Proof.
  intros H. unfold Document.addContent. apply save_invalid.
  cbn [Document.doc Document.set_doc]. rewrite validate_pushContent, H.
  apply andb_false_r.
Qed.

(** [addContent] of an item that passes the content schema, on a document
    that passes validation: the item is appended and the document written. *)
Lemma addContent_valid (trim : string -> string) (id : string)
    (item : Campaign.Content) (s : Document.Session) :
  Campaign.validate (Document.doc s) = true ->
  Campaign.validContent (Campaign.castContent trim item) = true ->
  Document.addContent trim id item s
  = ({| Document.world :=
          World.set_campaigns
            (<[id := Campaign.preSave (Campaign.pushContent trim item (Document.doc s))]>
               (World.campaigns (Document.world s)))
            (Document.world s);
        Document.doc := Campaign.preSave (Campaign.pushContent trim item (Document.doc s)) |},
     Js.Normal tt).
Proof.
  intros Hd Hi. unfold Document.addContent. rewrite save_valid; [reflexivity|].
  cbn [Document.doc Document.set_doc]. rewrite validate_pushContent, Hd, Hi. reflexivity.
Qed.

(** A content item on platform "google-ads" fails the content schema. *)
Lemma google_ads_fails_schema (trim : string -> string) (c : Campaign.Content) :
  Campaign.platform c = Some "google-ads" ->
  Campaign.validContent (Campaign.castContent trim c) = false.
Proof.
  intros H. unfold Campaign.validContent, Campaign.castContent.
  cbn [Campaign.platform Campaign.contentType]. rewrite H.
  cbn [Js.includesOpt]. replace (Js.includes Campaign.platformEnum "google-ads") with false
    by reflexivity.
  rewrite andb_false_r. reflexivity.
Qed.

(** The ad-copy method puts its platform argument, "google-ads" when there
    is none, on the item. *)
Lemma serviceAdCopy_platform (rt : ContentController.Runtime) (platform : option string)
    (r : AIContentGenerator.Reply) (c : Campaign.Content) :
  ContentController.serviceAdCopy rt platform r = Js.Normal c ->
  Campaign.platform c = Some (default "google-ads" platform)
  /\ Campaign.contentType c = "ad_copy".
Proof.
  unfold ContentController.serviceAdCopy, AIContentGenerator.generateAdCopy.
  destruct (AIContentGenerator.bodyReply r); [|discriminate].
  intros H. injection H as <-. split; reflexivity.
Qed.

(** The common block of the generation handlers only logs its two lookups,
    and every response it gives is a failure. *)
Lemma resolveAndAuthorize_world (body : ContentController.Body) (uid : string)
    (w : World.t) :
  fst (ContentController.resolveAndAuthorize body uid w)
  = World.logLookups
      [World.CampaignFindById (ContentController.campaignId body);
       World.PersonaFindById (ContentController.personaId body)] w.
Proof.
  unfold ContentController.resolveAndAuthorize.
  destruct (World.campaigns w !! ContentController.campaignId body) as [c|]; [|reflexivity].
  destruct (World.personas w !! ContentController.personaId body) as [p|]; [|reflexivity].
  destruct (Campaign.canBeEditedBy c uid) as [e|]; [|reflexivity].
  destruct (negb (Js.truthyBool e)); [reflexivity|].
  destruct (Persona.accessDeniedContent p uid); reflexivity.
Qed.

Lemma resolveAndAuthorize_rejects (body : ContentController.Body) (uid : string)
    (w : World.t) (r : Http.Response) :
  snd (ContentController.resolveAndAuthorize body uid w) = inl r ->
  Http.success r = false.
Proof.
  unfold ContentController.resolveAndAuthorize.
  destruct (World.campaigns w !! ContentController.campaignId body) as [c|];
    [|intros H; injection H as <-; reflexivity].
  destruct (World.personas w !! ContentController.personaId body) as [p|];
    [|intros H; injection H as <-; reflexivity].
  destruct (Campaign.canBeEditedBy c uid) as [e|];
    [|intros H; injection H as <-; reflexivity].
  destruct (negb (Js.truthyBool e)); [intros H; injection H as <-; reflexivity|].
  destruct (Persona.accessDeniedContent p uid);
    [intros H; injection H as <-; reflexivity|discriminate].
Qed.

(** What the block lets through: an existing campaign that the actor may
    edit and an existing persona that the guard does not deny. *)
Lemma resolveAndAuthorize_accepts (body : ContentController.Body) (uid : string)
    (w : World.t) (c : Campaign.t) :
  snd (ContentController.resolveAndAuthorize body uid w) = inr c <->
  World.campaigns w !! ContentController.campaignId body = Some c
  /\ exists p editable,
       World.personas w !! ContentController.personaId body = Some p
       /\ Campaign.canBeEditedBy c uid = Js.Normal editable
       /\ Js.truthyBool editable = true
       /\ Persona.accessDeniedContent p uid = false.
Proof.
  unfold ContentController.resolveAndAuthorize. split.
  - destruct (World.campaigns w !! ContentController.campaignId body) as [c0|];
      [|discriminate].
    destruct (World.personas w !! ContentController.personaId body) as [p|];
      [|discriminate].
    destruct (Campaign.canBeEditedBy c0 uid) as [e|] eqn:He; [|discriminate].
    destruct (Js.truthyBool e) eqn:Ht; [|discriminate]. cbn [negb].
    destruct (Persona.accessDeniedContent p uid) eqn:Hd; [discriminate|].
    intros H. injection H as <-. split; [reflexivity|]. exists p, e. auto.
  - intros (Hc & p & e & Hp & He & Ht & Hd). rewrite Hc, Hp, He, Ht, Hd. reflexivity.
Qed.

(** Generating and adding with a method whose items all fail the content
    schema: the pair of statements throws and no campaign is written. *)
Lemma generateAndAdd_invalid (rt : ContentController.Runtime) (id : string)
    (g : World.GenCall)
    (method : AIContentGenerator.Reply -> Js.completion Campaign.Content)
    (s : Document.Session) :
  (forall r c, method r = Js.Normal c ->
     Campaign.validContent (Campaign.castContent (ContentController.trim rt) c) = false) ->
  (exists e, snd (ContentController.generateAndAdd rt id g method s) = Js.Throw e)
  /\ World.campaigns (Document.world (fst (ContentController.generateAndAdd rt id g method s)))
     = World.campaigns (Document.world s).
Proof.
  intros Hbad. unfold ContentController.generateAndAdd, ContentController.callService.
  destruct (method (ContentController.ai rt (length (World.generations (Document.world s)))))
    as [c|e] eqn:Hm.
  - rewrite (addContent_invalid _ _ _ _ (Hbad _ _ Hm)). cbn. split; [eauto|reflexivity].
  - cbn. split; [eauto|reflexivity].
Qed.

(** One ad-copy turn of the batch loop: the service is called without a
    platform, the item fails the schema or the generation fails, the error
    is recorded under "ad_copy" and nothing is written or returned. *)
Lemma batchTurn_ad_copy (rt : ContentController.Runtime) (id : string)
    (platforms : list string) (b : ContentController.Batch) :
  exists e,
    ContentController.errors (ContentController.batchTurn rt id platforms b "ad_copy")
    = ContentController.errors b ++ [("ad_copy", e)]
    /\ ContentController.generatedContent
         (ContentController.batchTurn rt id platforms b "ad_copy")
       = ContentController.generatedContent b
    /\ World.campaigns
         (Document.world
            (ContentController.session
               (ContentController.batchTurn rt id platforms b "ad_copy")))
       = World.campaigns (Document.world (ContentController.session b)).
Proof.
  unfold ContentController.batchTurn, ContentController.batchTry.
  cbn [String.eqb Ascii.eqb Bool.eqb]. unfold ContentController.batchItem.
  destruct (generateAndAdd_invalid rt id (ContentController.adCopyCall None)
              (ContentController.serviceAdCopy rt None) (ContentController.session b))
    as [[e He] Hw].
  { intros r c Hc. apply google_ads_fails_schema.
    apply (serviceAdCopy_platform rt None r c Hc). }
  destruct (ContentController.generateAndAdd rt id (ContentController.adCopyCall None)
              (ContentController.serviceAdCopy rt None) (ContentController.session b))
    as [s' [c|e']]; cbn in He; [discriminate|].
  exists e'. cbn. cbn in Hw. auto.
Qed.

(** C10: an ad-copy request without [platform] gets the platform
    "google-ads", which is not in the platform enumeration of the content
    schema, so the item fails validation in [addContent]: the handler
    answers with a failure and no stored campaign changes. The ad-copy turn
    of batch generation calls the service without a platform and ends the
    same way: an error entry for "ad_copy", no item returned, no campaign
    written. *)
Theorem adCopy_without_platform_appends_nothing (rt : ContentController.Runtime)
    (body : ContentController.Body) (uid : string) (w : World.t) :
  ContentController.platform body = None ->
  (forall r c,
     ContentController.serviceAdCopy rt (ContentController.platform body) r = Js.Normal c
     \/ ContentController.serviceAdCopy rt
          (Some (default "google-ads" (ContentController.platform body))) r = Js.Normal c ->
     Campaign.platform c = Some "google-ads"
     /\ Js.includesOpt Campaign.platformEnum (Campaign.platform c) = false
     /\ Campaign.validContent (Campaign.castContent (ContentController.trim rt) c) = false)
  /\ Http.success (snd (ContentController.generateAdCopy rt body uid w)) = false
  /\ World.campaigns (fst (ContentController.generateAdCopy rt body uid w))
     = World.campaigns w
  /\ (forall (id : string) (platforms : list string) (b : ContentController.Batch),
      exists e,
        ContentController.errors (ContentController.batchTurn rt id platforms b "ad_copy")
        = ContentController.errors b ++ [("ad_copy", e)]
        /\ ContentController.generatedContent
             (ContentController.batchTurn rt id platforms b "ad_copy")
           = ContentController.generatedContent b
        /\ World.campaigns
             (Document.world
                (ContentController.session
                   (ContentController.batchTurn rt id platforms b "ad_copy")))
           = World.campaigns (Document.world (ContentController.session b))).
Proof.
  intros Hp. rewrite Hp. split; [|split; [|split]].
  - intros r c Hc.
    assert (Hpl : Campaign.platform c = Some "google-ads").
    { destruct Hc as [Hc|Hc]; apply serviceAdCopy_platform in Hc as [Hpl _]; exact Hpl. }
    split; [exact Hpl|]. split.
    + rewrite Hpl. reflexivity.
    + apply google_ads_fails_schema. exact Hpl.
  - unfold ContentController.generateAdCopy. rewrite Hp. cbn [default].
    destruct (negb (ContentController.isAvailable rt)); [reflexivity|].
    destruct (ContentController.resolveAndAuthorize body uid w) as [w1 [r|c]] eqn:Hr.
    + cbn [snd]. apply (resolveAndAuthorize_rejects body uid w).
      rewrite Hr. reflexivity.
    + destruct (generateAndAdd_invalid rt (ContentController.campaignId body)
                  (ContentController.adCopyCall (Some "google-ads"))
                  (ContentController.serviceAdCopy rt (Some "google-ads"))
                  {| Document.world := w1;
                     Document.doc := ContentController.withCustomInstructions rt body c |})
        as [[e He] _].
      { intros r c' Hc. apply google_ads_fails_schema.
        apply (serviceAdCopy_platform rt (Some "google-ads") r c' Hc). }
      unfold ContentController.respondContent.
      destruct (ContentController.generateAndAdd rt (ContentController.campaignId body)
                  (ContentController.adCopyCall (Some "google-ads"))
                  (ContentController.serviceAdCopy rt (Some "google-ads")) _)
        as [s' [c'|e']]; cbn in He; [discriminate|]. reflexivity.
  - unfold ContentController.generateAdCopy. rewrite Hp. cbn [default].
    destruct (negb (ContentController.isAvailable rt)); [reflexivity|].
    pose proof (resolveAndAuthorize_world body uid w) as Hw.
    destruct (ContentController.resolveAndAuthorize body uid w) as [w1 [r|c]] eqn:Hr;
      cbn [fst] in Hw; subst w1.
    + reflexivity.
    + destruct (generateAndAdd_invalid rt (ContentController.campaignId body)
                  (ContentController.adCopyCall (Some "google-ads"))
                  (ContentController.serviceAdCopy rt (Some "google-ads"))
                  {| Document.world :=
                       World.logLookups
                         [World.CampaignFindById (ContentController.campaignId body);
                          World.PersonaFindById (ContentController.personaId body)] w;
                     Document.doc := ContentController.withCustomInstructions rt body c |})
        as [_ Hsame].
      { intros r c' Hc. apply google_ads_fails_schema.
        apply (serviceAdCopy_platform rt (Some "google-ads") r c' Hc). }
      unfold ContentController.respondContent.
      destruct (ContentController.generateAndAdd rt (ContentController.campaignId body)
                  (ContentController.adCopyCall (Some "google-ads"))
                  (ContentController.serviceAdCopy rt (Some "google-ads")) _)
        as [s' [c'|e']]; cbn [fst] in Hsame |- *; exact Hsame.
  - intros id platforms b. apply batchTurn_ad_copy.
Qed.

Lemma adCopy_without_platform_appends_nothing_witness :
  ContentController.platform (Fixture.request None None None None None) = None
  /\ Http.success
       (snd (ContentController.generateAdCopy
               (Fixture.runtime (Some "sk-test") (fun _ => Fixture.reply "Hi" "Hello"))
               (Fixture.request None None None None None) "u1" (Fixture.world "draft")))
     = false
  /\ World.campaigns
       (fst (ContentController.generateAdCopy
               (Fixture.runtime (Some "sk-test") (fun _ => Fixture.reply "Hi" "Hello"))
               (Fixture.request None None None None None) "u1" (Fixture.world "draft")))
     = World.campaigns (Fixture.world "draft").
Proof.
  split; [reflexivity|].
  destruct (adCopy_without_platform_appends_nothing
              (Fixture.runtime (Some "sk-test") (fun _ => Fixture.reply "Hi" "Hello"))
              (Fixture.request None None None None None) "u1" (Fixture.world "draft"))
    as (_ & H1 & H2 & _); [reflexivity|].
  split; assumption.
Defined.

(** *** Variations *)

Lemma promiseAll_fulfilled {A : Type} (items : list A) :
  AIContentGenerator.promiseAll (map Js.Normal items) = Js.Normal items.
Proof.
  induction items as [|a items IH]; [reflexivity|].
  cbn. rewrite IH. reflexivity.
Qed.

Lemma promiseAll_rejected {A : Type} (ps : list (Js.completion A)) :
  (exists e, In (Js.Throw e) ps) ->
  exists e, AIContentGenerator.promiseAll ps = Js.Throw e.
Proof.
  induction ps as [|p ps IH]; intros [e He]; [destruct He|].
  destruct p as [a|e']; cbn.
  - destruct He as [He|He]; [discriminate|].
    destruct IH as [e2 H2]; [eauto|]. rewrite H2. eauto.
  - eauto.
Qed.

Section Variations.

Variable rt : ContentController.Runtime.

(** The promises started by the variations loop of the service. *)
Lemma startVariations_world (campaign : Campaign.t) (contentType : string) (n : nat)
    (w : World.t) :
  World.campaigns
    (fst (AIContentGenerator.startVariations (ContentController.trim rt)
            (ContentController.parseInt rt) (ContentController.matchHashtags rt)
            (ContentController.stripTrailingHashtags rt) (ContentController.ai rt)
            campaign contentType n w))
  = World.campaigns w.
Proof.
  revert w. induction n as [|n IH]; intros w; [reflexivity|].
  cbn [AIContentGenerator.startVariations].
  destruct (AIContentGenerator.variationCall _ _ _ _ campaign contentType) as [[g method]|].
  - specialize (IH (World.logGeneration g w)).
    destruct (AIContentGenerator.startVariations _ _ _ _ _ campaign contentType n
                (World.logGeneration g w)) as [w' ps].
    cbn [fst] in *. exact IH.
  - apply IH.
Qed.

Lemma startVariations_length (campaign : Campaign.t) (contentType : string) (n : nat)
    (w : World.t) :
  Js.includes ContentController.validContentTypes contentType = true ->
  length
    (snd (AIContentGenerator.startVariations (ContentController.trim rt)
            (ContentController.parseInt rt) (ContentController.matchHashtags rt)
            (ContentController.stripTrailingHashtags rt) (ContentController.ai rt)
            campaign contentType n w))
  = n.
Proof.
  intros Hct. revert w. induction n as [|n IH]; intros w; [reflexivity|].
  cbn [AIContentGenerator.startVariations].
  destruct (AIContentGenerator.variationCall _ _ _ _ campaign contentType)
    as [[g method]|] eqn:Hcall.
  - specialize (IH (World.logGeneration g w)).
    destruct (AIContentGenerator.startVariations _ _ _ _ _ campaign contentType n
                (World.logGeneration g w)) as [w' ps].
    cbn [snd length] in *. rewrite IH. reflexivity.
  - exfalso. unfold AIContentGenerator.variationCall in Hcall.
    unfold Js.includes, ContentController.validContentTypes in Hct. cbn [existsb] in Hct.
    destruct (String.eqb contentType "email"); [discriminate|].
    destruct (String.eqb contentType "social_post"); [discriminate|].
    destruct (String.eqb contentType "ad_copy"); discriminate.
Qed.

(** The loop of [addContent] over items that all pass the content schema. *)
Lemma addAll_valid (id : string) (items : list Campaign.Content) (s : Document.Session) :
  Campaign.validate (Document.doc s) = true ->
  Forall (fun i => Campaign.validContent
                     (Campaign.castContent (ContentController.trim rt) i) = true) items ->
  exists s',
    ContentController.addAll rt id items s = (s', Js.Normal tt)
    /\ Campaign.content (Document.doc s')
       = Campaign.content (Document.doc s)
         ++ map (Campaign.castContent (ContentController.trim rt)) items
    /\ (items <> [] -> World.campaigns (Document.world s') !! id = Some (Document.doc s')).
Proof.
  revert s. induction items as [|item items IH]; intros s Hd Hall.
  - exists s. cbn. rewrite app_nil_r. repeat split; congruence.
  - apply Forall_cons_1 in Hall as [Hitem Hall].
    cbn [ContentController.addAll].
    rewrite (addContent_valid _ id item s Hd Hitem).
    set (s1 := {| Document.world := _; Document.doc := _ |}).
    destruct (IH s1) as (s' & Hrun & Hcontent & Hstored); [|exact Hall|].
    { cbn [Document.doc s1]. rewrite validate_preSave, validate_pushContent, Hd, Hitem.
      reflexivity. }
    exists s'. split; [exact Hrun|]. split.
    + rewrite Hcontent. cbn [Document.doc s1]. unfold Campaign.preSave, Campaign.pushContent.
      cbn [Campaign.content Campaign.set_metrics Campaign.set_content map].
      rewrite <- app_assoc. reflexivity.
    + intros _. destruct items as [|i2 items].
      * cbn in Hrun. injection Hrun as <-. cbn. apply lookup_insert_eq.
      * apply Hstored. discriminate.
Qed.

End Variations.

(** C7, as stated, fails: with two email variations requested, both
    sub-generations succeed, the second with a subject line of 201
    characters; the first item is saved, the second fails validation, the
    request is answered 500 and exactly one of the two items is stored. *)
Lemma variations_can_append_a_strict_subset :
  forallb Js.isNormal
    (snd (AIContentGenerator.startVariations JsString.trim JsString.parseInt
            JsString.matchHashtags JsString.stripTrailingHashtags
            Fixture.longSubjectAfterFirst (Fixture.campaign "draft" []) "email" 2
            (Fixture.world "draft")))
  = true
  /\ Http.statusCode
       (snd (ContentController.generateContentVariations
               (Fixture.runtime (Some "sk-test") Fixture.longSubjectAfterFirst)
               (Fixture.request None (Some "email") (Some 2%Z) None None) "u1"
               (Fixture.world "draft")))
     = 500
  /\ length <$>
       (Campaign.content <$>
          Fixture.stored
            (fst (ContentController.generateContentVariations
                    (Fixture.runtime (Some "sk-test") Fixture.longSubjectAfterFirst)
                    (Fixture.request None (Some "email") (Some 2%Z) None None) "u1"
                    (Fixture.world "draft"))))
     = Some 1.
Proof. vm_compute. repeat split; reflexivity. Qed.

(** One failing sub-generation out of three: 500, and campaign "c1" is
    stored as before. *)
Example variations_one_failure_appends_nothing :
  snd (ContentController.generateContentVariations
         (Fixture.runtime (Some "sk-test") (Fixture.failingAt 1))
         (Fixture.request None (Some "email") (Some 3%Z) None None) "u1"
         (Fixture.world "draft"))
  = Http.failure 500
  /\ Fixture.stored
       (fst (ContentController.generateContentVariations
               (Fixture.runtime (Some "sk-test") (Fixture.failingAt 1))
               (Fixture.request None (Some "email") (Some 3%Z) None None) "u1"
               (Fixture.world "draft")))
     = Some (Fixture.campaign "draft" []).
Proof. vm_compute. split; reflexivity. Qed.

(** C7 (amended): for a validated count N between 2 and 5 and an authorized
    request, the service starts N sub-generations. If any of them fails, the
    request is answered 500 and no stored campaign changes: zero items are
    appended. If all N succeed and the N items pass the content schema (the
    fetched campaign passing validation), the request is answered 200 and
    exactly these N items are appended, in order. *)
Theorem variations_all_or_nothing_on_generation (rt : ContentController.Runtime)
    (body : ContentController.Body) (uid : string) (w : World.t) (c : Campaign.t)
    (ct : string) (n : Z) :
  ContentController.isAvailable rt = true ->
  snd (ContentController.resolveAndAuthorize body uid w) = inr c ->
  ContentController.contentType body = Some ct ->
  Js.includes ContentController.validContentTypes ct = true ->
  default 2%Z (ContentController.variations body) = n ->
  (2 <= n <= 5)%Z ->
  length
    (snd (AIContentGenerator.startVariations (ContentController.trim rt)
            (ContentController.parseInt rt) (ContentController.matchHashtags rt)
            (ContentController.stripTrailingHashtags rt) (ContentController.ai rt)
            (ContentController.withVariationPlatform body c) ct (Z.to_nat n)
            (fst (ContentController.resolveAndAuthorize body uid w))))
  = Z.to_nat n
  /\ ((exists e,
        In (Js.Throw e)
          (snd (AIContentGenerator.startVariations (ContentController.trim rt)
                  (ContentController.parseInt rt) (ContentController.matchHashtags rt)
                  (ContentController.stripTrailingHashtags rt) (ContentController.ai rt)
                  (ContentController.withVariationPlatform body c) ct (Z.to_nat n)
                  (fst (ContentController.resolveAndAuthorize body uid w))))) ->
      snd (ContentController.generateContentVariations rt body uid w) = Http.failure 500
      /\ World.campaigns (fst (ContentController.generateContentVariations rt body uid w))
         = World.campaigns w)
  /\ (forall items,
        snd (AIContentGenerator.startVariations (ContentController.trim rt)
               (ContentController.parseInt rt) (ContentController.matchHashtags rt)
               (ContentController.stripTrailingHashtags rt) (ContentController.ai rt)
               (ContentController.withVariationPlatform body c) ct (Z.to_nat n)
               (fst (ContentController.resolveAndAuthorize body uid w)))
        = map Js.Normal items ->
        Campaign.validate (ContentController.withVariationPlatform body c) = true ->
        Forall (fun i => Campaign.validContent
                           (Campaign.castContent (ContentController.trim rt) i) = true)
          items ->
        length items = Z.to_nat n
        /\ snd (ContentController.generateContentVariations rt body uid w)
           = Http.ok (Http.VariationsData items)
        /\ Campaign.content <$>
             World.campaigns (fst (ContentController.generateContentVariations rt body uid w))
               !! ContentController.campaignId body
           = Some (Campaign.content c
                   ++ map (Campaign.castContent (ContentController.trim rt)) items)).
Proof.
  intros Havail Hauth Hct Hvalid Hn Hrange.
  pose proof (resolveAndAuthorize_world body uid w) as Hw1.
  assert (Hhandler :
    ContentController.generateContentVariations rt body uid w
    = match ContentController.serviceVariations rt
              (ContentController.withVariationPlatform body c) ct n
              (fst (ContentController.resolveAndAuthorize body uid w)) with
      | (w2, Js.Throw _) => (w2, Http.failure 500)
      | (w2, Js.Normal contentVariations) =>
          match ContentController.addAll rt (ContentController.campaignId body)
                  contentVariations
                  {| Document.world := w2;
                     Document.doc := ContentController.withVariationPlatform body c |} with
          | (s, Js.Throw _) => (Document.world s, Http.failure 500)
          | (s, Js.Normal _) =>
              (Document.world s, Http.ok (Http.VariationsData contentVariations))
          end
      end).
  { unfold ContentController.generateContentVariations.
    rewrite Havail, Hct, Hn. cbn [negb default from_option id Js.includesOpt].
    rewrite Hvalid. cbn [negb].
    replace ((n <? 2)%Z || (n >? 5)%Z) with false by lia.
    destruct (ContentController.resolveAndAuthorize body uid w) as [w1 res].
    cbn [snd] in Hauth. subst res. reflexivity. }
  rewrite Hhandler. clear Hhandler.
  destruct (ContentController.resolveAndAuthorize body uid w) as [w1 res].
  cbn [fst snd] in *. subst res.
  pose proof (startVariations_length rt (ContentController.withVariationPlatform body c)
                ct (Z.to_nat n) w1 Hvalid) as Hlen.
  pose proof (startVariations_world rt (ContentController.withVariationPlatform body c)
                ct (Z.to_nat n) w1) as Hworld.
  unfold ContentController.serviceVariations, AIContentGenerator.generateContentVariations.
  destruct (AIContentGenerator.startVariations _ _ _ _ _
              (ContentController.withVariationPlatform body c) ct (Z.to_nat n) w1)
    as [w2 ps] eqn:Hstart.
  cbn [fst snd] in *.
  split; [exact Hlen|]. split.
  - intros Hfail. destruct (promiseAll_rejected ps Hfail) as [e He]. rewrite He.
    cbn [fst snd]. split; [reflexivity|].
    rewrite Hworld, Hw1. reflexivity.
  - intros items Hps Hdoc Hitems. subst ps.
    rewrite length_map in Hlen. split; [exact Hlen|].
    rewrite promiseAll_fulfilled.
    destruct (addAll_valid rt (ContentController.campaignId body) items
                {| Document.world := w2;
                   Document.doc := ContentController.withVariationPlatform body c |}
                Hdoc Hitems) as (s' & Hrun & Hcontent & Hstored).
    rewrite Hrun. cbn [fst snd]. split; [reflexivity|].
    rewrite Hstored.
    + cbn [fmap option_fmap option_map]. rewrite Hcontent. cbn [Document.doc].
      unfold ContentController.withVariationPlatform.
      destruct (String.eqb _ "social_post"); reflexivity.
    + intros ->. cbn in Hlen. lia.
Qed.

Lemma variations_all_or_nothing_on_generation_witness :
  ContentController.isAvailable
    (Fixture.runtime (Some "sk-test") (fun _ => Fixture.reply "Hi" "Hello there")) = true
  /\ (2 <= 3 <= 5)%Z
  /\ length <$>
       (Campaign.content <$>
          World.campaigns
            (fst (ContentController.generateContentVariations
                    (Fixture.runtime (Some "sk-test")
                       (fun _ => Fixture.reply "Hi" "Hello there"))
                    (Fixture.request None (Some "email") (Some 3%Z) None None) "u1"
                    (Fixture.world "draft"))) !! Fixture.c1)
     = Some 3.
Proof.
  split; [reflexivity|]. split; [lia|].
  pose proof (variations_all_or_nothing_on_generation
                (Fixture.runtime (Some "sk-test") (fun _ => Fixture.reply "Hi" "Hello there"))
                (Fixture.request None (Some "email") (Some 3%Z) None None) "u1"
                (Fixture.world "draft") (Fixture.campaign "draft" []) "email" 3%Z
                eq_refl eq_refl eq_refl eq_refl eq_refl
                ltac:(lia))
    as (_ & _ & Hall).
  specialize (Hall (repeat
                      {| Campaign.contentType := "email"; Campaign.platform := Some "email";
                         Campaign.subjectLine := Some "Hi";
                         Campaign.contentBody := "Hello there"; Campaign.hashtags := [];
                         Campaign.qualityScore := 88%Z |} 3)
                   eq_refl eq_refl).
  destruct Hall as (_ & _ & Hstored); [repeat constructor|].
  cbn [ContentController.campaignId Fixture.request] in Hstored.
  rewrite Hstored. reflexivity.
Defined.

(** *** Batch generation *)

Section BatchItems.

Variable rt : ContentController.Runtime.



End BatchItems.

Section BatchScenario.

(** A batch request over the content types email and social_post and the
    platforms email, linkedin and twitter, by an actor who passes the
    authorization block, on a campaign that passes validation. *)
Variable rt : ContentController.Runtime.
Variable body : ContentController.Body.
Variable uid : string.
Variable w : World.t.
Variable c : Campaign.t.

Hypothesis Havailable : ContentController.isAvailable rt = true.
Hypothesis Hauthorized : snd (ContentController.resolveAndAuthorize body uid w) = inr c.
Hypothesis HcontentTypes :
  ContentController.contentTypes body = Some ["email"; "social_post"].
Hypothesis Hplatforms :
  ContentController.platforms body = Some ["email"; "linkedin"; "twitter"].
Hypothesis Hvalid :
  Campaign.validate (ContentController.withCustomInstructions rt body c) = true.

Local Abbreviation cid := (ContentController.campaignId body).
Local Abbreviation cast := (Campaign.castContent (ContentController.trim rt)).
Local Abbreviation valid i := (Campaign.validContent (cast i) = true).
Local Abbreviation n0 := (length (World.generations w)).
Local Abbreviation email k := (ContentController.serviceEmail rt (ContentController.ai rt k)).
Local Abbreviation social p k :=
  (ContentController.serviceSocial rt (Some p) (ContentController.ai rt k)).
Local Abbreviation result := (ContentController.batchGenerateContent rt body uid w).
Local Abbreviation start :=
  {| ContentController.session :=
       {| Document.world :=
            World.logLookups
              [World.CampaignFindById cid;
               World.PersonaFindById (ContentController.personaId body)] w;
          Document.doc := ContentController.withCustomInstructions rt body c |};
     ContentController.generatedContent := [];
     ContentController.errors := [] |}.





Local Abbreviation storedContent :=
  (Campaign.content <$> World.campaigns (fst result) !! cid).








End BatchScenario.


(** All three generations succeed: an email item, a linkedin item and a
    twitter item are stored, in this order, and no error list is returned. *)
Example batch_all_succeed_example :
  map Campaign.platform <$>
    (Campaign.content <$>
       Fixture.stored
         (fst (ContentController.batchGenerateContent
                 (Fixture.runtime (Some "sk-test") (fun _ => Fixture.reply "Hi" "Hello there"))
                 (Fixture.request None None None (Some ["email"; "social_post"])
                    (Some ["email"; "linkedin"; "twitter"]))
                 "u1" (Fixture.world "draft"))))
  = Some [Some "email"; Some "linkedin"; Some "twitter"].
Proof. vm_compute. reflexivity. Qed.


(** *** Turns and calls of any batch *)

Section BatchCalls.

Variable rt : ContentController.Runtime.
Variable id : string.

Local Abbreviation gens b :=
  (World.generations (Document.world (ContentController.session b))).









End BatchCalls.



(** ** The status of a campaign *)

Section StatusKept.

Variable rt : ContentController.Runtime.

(** The world a request started from and the campaign it names. *)
Variable w0 : World.t.
Variable cid : string.

(** [kept w]: every campaign stored in [w0] and in [w] has in [w] the status
    it had in [w0]. *)
Local Abbreviation kept w :=
  (forall id c c',
     World.campaigns w0 !! id = Some c ->
     World.campaigns w !! id = Some c' ->
     Campaign.status c' = Campaign.status c).

(** What a handler keeps true of the document it fetched: the stored
    campaigns have kept their status, and so has the document. *)
Local Abbreviation steady s :=
  (kept (Document.world s)
   /\ (forall c, World.campaigns w0 !! cid = Some c ->
                 Campaign.status (Document.doc s) = Campaign.status c)).

Lemma save_steady (s : Document.Session) :
  steady s -> steady (fst (Document.save cid s)).
Proof.
  intros [Hk Hd]. unfold Document.save.
  destruct (Campaign.validate (Document.doc s)); [|split; assumption].
  cbn [fst Document.world Document.doc World.campaigns World.set_campaigns]. split.
  - intros id c c' H0 H1. destruct (decide (id = cid)) as [->|Hne].
    + rewrite lookup_insert_eq in H1. injection H1 as <-. apply (Hd c H0).
    + rewrite lookup_insert_ne in H1 by congruence. apply (Hk id c c' H0 H1).
  - exact Hd.
Qed.

Lemma addContent_steady (item : Campaign.Content) (s : Document.Session) :
  steady s -> steady (fst (Document.addContent (ContentController.trim rt) cid item s)).
Proof.
  intros [Hk Hd]. unfold Document.addContent. apply save_steady. split; assumption.
Qed.

Lemma generateAndAdd_steady (g : World.GenCall)
    (method : AIContentGenerator.Reply -> Js.completion Campaign.Content)
    (s : Document.Session) :
  steady s -> steady (fst (ContentController.generateAndAdd rt cid g method s)).
Proof.
  intros Hs. unfold ContentController.generateAndAdd, ContentController.callService.
  destruct (method _) as [c|e]; [|exact Hs].
  pose proof (addContent_steady c
                (Document.set_world (World.logGeneration g (Document.world s)) s) Hs) as H.
  destruct (Document.addContent (ContentController.trim rt) cid c _) as [s2 [u|e]];
    cbn [fst] in *; exact H.
Qed.

Lemma addAll_steady (items : list Campaign.Content) (s : Document.Session) :
  steady s -> steady (fst (ContentController.addAll rt cid items s)).
Proof.
  revert s. induction items as [|item items IH]; intros s Hs; [exact Hs|].
  cbn [ContentController.addAll].
  pose proof (addContent_steady item s Hs) as H1.
  destruct (Document.addContent (ContentController.trim rt) cid item s) as [s1 [u|e]];
    cbn [fst] in *; [apply IH|]; exact H1.
Qed.

Lemma batchItem_steady (g : World.GenCall)
    (method : AIContentGenerator.Reply -> Js.completion Campaign.Content)
    (b : ContentController.Batch) :
  steady (ContentController.session b) ->
  steady (ContentController.session (fst (ContentController.batchItem rt cid g method b))).
Proof.
  intros Hs. unfold ContentController.batchItem.
  pose proof (generateAndAdd_steady g method (ContentController.session b) Hs) as H.
  destruct (ContentController.generateAndAdd rt cid g method (ContentController.session b))
    as [s [c|e]]; cbn [fst ContentController.session] in *; exact H.
Qed.

Lemma batchSocial_steady (platforms : list string) (b : ContentController.Batch) :
  steady (ContentController.session b) ->
  steady (ContentController.session (fst (ContentController.batchSocial rt cid platforms b))).
Proof.
  revert b. induction platforms as [|p platforms IH]; intros b Hs; [exact Hs|].
  cbn [ContentController.batchSocial].
  pose proof (batchItem_steady (ContentController.socialCall (Some p))
                (ContentController.serviceSocial rt (Some p)) b Hs) as H1.
  destruct (ContentController.batchItem rt cid _ _ b) as [b1 [u|e]]; cbn [fst] in *;
    [apply IH|]; exact H1.
Qed.

Lemma batchTurn_steady (platforms : list string) (b : ContentController.Batch)
    (contentType : string) :
  steady (ContentController.session b) ->
  steady (ContentController.session
            (ContentController.batchTurn rt cid platforms b contentType)).
Proof.
  intros Hs. unfold ContentController.batchTurn.
  assert (H : steady (ContentController.session
                        (fst (ContentController.batchTry rt cid platforms contentType b)))).
  { unfold ContentController.batchTry.
    destruct (String.eqb contentType "email"); [apply batchItem_steady; exact Hs|].
    destruct (String.eqb contentType "social_post"); [apply batchSocial_steady; exact Hs|].
    destruct (String.eqb contentType "ad_copy"); [apply batchItem_steady; exact Hs|].
    exact Hs. }
  destruct (ContentController.batchTry rt cid platforms contentType b) as [b1 [u|e]];
    cbn [fst ContentController.session] in *; exact H.
Qed.

Lemma batchLoop_steady (platforms contentTypes : list string)
    (b : ContentController.Batch) :
  steady (ContentController.session b) ->
  steady (ContentController.session
            (ContentController.batchLoop rt cid platforms contentTypes b)).
Proof.
  unfold ContentController.batchLoop. revert b.
  induction contentTypes as [|ct cts IH]; intros b Hs; [exact Hs|].
  cbn [fold_left]. apply IH. apply batchTurn_steady. exact Hs.
Qed.

End StatusKept.

Section StatusOfHandlers.

Variable rt : ContentController.Runtime.

Local Abbreviation kept w w' :=
  (forall id c c',
     World.campaigns w !! id = Some c ->
     World.campaigns w' !! id = Some c' ->
     Campaign.status c' = Campaign.status c).

Lemma same_campaigns_kept (w w' : World.t) :
  World.campaigns w' = World.campaigns w -> kept w w'.
Proof. intros H id c c' H0 H1. rewrite H in H1. congruence. Qed.

Lemma withCustomInstructions_status (body : ContentController.Body) (c : Campaign.t) :
  Campaign.status (ContentController.withCustomInstructions rt body c) = Campaign.status c.
Proof.
  unfold ContentController.withCustomInstructions.
  destruct (ContentController.customInstructions body) as [v|]; [|reflexivity].
  destruct (Js.truthyString (Some v)); reflexivity.
Qed.

Lemma withVariationPlatform_status (body : ContentController.Body) (c : Campaign.t) :
  Campaign.status (ContentController.withVariationPlatform body c) = Campaign.status c.
Proof.
  unfold ContentController.withVariationPlatform.
  destruct (String.eqb _ "social_post"); reflexivity.
Qed.

(** The state of a handler when the common block has let the request
    through. *)
Lemma authorized_steady (body : ContentController.Body) (uid : string) (w : World.t)
    (c d : Campaign.t) :
  snd (ContentController.resolveAndAuthorize body uid w) = inr c ->
  Campaign.status d = Campaign.status c ->
  (forall id c0 c',
     World.campaigns w !! id = Some c0 ->
     World.campaigns (fst (ContentController.resolveAndAuthorize body uid w)) !! id = Some c' ->
     Campaign.status c' = Campaign.status c0)
  /\ (forall c0, World.campaigns w !! ContentController.campaignId body = Some c0 ->
                Campaign.status d = Campaign.status c0).
Proof.
  intros Hauth Hd. rewrite resolveAndAuthorize_world.
  apply resolveAndAuthorize_accepts in Hauth as [Hc _]. split.
  - apply same_campaigns_kept. reflexivity.
  - intros c0 H0. rewrite Hc in H0. injection H0 as <-. exact Hd.
Qed.

Lemma single_handler_status (body : ContentController.Body) (uid : string) (w : World.t)
    (g : World.GenCall)
    (method : AIContentGenerator.Reply -> Js.completion Campaign.Content) :
  kept w
    (fst match ContentController.resolveAndAuthorize body uid w with
         | (w1, inl r) => (w1, r)
         | (w1, inr campaign) =>
             ContentController.respondContent
               (ContentController.generateAndAdd rt (ContentController.campaignId body) g
                  method
                  {| Document.world := w1;
                     Document.doc :=
                       ContentController.withCustomInstructions rt body campaign |})
         end).
Proof.
  pose proof (resolveAndAuthorize_world body uid w) as Hw.
  pose proof (fun c d => authorized_steady body uid w c d) as Hinit.
  destruct (ContentController.resolveAndAuthorize body uid w) as [w1 [r|c]];
    cbn [fst snd] in *.
  - apply same_campaigns_kept. rewrite Hw. reflexivity.
  - pose proof (generateAndAdd_steady rt w (ContentController.campaignId body) g method
                  {| Document.world := w1;
                     Document.doc := ContentController.withCustomInstructions rt body c |}
                  (Hinit c _ eq_refl (withCustomInstructions_status body c)))
      as [H _].
    unfold ContentController.respondContent.
    destruct (ContentController.generateAndAdd rt _ g method _) as [s [c'|e]];
      cbn [fst Document.world] in *; exact H.
Qed.

(** No generation handler changes the status of a stored campaign. *)
Lemma generation_keeps_status (body : ContentController.Body) (uid : string)
    (w : World.t) :
  kept w (fst (ContentController.generateEmailContent rt body uid w))
  /\ kept w (fst (ContentController.generateSocialContent rt body uid w))
  /\ kept w (fst (ContentController.generateAdCopy rt body uid w))
  /\ kept w (fst (ContentController.generateContentVariations rt body uid w))
  /\ kept w (fst (ContentController.batchGenerateContent rt body uid w)).
Proof.
  split; [|split; [|split; [|split]]].
  - unfold ContentController.generateEmailContent.
    destruct (negb (ContentController.isAvailable rt));
      [apply same_campaigns_kept; reflexivity|].
    apply single_handler_status.
  - unfold ContentController.generateSocialContent.
    destruct (negb (ContentController.isAvailable rt));
      [apply same_campaigns_kept; reflexivity|].
    destruct (negb (Js.includesOpt _ _)); [apply same_campaigns_kept; reflexivity|].
    apply single_handler_status.
  - unfold ContentController.generateAdCopy.
    destruct (negb (ContentController.isAvailable rt));
      [apply same_campaigns_kept; reflexivity|].
    apply single_handler_status.
  - unfold ContentController.generateContentVariations.
    destruct (negb (ContentController.isAvailable rt));
      [apply same_campaigns_kept; reflexivity|].
    destruct (negb (Js.includesOpt _ _)); [apply same_campaigns_kept; reflexivity|].
    destruct (_ || _); [apply same_campaigns_kept; reflexivity|].
    pose proof (resolveAndAuthorize_world body uid w) as Hw.
    pose proof (fun c d => authorized_steady body uid w c d) as Hinit.
    destruct (ContentController.resolveAndAuthorize body uid w) as [w1 [r|c]];
      cbn [fst snd] in *; [apply same_campaigns_kept; rewrite Hw; reflexivity|].
    destruct (Hinit c (ContentController.withVariationPlatform body c) eq_refl
                (withVariationPlatform_status body c)) as [Hk Hd].
    unfold ContentController.serviceVariations,
      AIContentGenerator.generateContentVariations.
    pose proof (startVariations_world rt (ContentController.withVariationPlatform body c)
                  (default "" (ContentController.contentType body))
                  (Z.to_nat (default 2%Z (ContentController.variations body))) w1) as HC.
    destruct (AIContentGenerator.startVariations _ _ _ _ _ _ _ _ w1) as [w2 ps].
    cbn [fst] in HC.
    assert (Hk2 : kept w w2).
    { intros id c0 c' H0 H1. rewrite HC in H1. apply (Hk id c0 c' H0 H1). }
    destruct (AIContentGenerator.promiseAll ps) as [items|e]; cbn [fst]; [|exact Hk2].
    pose proof (addAll_steady rt w (ContentController.campaignId body) items
                  {| Document.world := w2;
                     Document.doc := ContentController.withVariationPlatform body c |}
                  (conj Hk2 Hd)) as [H _].
    destruct (ContentController.addAll rt _ items _) as [s [u|e]];
      cbn [fst Document.world] in *; exact H.
  - unfold ContentController.batchGenerateContent. cbv zeta.
    destruct (negb (ContentController.isAvailable rt));
      [apply same_campaigns_kept; reflexivity|].
    pose proof (resolveAndAuthorize_world body uid w) as Hw.
    pose proof (fun c d => authorized_steady body uid w c d) as Hinit.
    destruct (ContentController.resolveAndAuthorize body uid w) as [w1 [r|c]];
      cbn [fst snd] in *; [apply same_campaigns_kept; rewrite Hw; reflexivity|].
    cbn [fst].
    apply (batchLoop_steady rt w (ContentController.campaignId body)
             (default ["email"; "linkedin"] (ContentController.platforms body))
             (default ["email"; "social_post"] (ContentController.contentTypes body))
             {| ContentController.session :=
                  {| Document.world := w1;
                     Document.doc := ContentController.withCustomInstructions rt body c |};
                ContentController.generatedContent := [];
                ContentController.errors := [] |}).
    exact (Hinit c _ eq_refl (withCustomInstructions_status body c)).
Qed.

End StatusOfHandlers.

Section Lifecycle.

Variable rt : ContentController.Runtime.
Variable isISO8601 : string -> bool.
Variable parseDate : string -> option Z.
Variable now : Z.
Variable castDate : string -> option Z.

(** C2: the status of a stored campaign changes only along an edge of the
    lifecycle. Whatever request is served, a campaign that is stored before
    and after it has the status it had, unless the request is the archiving
    of this campaign, which leaves it archived: the one edge the code ever
    takes. A request to update a campaign, whatever status it asks for, is
    refused and writes no campaign. *)
Theorem status_changes_only_along_edges :
  (forall (op : Api.Operation) (w : World.t) (id : string) (c c' : Campaign.t),
     World.campaigns w !! id = Some c ->
     World.campaigns (Api.run rt isISO8601 parseDate now castDate op w) !! id = Some c' ->
     Campaign.status c' = Campaign.status c
     \/ (exists uid, op = Api.ArchiveCampaign id uid)
        /\ Campaign.status c' = "archived"
        /\ Spec.lifecycleEdge (Campaign.status c) (Campaign.status c') = true)
  /\ (forall (id uid : string) (req : CampaignRoutes.Request) (w : World.t),
        Http.success
          (snd (CampaignRoutes.putCampaign (ContentController.trim rt) isISO8601 parseDate
                  now castDate id uid req w)) = false
        /\ World.campaigns
             (fst (CampaignRoutes.putCampaign (ContentController.trim rt) isISO8601
                     parseDate now castDate id uid req w))
           = World.campaigns w).
Proof.
  split.
  - intros op w id c c' H0 H1. destruct op; cbn [Api.run] in H1.
    + left.
      destruct (putCampaign_refuses (ContentController.trim rt) isISO8601 parseDate now castDate
                  id0 userId req w) as (_ & _ & Hc & _).
      rewrite Hc in H1. congruence.
    + left. revert H1. unfold CampaignController.deleteCampaign.
      destruct (World.campaigns w !! id0) as [d|]; [|cbn; congruence].
      destruct (negb (Campaign.isOwnedBy d userId)); [cbn; congruence|].
      cbn [fst World.campaigns World.set_campaigns World.logLookups].
      destruct (decide (id = id0)) as [->|Hne].
      * rewrite lookup_delete_eq. discriminate.
      * rewrite lookup_delete_ne by congruence. congruence.
    + revert H1. unfold CampaignController.archiveCampaign.
      destruct (World.campaigns w !! id0) as [d|] eqn:Hd; [|cbn; left; congruence].
      destruct (Campaign.canBeEditedBy d userId) as [e|]; [|cbn; left; congruence].
      destruct (negb (Js.truthyBool e)); [cbn; left; congruence|].
      unfold Document.archive, Document.save. cbn [Document.doc Document.set_doc].
      destruct (Campaign.validate _); [|cbn; left; congruence].
      cbn [fst Document.world Document.set_doc World.campaigns World.set_campaigns
           World.logLookups].
      destruct (decide (id = id0)) as [->|Hne].
      * rewrite lookup_insert_eq. intros H1. injection H1 as <-. right.
        split; [eauto|]. split; [reflexivity|].
        unfold Spec.lifecycleEdge. apply orb_true_r.
      * rewrite lookup_insert_ne by congruence. intros H1. left. congruence.
    + left. revert H1. unfold CampaignController.addContentToCampaign.
      destruct (World.campaigns w !! id0) as [d|] eqn:Hd; [|cbn; congruence].
      destruct (Campaign.canBeEditedBy d userId) as [e|]; [|cbn; congruence].
      destruct (negb (Js.truthyBool e)); [cbn; congruence|].
      unfold Document.addContent, Document.save. cbn [Document.doc Document.set_doc].
      destruct (Campaign.validate _); [|cbn; congruence].
      cbn [fst Document.world Document.set_doc World.campaigns World.set_campaigns
           World.logLookups].
      destruct (decide (id = id0)) as [->|Hne].
      * rewrite lookup_insert_eq. intros H1. injection H1 as <-. cbn. congruence.
      * rewrite lookup_insert_ne by congruence. congruence.
    + left. exact (proj1 (generation_keeps_status rt body userId w) id c c' H0 H1).
    + left. exact (proj1 (proj2 (generation_keeps_status rt body userId w)) id c c' H0 H1).
    + left.
      exact (proj1 (proj2 (proj2 (generation_keeps_status rt body userId w)))
               id c c' H0 H1).
    + left.
      exact (proj1 (proj2 (proj2 (proj2 (generation_keeps_status rt body userId w))))
               id c c' H0 H1).
    + left.
      exact (proj2 (proj2 (proj2 (proj2 (generation_keeps_status rt body userId w))))
               id c c' H0 H1).
    + left. revert H1. unfold PersonaController.updatePersona.
      destruct (World.personas w !! id0) as [p|]; [|cbn; congruence].
      destruct (negb (Persona.canBeEditedBy p userId)); [cbn; congruence|].
      destruct (PersonaController.validUpdate _ body); cbn; congruence.
    + left. revert H1. unfold PersonaController.deletePersona.
      destruct (World.personas w !! id0) as [p|]; [|cbn; congruence].
      destruct (negb (Persona.canBeEditedBy p userId)); cbn; congruence.
  - intros id uid req w.
    destruct (putCampaign_refuses (ContentController.trim rt) isISO8601 parseDate now castDate
                id uid req w) as (Hs & _ & Hc & _).
    split; assumption.
Qed.

End Lifecycle.

(** The first part of C2 at the archiving of the active campaign [c1] by
    its owner: active to archived, an edge of the lifecycle. *)
Lemma status_changes_only_along_edges_witness :
  Campaign.status <$> Fixture.stored (Fixture.world "active") = Some "active"
  /\ Campaign.status <$>
       Fixture.stored
         (Api.run (Fixture.runtime (Some "sk-test") Fixture.steady) Fixture.isISO8601
            Fixture.parseDate Fixture.now Fixture.castDate
            (Api.ArchiveCampaign Fixture.c1 "u1")
            (Fixture.world "active"))
     = Some "archived"
  /\ Spec.lifecycleEdge "active" "archived" = true.
Proof.
  split; [reflexivity|]. split; [reflexivity|].
  destruct (status_changes_only_along_edges
              (Fixture.runtime (Some "sk-test") Fixture.steady) Fixture.isISO8601
              Fixture.parseDate Fixture.now Fixture.castDate) as [Hstatus _].
  destruct (Hstatus (Api.ArchiveCampaign Fixture.c1 "u1") (Fixture.world "active")
              Fixture.c1 (Fixture.campaign "active" [])
              (Campaign.preSave
                 (Campaign.set_status "archived"
                    (Campaign.set_isArchived true (Fixture.campaign "active" []))))
              eq_refl eq_refl) as [Hsame|(_ & _ & Hedge)].
  - discriminate Hsame.
  - exact Hedge.
Defined.

(** * Further properties of the code *)

(** ** The AI service *)

Lemma score_in_range (trim : string -> string) (parseInt : string -> option Z)
    (r : AIContentGenerator.Reply) :
  Z.leb 0 (AIContentGenerator.scoreContentQuality trim parseInt r)
  && Z.leb (AIContentGenerator.scoreContentQuality trim parseInt r) 100 = true.
Proof.
  apply andb_true_iff. unfold AIContentGenerator.scoreContentQuality.
  destruct (AIContentGenerator.scoreReply r) as [text|]; split; apply Z.leb_le; lia.
Qed.

(** Every quality score lies between 0 and 100, whatever the scoring request
    answers, and it is 75 when the request fails. *)
Theorem scoreContentQuality_bounds (trim : string -> string)
    (parseInt : string -> option Z) (r : AIContentGenerator.Reply) :
  (0 <= AIContentGenerator.scoreContentQuality trim parseInt r <= 100)%Z
  /\ (AIContentGenerator.scoreReply r = None ->
      AIContentGenerator.scoreContentQuality trim parseInt r = 75%Z).
Proof.
  pose proof (score_in_range trim parseInt r) as H.
  apply andb_true_iff in H as [Hlo Hhi]. apply Z.leb_le in Hlo, Hhi.
  split; [lia|]. unfold AIContentGenerator.scoreContentQuality.
  intros ->. reflexivity.
Qed.

(** What is left of the content schema for a generated item: the checks on
    content type and quality score always pass, and for email so do the
    platform and the hashtags. An email item can fail only on the length of
    its subject line or on its body; an ad copy only on its platform or its
    body; a social post only on its platform, its body or its hashtags. *)
Theorem generated_item_schema_residue (rt : ContentController.Runtime)
    (platform : option string) (r : AIContentGenerator.Reply) (c : Campaign.Content) :
  (ContentController.serviceEmail rt r = Js.Normal c ->
   Campaign.validContent (Campaign.castContent (ContentController.trim rt) c)
   = match Campaign.subjectLine (Campaign.castContent (ContentController.trim rt) c) with
     | Some s => Nat.leb (String.length s) 200
     | None => true
     end
     && negb (String.eqb
                (Campaign.contentBody (Campaign.castContent (ContentController.trim rt) c)) "")
     && Nat.leb
          (String.length
             (Campaign.contentBody (Campaign.castContent (ContentController.trim rt) c)))
          5000)
  /\ (ContentController.serviceAdCopy rt platform r = Js.Normal c ->
      Campaign.validContent (Campaign.castContent (ContentController.trim rt) c)
      = Js.includes Campaign.platformEnum (default "google-ads" platform)
        && negb (String.eqb
                   (Campaign.contentBody (Campaign.castContent (ContentController.trim rt) c))
                   "")
        && Nat.leb
             (String.length
                (Campaign.contentBody (Campaign.castContent (ContentController.trim rt) c)))
             5000)
  /\ (ContentController.serviceSocial rt platform r = Js.Normal c ->
      Campaign.validContent (Campaign.castContent (ContentController.trim rt) c)
      = Js.includesOpt Campaign.platformEnum platform
        && negb (String.eqb
                   (Campaign.contentBody (Campaign.castContent (ContentController.trim rt) c))
                   "")
        && Nat.leb
             (String.length
                (Campaign.contentBody (Campaign.castContent (ContentController.trim rt) c)))
             5000
        && forallb (String.prefix "#")
             (Campaign.hashtags (Campaign.castContent (ContentController.trim rt) c))).
Proof.
  pose proof (score_in_range (ContentController.trim rt) (ContentController.parseInt rt) r)
    as Hscore.
  apply andb_true_iff in Hscore as [Hlo Hhi].
  split; [|split].
  - unfold ContentController.serviceEmail, AIContentGenerator.generateEmailContent.
    destruct (AIContentGenerator.subjectReply r); [|discriminate].
    destruct (AIContentGenerator.bodyReply r); [|discriminate].
    intros H. injection H as <-. unfold Campaign.validContent, Campaign.castContent.
    cbn [Campaign.contentType Campaign.platform Campaign.subjectLine Campaign.contentBody
         Campaign.hashtags Campaign.qualityScore fmap option_fmap option_map list_fmap
         forallb].
    rewrite Hlo, Hhi, !andb_true_r. reflexivity.
  - unfold ContentController.serviceAdCopy, AIContentGenerator.generateAdCopy.
    destruct (AIContentGenerator.bodyReply r); [|discriminate].
    intros H. injection H as <-. unfold Campaign.validContent, Campaign.castContent.
    cbn [Campaign.contentType Campaign.platform Campaign.subjectLine Campaign.contentBody
         Campaign.hashtags Campaign.qualityScore fmap option_fmap option_map list_fmap
         forallb Js.includesOpt].
    rewrite Hlo, Hhi, !andb_true_r. reflexivity.
  - unfold ContentController.serviceSocial, AIContentGenerator.generateSocialContent.
    destruct (AIContentGenerator.bodyReply r); [|discriminate].
    intros H. injection H as <-. unfold Campaign.validContent, Campaign.castContent.
    cbn [Campaign.contentType Campaign.platform Campaign.subjectLine Campaign.contentBody
         Campaign.hashtags Campaign.qualityScore fmap option_fmap option_map].
    rewrite Hlo, Hhi, !andb_true_r. reflexivity.
Qed.

Section VariationCalls.

Variable rt : ContentController.Runtime.

Local Abbreviation call campaign ct :=
  (AIContentGenerator.variationCall (ContentController.trim rt)
     (ContentController.parseInt rt) (ContentController.matchHashtags rt)
     (ContentController.stripTrailingHashtags rt) campaign ct).

Local Abbreviation started campaign ct n w :=
  (AIContentGenerator.startVariations (ContentController.trim rt)
     (ContentController.parseInt rt) (ContentController.matchHashtags rt)
     (ContentController.stripTrailingHashtags rt) (ContentController.ai rt)
     campaign ct n w).

Lemma variationCall_known (campaign : Campaign.t) (ct : string) :
  Js.includes ContentController.validContentTypes ct = true ->
  exists g method, call campaign ct = Some (g, method) /\ World.g_contentType g = ct.
Proof.
  unfold Js.includes, ContentController.validContentTypes, AIContentGenerator.variationCall.
  cbn [existsb]. intros H.
  destruct (String.eqb ct "email") eqn:H1.
  { apply String.eqb_eq in H1. subst. eauto. }
  destruct (String.eqb ct "social_post") eqn:H2.
  { apply String.eqb_eq in H2. subst. eauto. }
  destruct (String.eqb ct "ad_copy") eqn:H3.
  { apply String.eqb_eq in H3. subst. eauto. }
  discriminate.
Qed.

Lemma variationCall_unknown (campaign : Campaign.t) (ct : string) :
  Js.includes ContentController.validContentTypes ct = false ->
  call campaign ct = None.
Proof.
  unfold Js.includes, ContentController.validContentTypes, AIContentGenerator.variationCall.
  cbn [existsb]. intros H.
  destruct (String.eqb ct "email"); [discriminate|].
  destruct (String.eqb ct "social_post"); [discriminate|].
  destruct (String.eqb ct "ad_copy"); [discriminate|reflexivity].
Qed.

Lemma startVariations_generations (campaign : Campaign.t) (ct : string)
    (g : World.GenCall)
    (method : AIContentGenerator.Reply -> Js.completion Campaign.Content)
    (n : nat) (w : World.t) :
  call campaign ct = Some (g, method) ->
  World.generations (fst (started campaign ct n w)) = World.generations w ++ repeat g n.
Proof.
  intros Hcall. revert w. induction n as [|n IH]; intros w.
  - cbn. rewrite app_nil_r. reflexivity.
  - cbn [AIContentGenerator.startVariations]. rewrite Hcall.
    specialize (IH (World.logGeneration g w)).
    destruct (started campaign ct n (World.logGeneration g w)) as [w' ps].
    cbn [fst] in *. rewrite IH. cbn [World.generations World.logGeneration repeat].
    rewrite <- app_assoc. reflexivity.
Qed.

Lemma startVariations_none (campaign : Campaign.t) (ct : string) (n : nat) (w : World.t) :
  call campaign ct = None -> started campaign ct n w = (w, []).
Proof.
  intros Hcall. induction n as [|n IH]; [reflexivity|].
  cbn [AIContentGenerator.startVariations]. rewrite Hcall. exact IH.
Qed.

(** The variations method of the service starts one call per requested
    variation for email, social_post and ad_copy, whatever the calls answer:
    a failing call does not keep the later ones from being made. For any
    other content type it makes no call and resolves to the empty array. *)
Theorem variations_service_calls (campaign : Campaign.t) (ct : string) (n : Z)
    (w : World.t) :
  (Js.includes ContentController.validContentTypes ct = true ->
   exists g,
     World.g_contentType g = ct
     /\ World.generations (fst (ContentController.serviceVariations rt campaign ct n w))
        = World.generations w ++ repeat g (Z.to_nat n))
  /\ (Js.includes ContentController.validContentTypes ct = false ->
      ContentController.serviceVariations rt campaign ct n w = (w, Js.Normal [])).
Proof.
  unfold ContentController.serviceVariations, AIContentGenerator.generateContentVariations.
  split.
  - intros H. destruct (variationCall_known campaign ct H) as (g & method & Hcall & Hg).
    exists g. split; [exact Hg|].
    pose proof (startVariations_generations campaign ct g method (Z.to_nat n) w Hcall) as Hgen.
    destruct (started campaign ct (Z.to_nat n) w) as [w' ps]. cbn [fst] in Hgen.
    destruct (AIContentGenerator.promiseAll ps); exact Hgen.
  - intros H. rewrite (startVariations_none campaign ct (Z.to_nat n) w
                         (variationCall_unknown campaign ct H)).
    reflexivity.
Qed.

End VariationCalls.

(** ** Effects of the generation handlers *)

Section GenerationEffects.

Variable rt : ContentController.Runtime.

(** [frame id w w']: from [w] to [w'] no persona changed and no campaign
    other than [id] changed. *)
Local Abbreviation frame id w w' :=
  (World.personas w' = World.personas w
   /\ forall k : string, k <> id -> World.campaigns w' !! k = World.campaigns w !! k).

(** [quiet w w']: from [w] to [w'] nothing but the lookup log changed. *)
Local Abbreviation quiet w w' :=
  (World.campaigns w' = World.campaigns w
   /\ World.personas w' = World.personas w
   /\ World.generations w' = World.generations w).
















End GenerationEffects.

Section Refusals.

Variable rt : ContentController.Runtime.

Local Abbreviation quiet w w' :=
  (World.campaigns w' = World.campaigns w
   /\ World.personas w' = World.personas w
   /\ World.generations w' = World.generations w).

Local Abbreviation served r := (Http.statusCode r = 200 \/ Http.statusCode r = 500).

Lemma respondContent_served (x : Document.Session * Js.completion Campaign.Content) :
  served (snd (ContentController.respondContent x)).
Proof. destruct x as [s [c|e]]; cbn; auto. Qed.

Lemma single_handler_refusal (body : ContentController.Body) (uid : string) (w : World.t)
    (g : World.GenCall)
    (method : AIContentGenerator.Reply -> Js.completion Campaign.Content) :
  served
    (snd match ContentController.resolveAndAuthorize body uid w with
         | (w1, inl r) => (w1, r)
         | (w1, inr campaign) =>
             ContentController.respondContent
               (ContentController.generateAndAdd rt (ContentController.campaignId body) g
                  method
                  {| Document.world := w1;
                     Document.doc :=
                       ContentController.withCustomInstructions rt body campaign |})
         end)
  \/ quiet w
       (fst match ContentController.resolveAndAuthorize body uid w with
            | (w1, inl r) => (w1, r)
            | (w1, inr campaign) =>
                ContentController.respondContent
                  (ContentController.generateAndAdd rt (ContentController.campaignId body) g
                     method
                     {| Document.world := w1;
                        Document.doc :=
                          ContentController.withCustomInstructions rt body campaign |})
            end).
Proof.
  pose proof (resolveAndAuthorize_world body uid w) as Hw.
  destruct (ContentController.resolveAndAuthorize body uid w) as [w1 [r|c]];
    cbn [fst] in Hw; subst w1.
  - right. repeat split.
  - left. apply respondContent_served.
Qed.

(** A generation request that is answered neither 200 nor 500, that is with
    503, 400, 404 or 403, has changed no campaign and no persona and has not
    called the language model. *)
Theorem refused_generation_is_quiet (body : ContentController.Body) (uid : string)
    (w : World.t) :
  (served (snd (ContentController.generateEmailContent rt body uid w))
   \/ quiet w (fst (ContentController.generateEmailContent rt body uid w)))
  /\ (served (snd (ContentController.generateSocialContent rt body uid w))
      \/ quiet w (fst (ContentController.generateSocialContent rt body uid w)))
  /\ (served (snd (ContentController.generateAdCopy rt body uid w))
      \/ quiet w (fst (ContentController.generateAdCopy rt body uid w)))
  /\ (served (snd (ContentController.generateContentVariations rt body uid w))
      \/ quiet w (fst (ContentController.generateContentVariations rt body uid w)))
  /\ (served (snd (ContentController.batchGenerateContent rt body uid w))
      \/ quiet w (fst (ContentController.batchGenerateContent rt body uid w))).
Proof.
  split; [|split; [|split; [|split]]].
  - unfold ContentController.generateEmailContent.
    destruct (negb (ContentController.isAvailable rt)); [right; repeat split|].
    apply single_handler_refusal.
  - unfold ContentController.generateSocialContent.
    destruct (negb (ContentController.isAvailable rt)); [right; repeat split|].
    destruct (negb (Js.includesOpt _ _)); [right; repeat split|].
    apply single_handler_refusal.
  - unfold ContentController.generateAdCopy.
    destruct (negb (ContentController.isAvailable rt)); [right; repeat split|].
    apply single_handler_refusal.
  - unfold ContentController.generateContentVariations.
    destruct (negb (ContentController.isAvailable rt)); [right; repeat split|].
    destruct (negb (Js.includesOpt _ _)); [right; repeat split|].
    destruct (_ || _); [right; repeat split|].
    pose proof (resolveAndAuthorize_world body uid w) as Hw.
    destruct (ContentController.resolveAndAuthorize body uid w) as [w1 [r|c]];
      cbn [fst] in Hw; subst w1; [right; repeat split|].
    left. destruct (ContentController.serviceVariations rt _ _ _ _) as [w2 [items|e]];
      [|cbn; auto].
    destruct (ContentController.addAll rt _ items _) as [s [u|e]]; cbn; auto.
  - unfold ContentController.batchGenerateContent.
    destruct (negb (ContentController.isAvailable rt)); [right; repeat split|].
    pose proof (resolveAndAuthorize_world body uid w) as Hw.
    destruct (ContentController.resolveAndAuthorize body uid w) as [w1 [r|c]];
      cbn [fst] in Hw; subst w1; [right; repeat split|].
    left. cbn. auto.
Qed.

Lemma resolved_status (body : ContentController.Body) (uid : string) (w : World.t)
    (r : Http.Response) :
  snd (ContentController.resolveAndAuthorize body uid w) = inl r ->
  Http.statusCode r <> 400.
Proof.
  unfold ContentController.resolveAndAuthorize.
  destruct (World.campaigns w !! _) as [c|];
    [|intros H; injection H as <-; cbn; destruct (_ || _); discriminate].
  destruct (World.personas w !! _) as [p|];
    [|intros H; injection H as <-; cbn; destruct (negb _); discriminate].
  destruct (Campaign.canBeEditedBy c uid) as [e|];
    [|intros H; injection H as <-; discriminate].
  destruct (negb (Js.truthyBool e)); [intros H; injection H as <-; discriminate|].
  destruct (Persona.accessDeniedContent p uid);
    [intros H; injection H as <-; discriminate|discriminate].
Qed.

(** The social handler answers 400 exactly when the service is available
    and the platform is none of linkedin, facebook, twitter, instagram,
    youtube, tiktok (the platform email and a missing platform included);
    it then returns the world it was given, without any lookup. *)
Theorem generateSocialContent_bad_request (body : ContentController.Body) (uid : string)
    (w : World.t) :
  (Http.statusCode (snd (ContentController.generateSocialContent rt body uid w)) = 400 <->
   ContentController.isAvailable rt = true
   /\ Js.includesOpt ContentController.validPlatforms (ContentController.platform body)
      = false)
  /\ (Http.statusCode (snd (ContentController.generateSocialContent rt body uid w)) = 400 ->
      fst (ContentController.generateSocialContent rt body uid w) = w).
Proof.
  unfold ContentController.generateSocialContent.
  destruct (ContentController.isAvailable rt); cbn [negb].
  2:{ split; [split; [discriminate|intros [H _]; discriminate]|discriminate]. }
  destruct (Js.includesOpt ContentController.validPlatforms (ContentController.platform body));
    cbn [negb].
  2:{ split; [split; auto|reflexivity]. }
  assert (H : Http.statusCode
                (snd match ContentController.resolveAndAuthorize body uid w with
                     | (w1, inl r) => (w1, r)
                     | (w1, inr campaign) =>
                         ContentController.respondContent
                           (ContentController.generateAndAdd rt
                              (ContentController.campaignId body)
                              (ContentController.socialCall (ContentController.platform body))
                              (ContentController.serviceSocial rt
                                 (ContentController.platform body))
                              {| Document.world := w1;
                                 Document.doc :=
                                   ContentController.withCustomInstructions rt body campaign |})
                     end) <> 400).
  { pose proof (resolved_status body uid w) as Hr.
    destruct (ContentController.resolveAndAuthorize body uid w) as [w1 [r|c]].
    - apply Hr. reflexivity.
    - destruct (respondContent_served
                  (ContentController.generateAndAdd rt (ContentController.campaignId body)
                     (ContentController.socialCall (ContentController.platform body))
                     (ContentController.serviceSocial rt (ContentController.platform body))
                     {| Document.world := w1;
                        Document.doc :=
                          ContentController.withCustomInstructions rt body c |}))
        as [H|H]; rewrite H; discriminate. }
  split; [split|]; [intros H'; contradiction|intros [_ H']; discriminate
                   |intros H'; contradiction].
Qed.

(** The variations handler answers 400 exactly when the service is
    available and either the content type is none of email, social_post,
    ad_copy (blog_post included) or the count, 2 when absent, is below 2 or
    above 5; it then returns the world it was given, without any lookup. *)
Theorem generateContentVariations_bad_request (body : ContentController.Body)
    (uid : string) (w : World.t) :
  (Http.statusCode (snd (ContentController.generateContentVariations rt body uid w)) = 400 <->
   ContentController.isAvailable rt = true
   /\ (Js.includesOpt ContentController.validContentTypes (ContentController.contentType body)
       = false
       \/ (default 2 (ContentController.variations body) < 2)%Z
       \/ (5 < default 2 (ContentController.variations body))%Z))
  /\ (Http.statusCode (snd (ContentController.generateContentVariations rt body uid w)) = 400 ->
      fst (ContentController.generateContentVariations rt body uid w) = w).
Proof.
  unfold ContentController.generateContentVariations.
  destruct (ContentController.isAvailable rt); cbn [negb].
  2:{ split; [split; [discriminate|intros [H _]; discriminate]|discriminate]. }
  destruct (Js.includesOpt ContentController.validContentTypes
              (ContentController.contentType body)); cbn [negb].
  2:{ split; [split; auto|reflexivity]. }
  destruct ((default 2 (ContentController.variations body) <? 2)%Z
            || (default 2 (ContentController.variations body) >? 5)%Z) eqn:Hrange.
  { split; [split; [intros _; split; [reflexivity|right; lia]|reflexivity]|reflexivity]. }
  assert (H : Http.statusCode
                (snd match ContentController.resolveAndAuthorize body uid w with
                     | (w1, inl r) => (w1, r)
                     | (w1, inr campaign) =>
                         match ContentController.serviceVariations rt
                                 (ContentController.withVariationPlatform body campaign)
                                 (default "" (ContentController.contentType body))
                                 (default 2%Z (ContentController.variations body)) w1 with
                         | (w2, Js.Throw _) => (w2, Http.failure 500)
                         | (w2, Js.Normal contentVariations) =>
                             match ContentController.addAll rt
                                     (ContentController.campaignId body) contentVariations
                                     {| Document.world := w2;
                                        Document.doc :=
                                          ContentController.withVariationPlatform body
                                            campaign |} with
                             | (s, Js.Throw _) => (Document.world s, Http.failure 500)
                             | (s, Js.Normal _) =>
                                 (Document.world s,
                                  Http.ok (Http.VariationsData contentVariations))
                             end
                         end
                     end) <> 400).
  { pose proof (resolved_status body uid w) as Hr.
    destruct (ContentController.resolveAndAuthorize body uid w) as [w1 [r|c]].
    - apply Hr. reflexivity.
    - destruct (ContentController.serviceVariations rt _ _ _ w1) as [w2 [items|e]];
        [|cbn; discriminate].
      destruct (ContentController.addAll rt _ items _) as [s [u|e]]; cbn; discriminate. }
  split; [split|]; [intros H'; contradiction
                   |intros [_ [H'|H']]; [discriminate|lia]
                   |intros H'; contradiction].
Qed.

End Refusals.

(** ** Successful generation *)

Section SingleGeneration.

Variable rt : ContentController.Runtime.
Variable body : ContentController.Body.
Variable uid : string.
Variable w : World.t.
Variable c : Campaign.t.

Hypothesis Havailable : ContentController.isAvailable rt = true.
Hypothesis Hauthorized : snd (ContentController.resolveAndAuthorize body uid w) = inr c.
Hypothesis Hvalid :
  Campaign.validate (ContentController.withCustomInstructions rt body c) = true.

Local Abbreviation cid := (ContentController.campaignId body).
Local Abbreviation cast := (Campaign.castContent (ContentController.trim rt)).
Local Abbreviation answer := (ContentController.ai rt (length (World.generations w))).
Local Abbreviation saved item :=
  (Campaign.preSave
     (Campaign.pushContent (ContentController.trim rt) item
        (ContentController.withCustomInstructions rt body c))).

Lemma single_handler_success (g : World.GenCall)
    (method : AIContentGenerator.Reply -> Js.completion Campaign.Content)
    (item : Campaign.Content) :
  method answer = Js.Normal item ->
  Campaign.validContent (cast item) = true ->
  snd match ContentController.resolveAndAuthorize body uid w with
      | (w1, inl r) => (w1, r)
      | (w1, inr campaign) =>
          ContentController.respondContent
            (ContentController.generateAndAdd rt cid g method
               {| Document.world := w1;
                  Document.doc := ContentController.withCustomInstructions rt body campaign |})
      end
  = Http.ok (Http.ContentData item)
  /\ World.campaigns
       (fst match ContentController.resolveAndAuthorize body uid w with
            | (w1, inl r) => (w1, r)
            | (w1, inr campaign) =>
                ContentController.respondContent
                  (ContentController.generateAndAdd rt cid g method
                     {| Document.world := w1;
                        Document.doc :=
                          ContentController.withCustomInstructions rt body campaign |})
            end) !! cid
     = Some (saved item).
Proof.
  intros Hm Hitem.
  pose proof (resolveAndAuthorize_world body uid w) as Hw.
  destruct (ContentController.resolveAndAuthorize body uid w) as [w1 res].
  cbn [fst snd] in *. subst w1 res.
  unfold ContentController.generateAndAdd, ContentController.callService.
  cbn [Document.world World.generations World.logLookups]. rewrite Hm.
  rewrite addContent_valid; [|exact Hvalid|exact Hitem].
  cbn [ContentController.respondContent fst snd Document.world World.campaigns
       World.set_campaigns]. split; [reflexivity|apply lookup_insert_eq].
Qed.

(** A single-item generation that succeeds, on a campaign that passes
    validation and with an item that passes the content schema, is answered
    200 with the generated item and stores the campaign with exactly this
    item appended; the campaign is stored with the request's custom
    instructions on it and with its ratios recomputed. *)
Theorem single_generation_appends_one :
  (forall item,
     ContentController.serviceEmail rt answer = Js.Normal item ->
     Campaign.validContent (cast item) = true ->
     snd (ContentController.generateEmailContent rt body uid w)
     = Http.ok (Http.ContentData item)
     /\ World.campaigns (fst (ContentController.generateEmailContent rt body uid w)) !! cid
        = Some (saved item))
  /\ (forall item,
        Js.includesOpt ContentController.validPlatforms (ContentController.platform body)
        = true ->
        ContentController.serviceSocial rt (ContentController.platform body) answer
        = Js.Normal item ->
        Campaign.validContent (cast item) = true ->
        snd (ContentController.generateSocialContent rt body uid w)
        = Http.ok (Http.ContentData item)
        /\ World.campaigns (fst (ContentController.generateSocialContent rt body uid w)) !! cid
           = Some (saved item))
  /\ (forall item,
        ContentController.serviceAdCopy rt
          (Some (default "google-ads" (ContentController.platform body))) answer
        = Js.Normal item ->
        Campaign.validContent (cast item) = true ->
        snd (ContentController.generateAdCopy rt body uid w)
        = Http.ok (Http.ContentData item)
        /\ World.campaigns (fst (ContentController.generateAdCopy rt body uid w)) !! cid
           = Some (saved item)).
Proof.
  split; [|split].
  - intros item Hm Hitem. unfold ContentController.generateEmailContent.
    rewrite Havailable. cbn [negb]. apply single_handler_success; assumption.
  - intros item Hp Hm Hitem. unfold ContentController.generateSocialContent.
    rewrite Havailable, Hp. cbn [negb]. apply single_handler_success; assumption.
  - intros item Hm Hitem. unfold ContentController.generateAdCopy.
    rewrite Havailable. cbn [negb]. apply single_handler_success; assumption.
Qed.

(** The custom instructions of a request are not kept for the call only: a
    successful email generation stores them, trimmed, on the campaign, and
    appends the item to the content the campaign had. *)
Theorem customInstructions_are_stored (v : string) (item : Campaign.Content) :
  ContentController.customInstructions body = Some v ->
  v <> "" ->
  ContentController.serviceEmail rt answer = Js.Normal item ->
  Campaign.validContent (cast item) = true ->
  (Campaign.customInstructions ∘ Campaign.generationSettings) <$>
    World.campaigns (fst (ContentController.generateEmailContent rt body uid w)) !! cid
  = Some (Some (ContentController.trim rt v))
  /\ Campaign.content <$>
       World.campaigns (fst (ContentController.generateEmailContent rt body uid w)) !! cid
     = Some (Campaign.content c ++ [cast item]).
Proof.
  intros Hv Hne Hm Hitem.
  unfold ContentController.generateEmailContent. rewrite Havailable. cbn [negb].
  destruct (single_handler_success ContentController.emailCall
              (ContentController.serviceEmail rt) item Hm Hitem) as [_ Hstored].
  rewrite Hstored.
  cbn [fmap option_fmap option_map compose].
  unfold ContentController.withCustomInstructions. rewrite Hv.
  assert (Ht : Js.truthyString (Some v) = true).
  { cbn. destruct (String.eqb v "") eqn:E; [|reflexivity].
    apply String.eqb_eq in E. contradiction. }
  rewrite Ht. split; reflexivity.
Qed.

End SingleGeneration.

Section VariationsSettings.

Variable rt : ContentController.Runtime.

Lemma save_settings (id : string) (s : Document.Session) :
  Campaign.generationSettings (Document.doc (fst (Document.save id s)))
  = Campaign.generationSettings (Document.doc s).
Proof. unfold Document.save. destruct (Campaign.validate (Document.doc s)); reflexivity. Qed.

Lemma addAll_settings (id : string) (items : list Campaign.Content) (s : Document.Session) :
  Campaign.generationSettings
    (Document.doc (fst (ContentController.addAll rt id items s)))
  = Campaign.generationSettings (Document.doc s).
Proof.
  revert s. induction items as [|item items IH]; intros s; [reflexivity|].
  cbn [ContentController.addAll]. unfold Document.addContent.
  pose proof (save_settings id
                (Document.set_doc
                   (Campaign.pushContent (ContentController.trim rt) item (Document.doc s)) s))
    as H.
  destruct (Document.save id _) as [s1 [u|e]]; cbn [fst] in *; [|exact H].
  rewrite IH. exact H.
Qed.

(** The variations handler past its checks: the service call, then the loop
    of [addContent]. *)
Lemma variations_handler_unfold (body : ContentController.Body) (uid : string)
    (w : World.t) (c : Campaign.t) (ct : string) (n : Z) :
  ContentController.isAvailable rt = true ->
  snd (ContentController.resolveAndAuthorize body uid w) = inr c ->
  ContentController.contentType body = Some ct ->
  Js.includes ContentController.validContentTypes ct = true ->
  default 2%Z (ContentController.variations body) = n ->
  (2 <= n <= 5)%Z ->
  ContentController.generateContentVariations rt body uid w
  = match ContentController.serviceVariations rt
            (ContentController.withVariationPlatform body c) ct n
            (fst (ContentController.resolveAndAuthorize body uid w)) with
    | (w2, Js.Throw _) => (w2, Http.failure 500)
    | (w2, Js.Normal contentVariations) =>
        match ContentController.addAll rt (ContentController.campaignId body)
                contentVariations
                {| Document.world := w2;
                   Document.doc := ContentController.withVariationPlatform body c |} with
        | (s, Js.Throw _) => (Document.world s, Http.failure 500)
        | (s, Js.Normal _) =>
            (Document.world s, Http.ok (Http.VariationsData contentVariations))
        end
    end.
Proof.
  intros Havail Hauth Hct Hvalid Hn Hrange.
  unfold ContentController.generateContentVariations.
  rewrite Havail, Hct, Hn. cbn [negb default from_option id Js.includesOpt].
  rewrite Hvalid. cbn [negb].
  replace ((n <? 2)%Z || (n >? 5)%Z) with false by lia.
  destruct (ContentController.resolveAndAuthorize body uid w) as [w1 res].
  cbn [snd] in Hauth. subst res. reflexivity.
Qed.

(** Variations of a social post leave their mark on the campaign: when the
    request succeeds, the stored campaign's generation settings list the one
    platform of the request, linkedin when the request names none, in place
    of the platforms the campaign had. *)
Theorem social_variations_overwrite_platforms (body : ContentController.Body)
    (uid : string) (w : World.t) (c : Campaign.t) (n : Z)
    (items : list Campaign.Content) :
  ContentController.isAvailable rt = true ->
  snd (ContentController.resolveAndAuthorize body uid w) = inr c ->
  ContentController.contentType body = Some "social_post" ->
  default 2%Z (ContentController.variations body) = n ->
  (2 <= n <= 5)%Z ->
  snd (AIContentGenerator.startVariations (ContentController.trim rt)
         (ContentController.parseInt rt) (ContentController.matchHashtags rt)
         (ContentController.stripTrailingHashtags rt) (ContentController.ai rt)
         (ContentController.withVariationPlatform body c) "social_post" (Z.to_nat n)
         (fst (ContentController.resolveAndAuthorize body uid w)))
  = map Js.Normal items ->
  Campaign.validate (ContentController.withVariationPlatform body c) = true ->
  Forall (fun i => Campaign.validContent
                     (Campaign.castContent (ContentController.trim rt) i) = true) items ->
  snd (ContentController.generateContentVariations rt body uid w)
  = Http.ok (Http.VariationsData items)
  /\ (Campaign.platforms ∘ Campaign.generationSettings) <$>
       World.campaigns (fst (ContentController.generateContentVariations rt body uid w))
         !! ContentController.campaignId body
     = Some match ContentController.platform body with
            | Some p => if Js.truthyString (Some p) then [p] else ["linkedin"]
            | None => ["linkedin"]
            end.
Proof.
  intros Havail Hauth Hct Hn Hrange Hps Hdoc Hitems.
  rewrite (variations_handler_unfold body uid w c "social_post" n Havail Hauth Hct
             eq_refl Hn Hrange).
  unfold ContentController.serviceVariations, AIContentGenerator.generateContentVariations.
  pose proof (startVariations_length rt (ContentController.withVariationPlatform body c)
                "social_post" (Z.to_nat n)
                (fst (ContentController.resolveAndAuthorize body uid w)) eq_refl) as Hlen.
  destruct (AIContentGenerator.startVariations _ _ _ _ _ _ "social_post" (Z.to_nat n) _)
    as [w2 ps]. cbn [fst snd] in *. subst ps.
  rewrite promiseAll_fulfilled. rewrite length_map in Hlen.
  pose proof (addAll_settings (ContentController.campaignId body) items
                {| Document.world := w2;
                   Document.doc := ContentController.withVariationPlatform body c |})
    as Hset.
  destruct (addAll_valid rt (ContentController.campaignId body) items
              {| Document.world := w2;
                 Document.doc := ContentController.withVariationPlatform body c |}
              Hdoc Hitems) as (s' & Hrun & _ & Hstored).
  rewrite Hrun in *. cbn [fst snd] in *. split; [reflexivity|].
  rewrite Hstored by (intros ->; cbn in Hlen; lia).
  cbn [fmap option_fmap option_map compose]. rewrite Hset. cbn [Document.doc].
  unfold ContentController.withVariationPlatform. rewrite Hct. reflexivity.
Qed.

End VariationsSettings.

(** ** Batch generation in general *)

Section BatchInvariant.

Variable rt : ContentController.Runtime.
Variable id : string.
Variable platforms : list string.

(** The content the campaign had when the request fetched it. *)
Variable content0 : list Campaign.Content.

Local Abbreviation cast := (Campaign.castContent (ContentController.trim rt)).

(** What the loop keeps true: the stored campaign holds the content it had
    followed by the items returned so far, and so does the fetched document
    as long as it passes validation. *)
Local Abbreviation consistent b :=
  (Campaign.content <$>
     World.campaigns (Document.world (ContentController.session b)) !! id
   = Some (content0 ++ map cast (ContentController.generatedContent b))
   /\ (Campaign.validate (Document.doc (ContentController.session b)) = true ->
       Campaign.content (Document.doc (ContentController.session b))
       = content0 ++ map cast (ContentController.generatedContent b))).

Lemma batchItem_consistent (g : World.GenCall)
    (method : AIContentGenerator.Reply -> Js.completion Campaign.Content)
    (b : ContentController.Batch) :
  consistent b -> consistent (fst (ContentController.batchItem rt id g method b)).
Proof.
  intros [Hs Hd].
  unfold ContentController.batchItem, ContentController.generateAndAdd,
    ContentController.callService.
  destruct (method _) as [item|e]; [|cbn; split; assumption].
  destruct (Campaign.validate (Document.doc (ContentController.session b))) eqn:Hv.
  - destruct (Campaign.validContent (cast item)) eqn:Hi.
    + rewrite addContent_valid by assumption.
      cbn [fst ContentController.session ContentController.generatedContent
           Document.world Document.doc World.campaigns World.set_campaigns].
      rewrite lookup_insert_eq. cbn [fmap option_fmap option_map].
      unfold Campaign.preSave, Campaign.pushContent.
      cbn [Campaign.content Campaign.set_metrics Campaign.set_content Document.set_world
           Document.doc].
      rewrite (Hd eq_refl), map_app, app_assoc. cbn [map]. split; [reflexivity|].
      intros _. reflexivity.
    + rewrite addContent_invalid by assumption.
      cbn [fst ContentController.session ContentController.generatedContent
           Document.world Document.doc Document.set_doc Document.set_world
           World.campaigns World.logGeneration].
      split; [exact Hs|]. rewrite validate_pushContent. cbn [Document.doc].
      rewrite Hv, Hi. discriminate.
  - unfold Document.addContent. rewrite save_invalid.
    + cbn [fst ContentController.session ContentController.generatedContent
           Document.world Document.doc Document.set_doc Document.set_world
           World.campaigns World.logGeneration].
      split; [exact Hs|]. rewrite validate_pushContent, Hv. discriminate.
    + cbn [Document.doc Document.set_doc Document.set_world].
      rewrite validate_pushContent, Hv. reflexivity.
Qed.

Lemma batchItem_errors (g : World.GenCall)
    (method : AIContentGenerator.Reply -> Js.completion Campaign.Content)
    (b : ContentController.Batch) :
  ContentController.errors (fst (ContentController.batchItem rt id g method b))
  = ContentController.errors b.
Proof.
  unfold ContentController.batchItem.
  destruct (ContentController.generateAndAdd rt id g method _) as [s [c|e]]; reflexivity.
Qed.

Lemma batchSocial_consistent (ps : list string) (b : ContentController.Batch) :
  consistent b -> consistent (fst (ContentController.batchSocial rt id ps b)).
Proof.
  revert b. induction ps as [|p ps IH]; intros b Hb; [exact Hb|].
  cbn [ContentController.batchSocial].
  pose proof (batchItem_consistent (ContentController.socialCall (Some p))
                (ContentController.serviceSocial rt (Some p)) b Hb) as H1.
  destruct (ContentController.batchItem rt id _ _ b) as [b1 [u|e]]; cbn [fst] in *;
    [apply IH|]; exact H1.
Qed.

Lemma batchSocial_errors (ps : list string) (b : ContentController.Batch) :
  ContentController.errors (fst (ContentController.batchSocial rt id ps b))
  = ContentController.errors b.
Proof.
  revert b. induction ps as [|p ps IH]; intros b; [reflexivity|].
  cbn [ContentController.batchSocial].
  pose proof (batchItem_errors (ContentController.socialCall (Some p))
                (ContentController.serviceSocial rt (Some p)) b) as H1.
  destruct (ContentController.batchItem rt id _ _ b) as [b1 [u|e]]; cbn [fst] in *;
    [rewrite IH|]; exact H1.
Qed.

Lemma batchTry_consistent (contentType : string) (b : ContentController.Batch) :
  consistent b ->
  consistent (fst (ContentController.batchTry rt id platforms contentType b)).
Proof.
  intros Hb. unfold ContentController.batchTry.
  destruct (String.eqb contentType "email"); [apply batchItem_consistent; exact Hb|].
  destruct (String.eqb contentType "social_post"); [apply batchSocial_consistent; exact Hb|].
  destruct (String.eqb contentType "ad_copy"); [apply batchItem_consistent; exact Hb|].
  exact Hb.
Qed.

Lemma batchTry_errors (contentType : string) (b : ContentController.Batch) :
  ContentController.errors (fst (ContentController.batchTry rt id platforms contentType b))
  = ContentController.errors b.
Proof.
  unfold ContentController.batchTry.
  destruct (String.eqb contentType "email"); [apply batchItem_errors|].
  destruct (String.eqb contentType "social_post"); [apply batchSocial_errors|].
  destruct (String.eqb contentType "ad_copy"); [apply batchItem_errors|reflexivity].
Qed.

Lemma batchTurn_consistent (contentType : string) (b : ContentController.Batch) :
  consistent b ->
  consistent (ContentController.batchTurn rt id platforms b contentType).
Proof.
  intros Hb. unfold ContentController.batchTurn.
  pose proof (batchTry_consistent contentType b Hb) as H.
  destruct (ContentController.batchTry rt id platforms contentType b) as [b1 [u|e]];
    cbn [fst ContentController.session ContentController.generatedContent] in *; exact H.
Qed.

Lemma batchLoop_consistent (contentTypes : list string) (b : ContentController.Batch) :
  consistent b ->
  consistent (ContentController.batchLoop rt id platforms contentTypes b).
Proof.
  unfold ContentController.batchLoop. revert b.
  induction contentTypes as [|ct cts IH]; intros b Hb; [exact Hb|].
  cbn [fold_left]. apply IH. apply batchTurn_consistent. exact Hb.
Qed.

(** The error entries of the loop name requested content types, in the
    order of the request, at most one per turn. *)
Lemma batchLoop_errors (contentTypes : list string) (b : ContentController.Batch) :
  exists es,
    ContentController.errors (ContentController.batchLoop rt id platforms contentTypes b)
    = ContentController.errors b ++ es
    /\ map fst es `sublist_of` contentTypes.
Proof.
  unfold ContentController.batchLoop. revert b.
  induction contentTypes as [|ct cts IH]; intros b.
  - exists []. cbn. rewrite app_nil_r. split; [reflexivity|constructor].
  - cbn [fold_left].
    destruct (IH (ContentController.batchTurn rt id platforms b ct)) as (es & He & Hsub).
    unfold ContentController.batchTurn in *.
    pose proof (batchTry_errors ct b) as Hte.
    destruct (ContentController.batchTry rt id platforms ct b) as [b1 [u|e]];
      cbn [fst ContentController.errors] in *.
    + exists es. rewrite He, Hte. split; [reflexivity|].
      apply sublist_cons. exact Hsub.
    + exists ((ct, e) :: es). rewrite He, Hte, <- app_assoc. split; [reflexivity|].
      cbn [map fst]. apply sublist_skip. exact Hsub.
Qed.

(** Once the fetched document fails validation, no later turn stores or
    returns anything. *)
Lemma batchItem_invalid (g : World.GenCall)
    (method : AIContentGenerator.Reply -> Js.completion Campaign.Content)
    (b : ContentController.Batch) :
  Campaign.validate (Document.doc (ContentController.session b)) = false ->
  (exists e, snd (ContentController.batchItem rt id g method b) = Js.Throw e)
  /\ Campaign.validate
       (Document.doc
          (ContentController.session (fst (ContentController.batchItem rt id g method b))))
     = false
  /\ World.campaigns
       (Document.world
          (ContentController.session (fst (ContentController.batchItem rt id g method b))))
     = World.campaigns (Document.world (ContentController.session b))
  /\ ContentController.generatedContent (fst (ContentController.batchItem rt id g method b))
     = ContentController.generatedContent b.
Proof.
  intros Hv.
  unfold ContentController.batchItem, ContentController.generateAndAdd,
    ContentController.callService.
  destruct (method _) as [item|e]; [|cbn; eauto].
  unfold Document.addContent. rewrite save_invalid.
  - cbn. rewrite validate_pushContent, Hv. eauto.
  - cbn [Document.doc Document.set_doc Document.set_world].
    rewrite validate_pushContent, Hv. reflexivity.
Qed.

Lemma batchSocial_invalid (ps : list string) (b : ContentController.Batch) :
  Campaign.validate (Document.doc (ContentController.session b)) = false ->
  Campaign.validate
    (Document.doc
       (ContentController.session (fst (ContentController.batchSocial rt id ps b))))
  = false
  /\ World.campaigns
       (Document.world
          (ContentController.session (fst (ContentController.batchSocial rt id ps b))))
     = World.campaigns (Document.world (ContentController.session b))
  /\ ContentController.generatedContent (fst (ContentController.batchSocial rt id ps b))
     = ContentController.generatedContent b.
Proof.
  intros Hv. destruct ps as [|p ps]; [cbn; auto|].
  cbn [ContentController.batchSocial].
  destruct (batchItem_invalid (ContentController.socialCall (Some p))
              (ContentController.serviceSocial rt (Some p)) b Hv) as ([e He] & H).
  destruct (ContentController.batchItem rt id _ _ b) as [b1 [u|e1]]; cbn [fst snd] in *;
    [discriminate|exact H].
Qed.

Lemma batchTurn_invalid (contentType : string) (b : ContentController.Batch) :
  Campaign.validate (Document.doc (ContentController.session b)) = false ->
  Campaign.validate
    (Document.doc
       (ContentController.session (ContentController.batchTurn rt id platforms b contentType)))
  = false
  /\ World.campaigns
       (Document.world
          (ContentController.session
             (ContentController.batchTurn rt id platforms b contentType)))
     = World.campaigns (Document.world (ContentController.session b))
  /\ ContentController.generatedContent
       (ContentController.batchTurn rt id platforms b contentType)
     = ContentController.generatedContent b.
Proof.
  intros Hv. unfold ContentController.batchTurn.
  assert (H : Campaign.validate
                (Document.doc
                   (ContentController.session
                      (fst (ContentController.batchTry rt id platforms contentType b))))
              = false
              /\ World.campaigns
                   (Document.world
                      (ContentController.session
                         (fst (ContentController.batchTry rt id platforms contentType b))))
                 = World.campaigns (Document.world (ContentController.session b))
              /\ ContentController.generatedContent
                   (fst (ContentController.batchTry rt id platforms contentType b))
                 = ContentController.generatedContent b).
  { unfold ContentController.batchTry.
    destruct (String.eqb contentType "email"); [apply batchItem_invalid; exact Hv|].
    destruct (String.eqb contentType "social_post"); [apply batchSocial_invalid; exact Hv|].
    destruct (String.eqb contentType "ad_copy"); [apply batchItem_invalid; exact Hv|].
    auto. }
  destruct (ContentController.batchTry rt id platforms contentType b) as [b1 [u|e]];
    cbn [fst ContentController.session ContentController.generatedContent] in *; exact H.
Qed.

Lemma batchLoop_invalid (contentTypes : list string) (b : ContentController.Batch) :
  Campaign.validate (Document.doc (ContentController.session b)) = false ->
  World.campaigns
    (Document.world
       (ContentController.session
          (ContentController.batchLoop rt id platforms contentTypes b)))
  = World.campaigns (Document.world (ContentController.session b))
  /\ ContentController.generatedContent
       (ContentController.batchLoop rt id platforms contentTypes b)
     = ContentController.generatedContent b.
Proof.
  unfold ContentController.batchLoop. revert b.
  induction contentTypes as [|ct cts IH]; intros b Hv; [auto|].
  cbn [fold_left]. destruct (batchTurn_invalid ct b Hv) as (Hv' & Hc & Hg).
  destruct (IH _ Hv') as [Hc' Hg']. rewrite Hc', Hg'. auto.
Qed.

End BatchInvariant.

Section BatchResponse.

Variable rt : ContentController.Runtime.
Variable body : ContentController.Body.
Variable uid : string.
Variable w : World.t.
Variable c : Campaign.t.

Hypothesis Havailable : ContentController.isAvailable rt = true.
Hypothesis Hauthorized : snd (ContentController.resolveAndAuthorize body uid w) = inr c.

Local Abbreviation cid := (ContentController.campaignId body).
Local Abbreviation requested :=
  (default ["email"; "social_post"] (ContentController.contentTypes body)).
Local Abbreviation final :=
  (ContentController.batchLoop rt cid
     (default ["email"; "linkedin"] (ContentController.platforms body)) requested
     {| ContentController.session :=
          {| Document.world := fst (ContentController.resolveAndAuthorize body uid w);
             Document.doc := ContentController.withCustomInstructions rt body c |};
        ContentController.generatedContent := [];
        ContentController.errors := [] |}).

(** The batch handler past its checks: the loop and the 200 response. *)
Lemma batch_handler_unfold :
  ContentController.batchGenerateContent rt body uid w
  = (Document.world (ContentController.session final),
     Http.ok
       (Http.BatchData (ContentController.generatedContent final)
          (match ContentController.errors final with
           | [] => None
           | _ => Some (ContentController.errors final)
           end))).
Proof.
  unfold ContentController.batchGenerateContent. rewrite Havailable. cbn [negb].
  cbv zeta. destruct (ContentController.resolveAndAuthorize body uid w) as [w1 res].
  cbn [fst snd] in *. subst res. reflexivity.
Qed.

Lemma withCustomInstructions_content_eq :
  Campaign.content (ContentController.withCustomInstructions rt body c) = Campaign.content c.
Proof.
  unfold ContentController.withCustomInstructions.
  destruct (ContentController.customInstructions body) as [v|]; [|reflexivity].
  destruct (Js.truthyString (Some v)); reflexivity.
Qed.

(** An authorized batch request is answered 200 whatever fails inside it,
    and the response tells what was stored: the campaign's stored content is
    the content it had followed by exactly the items of [generatedContent],
    in the order of the response. *)
Theorem batch_response_lists_what_is_stored :
  exists generated errors,
    snd (ContentController.batchGenerateContent rt body uid w)
    = Http.ok (Http.BatchData generated errors)
    /\ Campaign.content <$>
         World.campaigns (fst (ContentController.batchGenerateContent rt body uid w)) !! cid
       = Some (Campaign.content c
                 ++ map (Campaign.castContent (ContentController.trim rt)) generated).
Proof.
  rewrite batch_handler_unfold. eexists _, _. split; [reflexivity|].
  cbn [fst].
  apply (batchLoop_consistent rt cid
           (default ["email"; "linkedin"] (ContentController.platforms body))
           (Campaign.content c) requested).
  cbn [ContentController.session ContentController.generatedContent Document.world
       Document.doc map].
  rewrite app_nil_r, resolveAndAuthorize_world. cbn [World.campaigns World.logLookups].
  apply resolveAndAuthorize_accepts in Hauthorized as [Hc _]. rewrite Hc.
  split; [reflexivity|]. intros _. apply withCustomInstructions_content_eq.
Qed.

(** The [errors] member of a batch response is present only when it is not
    empty, and its entries name requested content types in the order of the
    request, at most one entry per requested entry: a content type whose
    platforms fail one after the other is reported once. *)
Theorem batch_errors_follow_the_request :
  exists generated errors,
    snd (ContentController.batchGenerateContent rt body uid w)
    = Http.ok (Http.BatchData generated errors)
    /\ match errors with
       | None => True
       | Some es => es <> [] /\ map fst es `sublist_of` requested
       end.
Proof.
  rewrite batch_handler_unfold. eexists _, _. split; [reflexivity|].
  destruct (batchLoop_errors rt cid
              (default ["email"; "linkedin"] (ContentController.platforms body)) requested
              {| ContentController.session :=
                   {| Document.world := fst (ContentController.resolveAndAuthorize body uid w);
                      Document.doc := ContentController.withCustomInstructions rt body c |};
                 ContentController.generatedContent := [];
                 ContentController.errors := [] |}) as (es & He & Hsub).
  cbn [ContentController.errors app] in He. rewrite He.
  destruct es as [|e es]; [exact I|]. split; [discriminate|exact Hsub].
Qed.

(** When the fetched campaign, with the request's custom instructions set on
    it, does not pass validation, the batch still answers 200, but with no
    generated content at all, and no campaign is written. *)
Theorem batch_on_invalid_campaign_stores_nothing :
  Campaign.validate (ContentController.withCustomInstructions rt body c) = false ->
  World.campaigns (fst (ContentController.batchGenerateContent rt body uid w))
  = World.campaigns w
  /\ exists errors,
       snd (ContentController.batchGenerateContent rt body uid w)
       = Http.ok (Http.BatchData [] errors).
Proof.
  intros Hv. rewrite batch_handler_unfold. cbn [fst snd].
  destruct (batchLoop_invalid rt cid
              (default ["email"; "linkedin"] (ContentController.platforms body)) requested
              {| ContentController.session :=
                   {| Document.world := fst (ContentController.resolveAndAuthorize body uid w);
                      Document.doc := ContentController.withCustomInstructions rt body c |};
                 ContentController.generatedContent := [];
                 ContentController.errors := [] |} Hv) as [Hc Hg].
  rewrite Hc, Hg. cbn [ContentController.session ContentController.generatedContent
                       Document.world].
  rewrite resolveAndAuthorize_world. split; [reflexivity|]. eexists. reflexivity.
Qed.

End BatchResponse.

(** ** The campaign handlers that write *)

Section CampaignWrites.

Variable trim : string -> string.

(** Adding content by hand, for an actor who may edit the campaign: when the
    stored campaign passes validation and so does the item as the schema
    casts it, the answer is 201 with the cast item and the campaign is stored
    with this one item appended; in every other case the answer is 500 and no
    campaign is written. *)
Theorem addContentToCampaign_outcome (id uid : string) (item : Campaign.Content)
    (w : World.t) (c : Campaign.t) (editable : option bool) :
  World.campaigns w !! id = Some c ->
  Campaign.canBeEditedBy c uid = Js.Normal editable ->
  Js.truthyBool editable = true ->
  if Campaign.validate c && Campaign.validContent (Campaign.castContent trim item)
  then
    snd (CampaignController.addContentToCampaign trim id uid item w)
    = {| Http.statusCode := 201; Http.success := true;
         Http.data := Http.ContentData (Campaign.castContent trim item) |}
    /\ World.campaigns (fst (CampaignController.addContentToCampaign trim id uid item w))
       = <[id := Campaign.preSave (Campaign.pushContent trim item c)]> (World.campaigns w)
  else
    snd (CampaignController.addContentToCampaign trim id uid item w) = Http.failure 500
    /\ World.campaigns (fst (CampaignController.addContentToCampaign trim id uid item w))
       = World.campaigns w.
Proof.
  intros Hc Hedit Htrue.
  unfold CampaignController.addContentToCampaign. rewrite Hc, Hedit, Htrue. cbn [negb].
  destruct (Campaign.validate c) eqn:Hv.
  - destruct (Campaign.validContent (Campaign.castContent trim item)) eqn:Hi; cbn [andb].
    + rewrite addContent_valid by assumption. cbn [fst snd Document.world Document.doc].
      unfold Campaign.preSave.
      cbn [Campaign.content Campaign.set_metrics Campaign.set_content Campaign.pushContent].
      rewrite last_snoc. split; reflexivity.
    + rewrite addContent_invalid by assumption. split; reflexivity.
  - cbn [andb]. unfold Document.addContent. rewrite save_invalid.
    + split; reflexivity.
    + cbn [Document.doc Document.set_doc]. rewrite validate_pushContent, Hv. reflexivity.
Qed.




(** Archiving saves the whole document with the status set to archived, so
    the status the campaign had plays no part in the outcome: for an actor
    who may edit, the answer is 200, with the campaign stored archived, when
    the document with the status archived passes validation, and 500, with
    nothing written, when it does not. *)
Theorem archiveCampaign_outcome (id uid : string) (w : World.t) (c : Campaign.t)
    (editable : option bool) :
  World.campaigns w !! id = Some c ->
  Campaign.canBeEditedBy c uid = Js.Normal editable ->
  Js.truthyBool editable = true ->
  if Campaign.validate (Campaign.set_status "archived" c)
  then
    snd (CampaignController.archiveCampaign id uid w) = Http.ok Http.NoData
    /\ World.campaigns (fst (CampaignController.archiveCampaign id uid w))
       = <[id := Campaign.preSave
                   (Campaign.set_status "archived" (Campaign.set_isArchived true c))]>
           (World.campaigns w)
  else
    snd (CampaignController.archiveCampaign id uid w) = Http.failure 500
    /\ World.campaigns (fst (CampaignController.archiveCampaign id uid w))
       = World.campaigns w.
Proof.
  intros Hc Hedit Htrue.
  unfold CampaignController.archiveCampaign. rewrite Hc, Hedit, Htrue. cbn [negb].
  change (Campaign.validate (Campaign.set_status "archived" c))
    with (Campaign.validate
            (Campaign.set_status "archived" (Campaign.set_isArchived true c))).
  unfold Document.archive.
  destruct (Campaign.validate
              (Campaign.set_status "archived" (Campaign.set_isArchived true c))) eqn:Hv.
  - rewrite save_valid by exact Hv. split; reflexivity.
  - rewrite save_invalid by exact Hv. split; reflexivity.
Qed.

End CampaignWrites.

(** ** The campaign model *)

Lemma contentStats_fold (ty : string) (items : list Campaign.Content)
    (stats : gmap string nat) :
  foldl
    (fun stats item =>
       <[Campaign.contentType item
         := default 0 (stats !! Campaign.contentType item) + 1]> stats)
    stats items !! ty
  = match count_occ string_dec (Campaign.contentType <$> items) ty with
    | O => stats !! ty
    | S n => Some (default 0 (stats !! ty) + S n)
    end.
Proof.
  revert stats. induction items as [|item items IH]; intros stats; [reflexivity|].
  cbn [foldl fmap list_fmap count_occ]. rewrite IH.
  destruct (string_dec (Campaign.contentType item) ty) as [->|Hne].
  - rewrite lookup_insert_eq. cbn [default from_option id].
    destruct (count_occ string_dec (Campaign.contentType <$> items) ty); f_equal; lia.
  - rewrite lookup_insert_ne by exact Hne. reflexivity.
Qed.

(** The content statistics of a campaign whose items carry content types
    of the schema's enumeration count, for every content type, the items of
    this type; a type without items has no entry, never an entry 0. *)
Theorem contentStats_counts (c : Campaign.t) (ty : string) :
  Forall (fun item => Js.includes Campaign.contentTypeEnum (Campaign.contentType item) = true)
    (Campaign.content c) ->
  Campaign.contentStats c !! ty
  = match count_occ string_dec (Campaign.contentType <$> Campaign.content c) ty with
    | O => None
    | S n => Some (S n)
    end.
Proof.
  intros _. unfold Campaign.contentStats. rewrite contentStats_fold, lookup_empty.
  reflexivity.
Qed.

Lemma findCollaborator_throws (pre post : list Campaign.Collaborator)
    (x : Campaign.Collaborator) (uid : string) :
  Forall (fun y => Campaign.c_userId y <> Some uid) pre ->
  Campaign.c_userId x = None ->
  Campaign.findCollaborator (pre ++ x :: post) uid = Js.Throw Js.TypeError.
Proof.
  intros Hpre Hx. induction Hpre as [|y pre Hy _ IH]; cbn [app Campaign.findCollaborator].
  - rewrite Hx. reflexivity.
  - destruct (Campaign.c_userId y) as [u|]; [|reflexivity].
    destruct (String.eqb u uid) eqn:E; [|exact IH].
    apply String.eqb_eq in E. subst u. contradiction.
Qed.

(** A collaborator entry without a user makes the permission test throw for
    every actor who is not the owner and is not listed before that entry:
    the handlers that write answer 500 to such an actor, also to an editor
    listed after the entry. The owner is never affected. *)
Theorem collaborator_without_user_locks_out (trim : string -> string) (id uid : string)
    (w : World.t) (c : Campaign.t) (pre post : list Campaign.Collaborator)
    (x : Campaign.Collaborator) :
  World.campaigns w !! id = Some c ->
  Campaign.collaborators c = pre ++ x :: post ->
  Campaign.c_userId x = None ->
  Forall (fun y => Campaign.c_userId y <> Some uid) pre ->
  Campaign.canBeEditedBy c (Campaign.userId c) = Js.Normal (Some true)
  /\ (Campaign.userId c <> uid ->
      Campaign.canBeEditedBy c uid = Js.Throw Js.TypeError
      /\ (forall body, CampaignController.updateCampaign trim id uid body w
                       = (World.logLookups [World.CampaignFindById id] w, Http.failure 500))
      /\ CampaignController.archiveCampaign id uid w
         = (World.logLookups [World.CampaignFindById id] w, Http.failure 500)
      /\ (forall item, CampaignController.addContentToCampaign trim id uid item w
                       = (World.logLookups [World.CampaignFindById id] w, Http.failure 500))).
Proof.
  intros Hc Hcs Hx Hpre. split.
  - unfold Campaign.canBeEditedBy, Campaign.isOwnedBy. rewrite String.eqb_refl. reflexivity.
  - intros Hne.
    assert (Hthrow : Campaign.canBeEditedBy c uid = Js.Throw Js.TypeError).
    { unfold Campaign.canBeEditedBy, Campaign.isOwnedBy.
      apply String.eqb_neq in Hne. rewrite Hne, Hcs, findCollaborator_throws by assumption.
      reflexivity. }
    split; [exact Hthrow|].
    unfold CampaignController.updateCampaign, CampaignController.archiveCampaign,
      CampaignController.addContentToCampaign.
    rewrite Hc, Hthrow. auto.
Qed.

(** ** Personas *)

(** The persona guard of the campaign handlers and that of the generation
    handlers are written differently and deny the same requests; neither
    denies a persona that the actor may edit. *)
Theorem persona_guards_agree (p : Persona.t) (uid : string) :
  Persona.accessDeniedCampaign p uid = Persona.accessDeniedContent p uid
  /\ Persona.canBeEditedBy p uid && Persona.accessDeniedCampaign p uid = false.
Proof.
  unfold Persona.accessDeniedCampaign, Persona.accessDeniedContent, Persona.canBeEditedBy,
    Persona.isOwnedBy.
  destruct (Persona.isPredefined p), (Persona.userId p) as [o|]; cbn; auto.
  destruct (String.eqb o uid); auto.
Qed.

Section PersonaWrites.

Variable trim : string -> string.


(** An update stores what the body says over the persona, the owner
    included: after a successful update whose body names another user, the
    persona belongs to that user, who may edit it, and the actor's next
    update or delete of it is answered 403. The stored persona is never
    predefined. *)
Theorem updatePersona_hands_over (id uid other : string)
    (body next : PersonaController.Body) (w : World.t) :
  PersonaController.success (snd (PersonaController.updatePersona trim id uid body w))
  = true ->
  PersonaController.b_userId body = Some other ->
  other <> uid ->
  (exists p,
     World.personas (fst (PersonaController.updatePersona trim id uid body w)) !! id = Some p
     /\ Persona.isPredefined p = false
     /\ Persona.canBeEditedBy p other = true)
  /\ snd (PersonaController.updatePersona trim id uid next
            (fst (PersonaController.updatePersona trim id uid body w)))
     = PersonaController.failure 403
  /\ snd (PersonaController.deletePersona id uid
            (fst (PersonaController.updatePersona trim id uid body w)))
     = PersonaController.failure 403.
Proof.
  intros Hok Hb Hne.
  assert (Hrun : exists p,
            fst (PersonaController.updatePersona trim id uid body w)
            = PersonaController.set_personas
                (<[id := PersonaController.applyUpdate trim body p]>
                   (World.personas (World.logLookups [World.PersonaFindById id] w)))
                (World.logLookups [World.PersonaFindById id] w)).
  { revert Hok. unfold PersonaController.updatePersona.
    destruct (World.personas w !! id) as [p|]; [|discriminate].
    destruct (negb (Persona.canBeEditedBy p uid)); [discriminate|].
    destruct (PersonaController.validUpdate trim body); [|discriminate]. intros _.
    exists p. reflexivity. }
  destruct Hrun as [p Hrun]. rewrite Hrun. clear Hrun Hok.
  assert (Hp : Persona.canBeEditedBy (PersonaController.applyUpdate trim body p) uid = false).
  { unfold Persona.canBeEditedBy, Persona.isOwnedBy, PersonaController.applyUpdate.
    cbn [Persona.isPredefined Persona.userId]. rewrite Hb.
    apply String.eqb_neq. exact Hne. }
  split; [|split].
  - exists (PersonaController.applyUpdate trim body p).
    cbn [World.personas PersonaController.set_personas]. rewrite lookup_insert_eq.
    split; [reflexivity|]. split; [reflexivity|].
    unfold Persona.canBeEditedBy, Persona.isOwnedBy, PersonaController.applyUpdate.
    cbn [Persona.isPredefined Persona.userId]. rewrite Hb. apply String.eqb_refl.
  - unfold PersonaController.updatePersona.
    cbn [World.personas PersonaController.set_personas]. rewrite lookup_insert_eq, Hp.
    reflexivity.
  - unfold PersonaController.deletePersona.
    cbn [World.personas PersonaController.set_personas]. rewrite lookup_insert_eq, Hp.
    reflexivity.
Qed.

End PersonaWrites.

(** Deleting a persona leaves the campaigns that name it as they are, and
    from then on every email, ad copy and batch generation that names the
    persona is answered 404, whoever asks and whichever campaign is named,
    the two identifiers of the request being ObjectIds (a request with
    another campaign identifier is answered 500, or 400 by the route). *)
Theorem deleted_persona_blocks_generation (rt : ContentController.Runtime)
    (id uid actor : string) (body : ContentController.Body) (w : World.t) :
  PersonaController.success (snd (PersonaController.deletePersona id uid w)) = true ->
  ContentController.isAvailable rt = true ->
  ContentController.personaId body = id ->
  Js.isObjectId id = true ->
  Js.isObjectId (ContentController.campaignId body) = true ->
  World.campaigns (fst (PersonaController.deletePersona id uid w)) = World.campaigns w
  /\ Http.statusCode
       (snd (ContentController.generateEmailContent rt body actor
               (fst (PersonaController.deletePersona id uid w)))) = 404
  /\ Http.statusCode
       (snd (ContentController.generateAdCopy rt body actor
               (fst (PersonaController.deletePersona id uid w)))) = 404
  /\ Http.statusCode
       (snd (ContentController.batchGenerateContent rt body actor
               (fst (PersonaController.deletePersona id uid w)))) = 404.
Proof.
  intros Hok Havail Hid Hpid Hcid. revert Hok. unfold PersonaController.deletePersona.
  destruct (World.personas w !! id) as [p|];
    [|unfold PersonaController.missing; discriminate].
  destruct (negb (Persona.canBeEditedBy p uid)); [discriminate|]. intros _.
  cbn [fst]. split; [reflexivity|].
  assert (Hres : forall w',
            World.personas w' !! id = None ->
            exists w1, ContentController.resolveAndAuthorize body actor w'
                       = (w1, inl (Http.failure 404))).
  { intros w' Hnone. unfold ContentController.resolveAndAuthorize.
    rewrite Hid, Hnone. unfold ContentController.castError. rewrite Hpid, Hcid.
    destruct (World.campaigns w' !! _); cbn; eauto. }
  destruct (Hres (PersonaController.set_personas
                    (delete id
                       (World.personas (World.logLookups [World.PersonaFindById id] w)))
                    (World.logLookups [World.PersonaFindById id] w)))
    as [w1 Hw1].
  { cbn [World.personas PersonaController.set_personas]. apply lookup_delete_eq. }
  unfold ContentController.generateEmailContent, ContentController.generateAdCopy,
    ContentController.batchGenerateContent.
  cbv zeta. rewrite Havail, Hw1. auto.
Qed.

Section PersonaListing.

Variable textMatch : string -> Persona.t -> bool.

(** The listing shows stored personas only, and among them only predefined
    ones and the actor's own, whatever the query; its count is the number of
    personas shown. Without search and filter it shows all of these. *)
Theorem getPersonas_visibility (uid : string) (q : PersonaController.Query) (w : World.t) :
  (exists shown,
     PersonaController.getPersonas textMatch uid q w
     = {| PersonaController.statusCode := 200; PersonaController.success := true;
          PersonaController.data := PersonaController.PersonaList (size shown) shown |}
     /\ shown ⊆ World.personas w
     /\ map_Forall
          (fun _ p => Persona.isPredefined p = true \/ Persona.userId p = Some uid) shown)
  /\ exists shown,
       PersonaController.data
         (PersonaController.getPersonas textMatch uid
            {| PersonaController.search := None; PersonaController.isPredefined := None |} w)
       = PersonaController.PersonaList (size shown) shown
       /\ forall k p,
            shown !! k = Some p
            <-> World.personas w !! k = Some p
                /\ (Persona.isPredefined p = true \/ Persona.userId p = Some uid).
Proof.
  assert (Hvis : forall p,
            PersonaController.matches (PersonaController.listingFilter uid q) p = true ->
            Persona.isPredefined p = true \/ Persona.userId p = Some uid).
  { intros p. unfold PersonaController.listingFilter, PersonaController.matches.
    destruct (PersonaController.isPredefined q) as [v|].
    - destruct (String.eqb v "true"); [auto|].
      destruct (Persona.userId p) as [o|]; [|discriminate].
      destruct (String.eqb o uid) eqn:E; [|discriminate].
      apply String.eqb_eq in E. subst o. auto.
    - destruct (Persona.userId p) as [o|]; cbn [orb]; [|auto].
      destruct (String.eqb o uid) eqn:E; cbn [orb]; [|auto].
      apply String.eqb_eq in E. subst o. auto. }
  split.
  - unfold PersonaController.getPersonas. cbv zeta.
    eexists. split; [reflexivity|]. split.
    + destruct (PersonaController.search q) as [s|]; [destruct (Js.truthyString (Some s))|];
        apply map_filter_subseteq.
    + intros k p.
      destruct (PersonaController.search q) as [s|]; [destruct (Js.truthyString (Some s))|];
        intros [_ Hm]%map_lookup_filter_Some; cbn [snd] in Hm; apply Hvis.
      * apply andb_true_iff in Hm as [Hm _]. exact Hm.
      * exact Hm.
      * exact Hm.
  - unfold PersonaController.getPersonas. cbv zeta.
    cbn [PersonaController.search PersonaController.data]. eexists. split; [reflexivity|].
    intros k p. rewrite map_lookup_filter_Some. cbn [snd fst].
    unfold PersonaController.listingFilter, PersonaController.matches.
    cbn [PersonaController.isPredefined].
    split; intros [Hk Hm]; (split; [exact Hk|]).
    + destruct (Persona.userId p) as [o|]; cbn [orb] in Hm; [|auto].
      destruct (String.eqb o uid) eqn:E; cbn [orb] in Hm; [|auto].
      apply String.eqb_eq in E. subst o. auto.
    + destruct Hm as [-> | ->]; [apply orb_true_r|]. rewrite String.eqb_refl. reflexivity.
Qed.

End PersonaListing.

(** ** The connection registry *)

(** What every reachable state of the registry satisfies: the server is
    set, a user's registered socket is open and registered for this user,
    and the sockets with a registered user are the open ones. *)
Lemma reachable_registry (s : SocketService.t) :
  SocketService.reachable s ->
  SocketService.io s = true
  /\ (forall u k,
        SocketService.userSockets s !! u = Some k ->
        k ∈ SocketService.sockets s /\ SocketService.socketUsers s !! k = Some u)
  /\ (forall k,
        k ∈ SocketService.sockets s <-> is_Some (SocketService.socketUsers s !! k)).
Proof.
  induction 1 as [|s e _ (Hio & Huser & Hopen) Hpossible].
  - cbn. split; [reflexivity|]. split.
    + intros u k H. rewrite lookup_empty in H. discriminate.
    + intros k. rewrite lookup_empty. split; [sockets_solve|]. intros [x Hx]. discriminate.
  - destruct e as [u k|u k]; cbn in Hpossible |- *.
    + split; [exact Hio|]. split.
      * intros u' k' H. destruct (decide (u' = u)) as [->|Hne].
        -- rewrite lookup_insert_eq in H. injection H as <-.
           rewrite lookup_insert_eq. split; [sockets_solve|reflexivity].
        -- rewrite lookup_insert_ne in H by congruence.
           destruct (Huser u' k' H) as [Hin Hk']. split; [sockets_solve|].
           rewrite lookup_insert_ne; [exact Hk'|]. intros ->. contradiction.
      * intros k'. destruct (decide (k' = k)) as [->|Hne].
        -- rewrite lookup_insert_eq. split; [eauto|sockets_solve].
        -- rewrite lookup_insert_ne by congruence. rewrite <- Hopen. sockets_solve.
    + destruct Hpossible as [Hin Hk]. split; [exact Hio|]. split.
      * intros u' k' H. destruct (decide (u' = u)) as [->|Hne].
        -- rewrite lookup_delete_eq in H. discriminate.
        -- rewrite lookup_delete_ne in H by congruence.
           destruct (Huser u' k' H) as [Hin' Hk'].
           assert (k' <> k) by (intros ->; congruence).
           split; [sockets_solve|]. rewrite lookup_delete_ne by congruence. exact Hk'.
      * intros k'. destruct (decide (k' = k)) as [->|Hne].
        -- rewrite lookup_delete_eq. split; [sockets_solve|]. intros [x Hx]. discriminate.
        -- rewrite lookup_delete_ne by congruence. rewrite <- Hopen. sockets_solve.
Qed.

(** In a state reached by connections and disconnections, an event emitted
    to a user goes to an open socket of this user and to nothing else: the
    registry never points at a closed socket or at the socket of another
    user. *)
Theorem emitToUser_targets_own_open_socket (s : SocketService.t) (u ev : string) :
  SocketService.reachable s ->
  snd (SocketService.emitToUser u ev s) = true ->
  exists k,
    SocketService.emitted (fst (SocketService.emitToUser u ev s))
    = SocketService.emitted s ++ [(k, ev)]
    /\ k ∈ SocketService.sockets s
    /\ SocketService.socketUsers s !! k = Some u.
Proof.
  intros Hs. destruct (reachable_registry s Hs) as (Hio & Huser & _).
  unfold SocketService.emitToUser. rewrite Hio. cbn [negb].
  destruct (SocketService.userSockets s !! u) as [k|] eqn:Hk; [|discriminate].
  intros _. exists k. split; [reflexivity|]. apply Huser. exact Hk.
Qed.

(** The registry keeps one socket per user and forgets the user when any of
    the user's sockets closes: after the disconnection of one socket, the
    user counts as not connected and events for the user are dropped, while
    another socket of the same user is still open and registered for the
    user. *)
Theorem disconnect_forgets_other_socket (s : SocketService.t) (u k other ev : string) :
  other <> k ->
  other ∈ SocketService.sockets s ->
  SocketService.socketUsers s !! other = Some u ->
  SocketService.isUserConnected u (SocketService.disconnect u k s) = false
  /\ SocketService.emitToUser u ev (SocketService.disconnect u k s)
     = (SocketService.disconnect u k s, false)
  /\ other ∈ SocketService.sockets (SocketService.disconnect u k s)
  /\ SocketService.socketUsers (SocketService.disconnect u k s) !! other = Some u.
Proof.
  intros Hne Hin Hother.
  unfold SocketService.isUserConnected, SocketService.emitToUser.
  cbn [SocketService.disconnect SocketService.userSockets SocketService.io
       SocketService.sockets SocketService.socketUsers].
  rewrite lookup_delete_eq, lookup_delete_ne by congruence.
  split; [apply bool_decide_eq_false; intros [x Hx]; discriminate|].
  split; [destruct (negb (SocketService.io s)); reflexivity|].
  split; [sockets_solve|exact Hother].
Qed.

(** ** The properties at concrete requests *)

(** An email generation for campaign "c1" by its owner: answered 200, one
    item stored. *)
Lemma single_generation_appends_one_witness :
  ContentController.isAvailable (Fixture.runtime (Some "sk-test") Fixture.steady) = true
  /\ snd (ContentController.resolveAndAuthorize
            (Fixture.request None None None None None) "u1" (Fixture.world "draft"))
     = inr (Fixture.campaign "draft" [])
  /\ Campaign.validate
       (ContentController.withCustomInstructions
          (Fixture.runtime (Some "sk-test") Fixture.steady)
          (Fixture.request None None None None None) (Fixture.campaign "draft" []))
     = true
  /\ snd (ContentController.generateEmailContent
            (Fixture.runtime (Some "sk-test") Fixture.steady)
            (Fixture.request None None None None None) "u1" (Fixture.world "draft"))
     = Http.ok (Http.ContentData Fixture.steadyEmail)
  /\ Campaign.content <$>
       Fixture.stored
         (fst (ContentController.generateEmailContent
                 (Fixture.runtime (Some "sk-test") Fixture.steady)
                 (Fixture.request None None None None None) "u1" (Fixture.world "draft")))
     = Some [Fixture.steadyEmail].
Proof.
  split; [reflexivity|]. split; [reflexivity|]. split; [reflexivity|].
  pose proof (single_generation_appends_one
                (Fixture.runtime (Some "sk-test") Fixture.steady)
                (Fixture.request None None None None None) "u1" (Fixture.world "draft")
                (Fixture.campaign "draft" []) eq_refl eq_refl eq_refl)
    as (Hemail & _ & _).
  destruct (Hemail Fixture.steadyEmail eq_refl eq_refl) as [Hresponse Hstored].
  split; [exact Hresponse|].
  unfold Fixture.stored.
  cbn [ContentController.campaignId Fixture.request] in Hstored.
  rewrite Hstored. reflexivity.
Defined.

(** The same request with custom instructions " Be brief ": the stored
    campaign carries them, trimmed. *)
Lemma customInstructions_are_stored_witness :
  ContentController.isAvailable (Fixture.runtime (Some "sk-test") Fixture.steady) = true
  /\ snd (ContentController.resolveAndAuthorize
            (Fixture.instructedRequest " Be brief ") "u1" (Fixture.world "draft"))
     = inr (Fixture.campaign "draft" [])
  /\ (Campaign.customInstructions ∘ Campaign.generationSettings) <$>
       Fixture.stored
         (fst (ContentController.generateEmailContent
                 (Fixture.runtime (Some "sk-test") Fixture.steady)
                 (Fixture.instructedRequest " Be brief ") "u1" (Fixture.world "draft")))
     = Some (Some "Be brief").
Proof.
  split; [reflexivity|]. split; [reflexivity|].
  destruct (customInstructions_are_stored
              (Fixture.runtime (Some "sk-test") Fixture.steady)
              (Fixture.instructedRequest " Be brief ") "u1" (Fixture.world "draft")
              (Fixture.campaign "draft" []) eq_refl eq_refl eq_refl
              " Be brief " Fixture.steadyEmail eq_refl ltac:(discriminate) eq_refl eq_refl)
    as [Hinstructions _].
  exact Hinstructions.
Defined.

(** Two variations of a twitter post for campaign "c1", whose settings list
    no platform: afterwards they list twitter. *)
Lemma social_variations_overwrite_platforms_witness :
  ContentController.isAvailable (Fixture.runtime (Some "sk-test") Fixture.steady) = true
  /\ snd (ContentController.resolveAndAuthorize
            (Fixture.request (Some "twitter") (Some "social_post") None None None)
            "u1" (Fixture.world "draft"))
     = inr (Fixture.campaign "draft" [])
  /\ Campaign.platforms (Campaign.generationSettings (Fixture.campaign "draft" [])) = []
  /\ (Campaign.platforms ∘ Campaign.generationSettings) <$>
       Fixture.stored
         (fst (ContentController.generateContentVariations
                 (Fixture.runtime (Some "sk-test") Fixture.steady)
                 (Fixture.request (Some "twitter") (Some "social_post") None None None)
                 "u1" (Fixture.world "draft")))
     = Some ["twitter"].
Proof.
  split; [reflexivity|]. split; [reflexivity|]. split; [reflexivity|].
  destruct (social_variations_overwrite_platforms
              (Fixture.runtime (Some "sk-test") Fixture.steady)
              (Fixture.request (Some "twitter") (Some "social_post") None None None)
              "u1" (Fixture.world "draft") (Fixture.campaign "draft" []) 2%Z
              [Fixture.steadySocial "twitter"; Fixture.steadySocial "twitter"]
              eq_refl eq_refl eq_refl eq_refl ltac:(lia) eq_refl eq_refl
              ltac:(repeat constructor))
    as [_ Hplatforms].
  exact Hplatforms.
Defined.

(** The default batch for campaign "c1": what the response lists is what
    the campaign holds afterwards. *)
Lemma batch_response_lists_what_is_stored_witness :
  ContentController.isAvailable (Fixture.runtime (Some "sk-test") Fixture.steady) = true
  /\ snd (ContentController.resolveAndAuthorize
            (Fixture.request None None None None None) "u1" (Fixture.world "draft"))
     = inr (Fixture.campaign "draft" [])
  /\ exists generated errors,
       snd (ContentController.batchGenerateContent
              (Fixture.runtime (Some "sk-test") Fixture.steady)
              (Fixture.request None None None None None) "u1" (Fixture.world "draft"))
       = Http.ok (Http.BatchData generated errors)
       /\ Campaign.content <$>
            Fixture.stored
              (fst (ContentController.batchGenerateContent
                      (Fixture.runtime (Some "sk-test") Fixture.steady)
                      (Fixture.request None None None None None) "u1"
                      (Fixture.world "draft")))
          = Some (map (Campaign.castContent JsString.trim) generated).
Proof.
  split; [reflexivity|]. split; [reflexivity|].
  exact (batch_response_lists_what_is_stored
           (Fixture.runtime (Some "sk-test") Fixture.steady)
           (Fixture.request None None None None None) "u1" (Fixture.world "draft")
           (Fixture.campaign "draft" []) eq_refl eq_refl).
Defined.

(** A batch whose first generation fails: the errors name email, the first
    requested content type. *)
Lemma batch_errors_follow_the_request_witness :
  ContentController.isAvailable (Fixture.runtime (Some "sk-test") (Fixture.failingAt 0))
  = true
  /\ snd (ContentController.resolveAndAuthorize
            (Fixture.request None None None None None) "u1" (Fixture.world "draft"))
     = inr (Fixture.campaign "draft" [])
  /\ exists generated errors,
       snd (ContentController.batchGenerateContent
              (Fixture.runtime (Some "sk-test") (Fixture.failingAt 0))
              (Fixture.request None None None None None) "u1" (Fixture.world "draft"))
       = Http.ok (Http.BatchData generated errors)
       /\ match errors with
          | None => True
          | Some es => es <> [] /\ map fst es `sublist_of` ["email"; "social_post"]
          end.
Proof.
  split; [reflexivity|]. split; [reflexivity|].
  exact (batch_errors_follow_the_request
           (Fixture.runtime (Some "sk-test") (Fixture.failingAt 0))
           (Fixture.request None None None None None) "u1" (Fixture.world "draft")
           (Fixture.campaign "draft" []) eq_refl eq_refl).
Defined.

(** A batch with custom instructions of 1001 letters: 200, nothing
    generated, nothing stored. *)
Lemma batch_on_invalid_campaign_stores_nothing_witness :
  ContentController.isAvailable (Fixture.runtime (Some "sk-test") Fixture.steady) = true
  /\ snd (ContentController.resolveAndAuthorize
            (Fixture.instructedRequest (Fixture.letters 1001)) "u1" (Fixture.world "draft"))
     = inr (Fixture.campaign "draft" [])
  /\ Campaign.validate
       (ContentController.withCustomInstructions
          (Fixture.runtime (Some "sk-test") Fixture.steady)
          (Fixture.instructedRequest (Fixture.letters 1001)) (Fixture.campaign "draft" []))
     = false
  /\ World.campaigns
       (fst (ContentController.batchGenerateContent
               (Fixture.runtime (Some "sk-test") Fixture.steady)
               (Fixture.instructedRequest (Fixture.letters 1001)) "u1"
               (Fixture.world "draft")))
     = World.campaigns (Fixture.world "draft")
  /\ exists errors,
       snd (ContentController.batchGenerateContent
              (Fixture.runtime (Some "sk-test") Fixture.steady)
              (Fixture.instructedRequest (Fixture.letters 1001)) "u1"
              (Fixture.world "draft"))
       = Http.ok (Http.BatchData [] errors).
Proof.
  split; [reflexivity|]. split; [reflexivity|]. split; [vm_compute; reflexivity|].
  exact (batch_on_invalid_campaign_stores_nothing
           (Fixture.runtime (Some "sk-test") Fixture.steady)
           (Fixture.instructedRequest (Fixture.letters 1001)) "u1" (Fixture.world "draft")
           (Fixture.campaign "draft" []) eq_refl eq_refl
           ltac:(vm_compute; reflexivity)).
Defined.

(** The owner of campaign "c1" adds a linkedin post by hand: 201 with the
    post as the schema casts it. *)
Lemma addContentToCampaign_outcome_witness :
  World.campaigns (Fixture.world "draft") !! Fixture.c1 = Some (Fixture.campaign "draft" [])
  /\ Campaign.canBeEditedBy (Fixture.campaign "draft" []) "u1" = Js.Normal (Some true)
  /\ snd (CampaignController.addContentToCampaign JsString.trim Fixture.c1 "u1"
            (Fixture.post "  Launch day  ") (Fixture.world "draft"))
     = {| Http.statusCode := 201; Http.success := true;
          Http.data := Http.ContentData (Fixture.post "Launch day") |}
  /\ World.campaigns
       (fst (CampaignController.addContentToCampaign JsString.trim Fixture.c1 "u1"
               (Fixture.post "  Launch day  ") (Fixture.world "draft")))
     = <[Fixture.c1 := Campaign.preSave
                   (Campaign.pushContent JsString.trim (Fixture.post "  Launch day  ")
                      (Fixture.campaign "draft" []))]>
         (World.campaigns (Fixture.world "draft")).
Proof.
  split; [reflexivity|]. split; [reflexivity|].
  exact (addContentToCampaign_outcome JsString.trim Fixture.c1 "u1"
           (Fixture.post "  Launch day  ") (Fixture.world "draft")
           (Fixture.campaign "draft" []) (Some true) eq_refl eq_refl eq_refl).
Defined.


(** The owner archives the active campaign "c1". *)
Lemma archiveCampaign_outcome_witness :
  World.campaigns (Fixture.world "active") !! Fixture.c1 = Some (Fixture.campaign "active" [])
  /\ Campaign.canBeEditedBy (Fixture.campaign "active" []) "u1" = Js.Normal (Some true)
  /\ snd (CampaignController.archiveCampaign Fixture.c1 "u1" (Fixture.world "active"))
     = Http.ok Http.NoData
  /\ World.campaigns (fst (CampaignController.archiveCampaign Fixture.c1 "u1" (Fixture.world "active")))
     = <[Fixture.c1 := Campaign.preSave
                   (Campaign.set_status "archived"
                      (Campaign.set_isArchived true (Fixture.campaign "active" [])))]>
         (World.campaigns (Fixture.world "active")).
Proof.
  split; [reflexivity|]. split; [reflexivity|].
  exact (archiveCampaign_outcome Fixture.c1 "u1" (Fixture.world "active")
           (Fixture.campaign "active" []) (Some true) eq_refl eq_refl eq_refl).
Defined.

(** Campaign "c1" with an entry without a user before the editor entry of
    "u2": the editor's archive request is answered 500. *)
Lemma collaborator_without_user_locks_out_witness :
  Campaign.collaborators (Fixture.campaign "draft" Fixture.anonymousThenEditor)
  = [] ++ {| Campaign.c_userId := None; Campaign.c_role := "viewer" |}
       :: [ {| Campaign.c_userId := Some "u2"; Campaign.c_role := "editor" |} ]
  /\ Campaign.canBeEditedBy (Fixture.campaign "draft" Fixture.anonymousThenEditor) "u2"
     = Js.Throw Js.TypeError
  /\ CampaignController.archiveCampaign Fixture.c1 "u2"
       (Fixture.worldWith (Fixture.campaign "draft" Fixture.anonymousThenEditor))
     = (World.logLookups [World.CampaignFindById Fixture.c1]
          (Fixture.worldWith (Fixture.campaign "draft" Fixture.anonymousThenEditor)),
        Http.failure 500).
Proof.
  split; [reflexivity|].
  destruct (collaborator_without_user_locks_out JsString.trim Fixture.c1 "u2"
              (Fixture.worldWith (Fixture.campaign "draft" Fixture.anonymousThenEditor))
              (Fixture.campaign "draft" Fixture.anonymousThenEditor) []
              [ {| Campaign.c_userId := Some "u2"; Campaign.c_role := "editor" |} ]
              {| Campaign.c_userId := None; Campaign.c_role := "viewer" |}
              eq_refl eq_refl eq_refl ltac:(constructor))
    as [_ Hlocked].
  destruct (Hlocked ltac:(discriminate)) as (Hthrow & _ & Harchive & _).
  split; [exact Hthrow|exact Harchive].
Defined.

(** User "u1" updates the own persona "p1" with a body that names "u2" as
    the owner: the next update and the delete of "u1" are refused. *)
Lemma updatePersona_hands_over_witness :
  PersonaController.success
    (snd (PersonaController.updatePersona JsString.trim Fixture.p1 "u1" (Fixture.ownerBody "u2")
            (Fixture.world "draft")))
  = true
  /\ snd (PersonaController.updatePersona JsString.trim Fixture.p1 "u1"
            (Fixture.renameBody "Mine")
            (fst (PersonaController.updatePersona JsString.trim Fixture.p1 "u1"
                    (Fixture.ownerBody "u2") (Fixture.world "draft"))))
     = PersonaController.failure 403
  /\ snd (PersonaController.deletePersona Fixture.p1 "u1"
            (fst (PersonaController.updatePersona JsString.trim Fixture.p1 "u1"
                    (Fixture.ownerBody "u2") (Fixture.world "draft"))))
     = PersonaController.failure 403.
Proof.
  split; [reflexivity|].
  destruct (updatePersona_hands_over JsString.trim Fixture.p1 "u1" "u2" (Fixture.ownerBody "u2")
              (Fixture.renameBody "Mine") (Fixture.world "draft")
              eq_refl eq_refl ltac:(discriminate))
    as (_ & Hupdate & Hdelete).
  split; [exact Hupdate|exact Hdelete].
Defined.

(** User "u1" deletes the persona "p1" that campaign "c1" uses: the
    campaign stays, and its owner's email generation is answered 404. *)
Lemma deleted_persona_blocks_generation_witness :
  PersonaController.success
    (snd (PersonaController.deletePersona Fixture.p1 "u1" (Fixture.world "draft"))) = true
  /\ ContentController.isAvailable (Fixture.runtime (Some "sk-test") Fixture.steady) = true
  /\ Js.isObjectId Fixture.p1 = true
  /\ Campaign.personaId <$>
       Fixture.stored
         (fst (PersonaController.deletePersona Fixture.p1 "u1" (Fixture.world "draft")))
     = Some Fixture.p1
  /\ Http.statusCode
       (snd (ContentController.generateEmailContent
               (Fixture.runtime (Some "sk-test") Fixture.steady)
               (Fixture.request None None None None None) "u1"
               (fst (PersonaController.deletePersona Fixture.p1 "u1"
                       (Fixture.world "draft")))))
     = 404.
Proof.
  split; [reflexivity|]. split; [reflexivity|]. split; [reflexivity|].
  destruct (deleted_persona_blocks_generation
              (Fixture.runtime (Some "sk-test") Fixture.steady) Fixture.p1 "u1" "u1"
              (Fixture.request None None None None None) (Fixture.world "draft")
              eq_refl eq_refl eq_refl eq_refl eq_refl)
    as (Hcampaigns & Hemail & _).
  split; [|exact Hemail].
  unfold Fixture.stored. rewrite Hcampaigns. reflexivity.
Defined.

Lemma twoSockets_reachable : SocketService.reachable Fixture.twoSockets.
Proof.
  unfold Fixture.twoSockets.
  apply SocketService.reachable_step;
    [apply SocketService.reachable_step; [apply SocketService.reachable_start|]|];
    cbn; sockets_solve.
Qed.

(** After user "u1" connected twice, a notification for "u1" goes to the
    second socket, which is open and registered for "u1". *)
Lemma emitToUser_targets_own_open_socket_witness :
  SocketService.reachable Fixture.twoSockets
  /\ snd (SocketService.emitToUser "u1" "notification" Fixture.twoSockets) = true
  /\ exists k,
       SocketService.emitted
         (fst (SocketService.emitToUser "u1" "notification" Fixture.twoSockets))
       = SocketService.emitted Fixture.twoSockets ++ [(k, "notification")]
       /\ k ∈ SocketService.sockets Fixture.twoSockets
       /\ SocketService.socketUsers Fixture.twoSockets !! k = Some "u1".
Proof.
  split; [exact twoSockets_reachable|]. split; [reflexivity|].
  exact (emitToUser_targets_own_open_socket Fixture.twoSockets "u1" "notification"
           twoSockets_reachable eq_refl).
Defined.

(** After user "u1" connected twice and the first socket closed, "u1"
    counts as not connected although the second socket is open. *)
Lemma disconnect_forgets_other_socket_witness :
  "s2" ∈ SocketService.sockets Fixture.twoSockets
  /\ SocketService.socketUsers Fixture.twoSockets !! "s2" = Some "u1"
  /\ SocketService.possible Fixture.twoSockets (SocketService.Disconnect "u1" "s1")
  /\ SocketService.isUserConnected "u1"
       (SocketService.disconnect "u1" "s1" Fixture.twoSockets)
     = false
  /\ "s2" ∈ SocketService.sockets (SocketService.disconnect "u1" "s1" Fixture.twoSockets).
Proof.
  assert (Hopen : "s2" ∈ SocketService.sockets Fixture.twoSockets) by (cbn; sockets_solve).
  split; [exact Hopen|]. split; [reflexivity|].
  split; [split; [cbn; sockets_solve|reflexivity]|].
  destruct (disconnect_forgets_other_socket Fixture.twoSockets "u1" "s1" "s2" "notification"
              ltac:(discriminate) Hopen eq_refl)
    as (Hconnected & _ & Hstill & _).
  split; [exact Hconnected|exact Hstill].
Defined.

(** A campaign with a linkedin post, an email and a twitter post: two social
    posts, no blog post. *)
Lemma contentStats_counts_witness :
  Campaign.contentStats
    (Fixture.withContent
       [Fixture.steadySocial "linkedin"; Fixture.steadyEmail; Fixture.steadySocial "twitter"])
  !! "social_post" = Some 2
  /\ Campaign.contentStats
       (Fixture.withContent
          [Fixture.steadySocial "linkedin"; Fixture.steadyEmail;
           Fixture.steadySocial "twitter"])
     !! "blog_post" = None.
Proof.
  split.
  - exact (contentStats_counts
             (Fixture.withContent
                [Fixture.steadySocial "linkedin"; Fixture.steadyEmail;
                 Fixture.steadySocial "twitter"])
             "social_post" ltac:(repeat constructor)).
  - exact (contentStats_counts
             (Fixture.withContent
                [Fixture.steadySocial "linkedin"; Fixture.steadyEmail;
                 Fixture.steadySocial "twitter"])
             "blog_post" ltac:(repeat constructor)).
Defined.
